(** * mm3ds: the renderer core (source/renderer.c, source/inc/renderer.h,
      source/inc/panic.h, source/panic.c)

    A shallow embedding of the mesh registry, the frame request queue and
    the draw submission loop, over an explicit model of the C heap
    (malloc / realloc / linearAlloc with byte sizes) and of the calls the
    citro3d backend receives. *)

From stdpp Require Import gmap strings list fin_maps.
From Stdlib Require Import ZArith Lia.

Local Open Scope Z_scope.

(** ** Scalars *)

(** A C [float], kept as its IEEE-754 binary32 bit pattern: the renderer
    never computes with floats, it only stores and forwards them. *)
Definition float := Z.

Definition f_0_0 : float := 0x00000000.    (*  0.0f *)
Definition f_1_0 : float := 0x3F800000.    (*  1.0f *)
Definition f_neg_1_0 : float := 0xBF800000. (* -1.0f *)
Definition f_0_2 : float := 0x3E4CCCCD.    (*  0.2f *)

(** [size_t] and [u32] on the 3DS (ARM, ILP32): 32 bits, modular. *)
Definition SIZE_MAX : Z := 2 ^ 32 - 1.
Definition size_t_wrap (z : Z) : Z := z mod 2 ^ 32.
Definition size_t_add (a b : Z) : Z := size_t_wrap (a + b).
Definition size_t_sub (a b : Z) : Z := size_t_wrap (a - b).
Definition size_t_mul (a b : Z) : Z := size_t_wrap (a * b).
Definition u32_of_size_t (z : Z) : Z := z mod 2 ^ 32.

(** [int] on the 3DS: 32 bits, two's complement.  A [size_t] passed where
    an [int] is taken is converted; for a value that does not fit the
    result is implementation-defined, and the compilers for the 3DS keep
    the low 32 bits. *)
Definition int_of_size_t (z : Z) : Z :=
  if bool_decide (z mod 2 ^ 32 < 2 ^ 31) then z mod 2 ^ 32 else z mod 2 ^ 32 - 2 ^ 32.

(** A pointer returned by an allocator: [None] is NULL, [Some a] the base
    address of block [a]. *)
Definition ptr := option nat.
Definition NULL : ptr := None.

(** ** Data model (inc/renderer.h) *)

(** citro3d's [C3D_FVec] (four floats) and [C3D_Mtx] (four rows). *)
Record C3D_FVec := FVec { fv_x : float; fv_y : float; fv_z : float; fv_w : float }.
Record C3D_Mtx := Mtx { r0 : C3D_FVec; r1 : C3D_FVec; r2 : C3D_FVec; r3 : C3D_FVec }.

Record vertex := {
  position : float * float * float;
  texcoord : float * float;
  normal : float * float * float
}.

Record material := {
  ambient : C3D_FVec;
  diffuse : C3D_FVec;
  specular : C3D_FVec;
  emission : C3D_FVec
}.

(** The initialiser lists the components in the storage order of
    [C3D_FVec], which is w, z, y, x. *)
Definition default_material : material :=
  let v := {| fv_w := f_0_0; fv_z := f_0_2; fv_y := f_0_2; fv_x := f_0_2 |} in
  {| ambient := v; diffuse := v; specular := v; emission := v |}.

Inductive GPU_TEXTURE_FILTER_PARAM := GPU_NEAREST | GPU_LINEAR.

(** What the renderer needs of citro3d's [C3D_Tex]: the texel storage the
    import produced and the two filters. *)
Record C3D_Tex := {
  tex_data : Z;
  tex_width : Z;
  tex_height : Z;
  tex_mag_filter : GPU_TEXTURE_FILTER_PARAM;
  tex_min_filter : GPU_TEXTURE_FILTER_PARAM
}.

(** The only [C3D_BufInfo*] the renderer ever holds is the one
    [C3D_GetBufInfo] returns: the descriptor inside the citro3d context. *)
Inductive C3D_BufInfo_ptr := ctx_bufInfo.

(** A slot of the mesh table.  The registration writes it field by field,
    so each field is [None] until it has been written (its value in a block
    fresh from malloc is indeterminate). *)
Record mesh := {
  mesh_material : option material;
  mesh_vbo_data : option ptr;
  mesh_buf_info : option C3D_BufInfo_ptr;
  mesh_texture : option C3D_Tex;
  mesh_vertex_count : option Z
}.

Definition blank_mesh : mesh :=
  {| mesh_material := None; mesh_vbo_data := None; mesh_buf_info := None;
     mesh_texture := None; mesh_vertex_count := None |}.

Record render_request := {
  req_mesh_id : option Z;
  req_model : option C3D_Mtx
}.

Definition blank_request : render_request :=
  {| req_mesh_id := None; req_model := None |}.

(** [struct renderer], without the fields only [renderer_init] touches
    (attr_info, shader_dvlb, shader_program). *)
Record renderer := {
  projection : C3D_Mtx;
  uLoc_projection : Z;
  uLoc_modelView : Z;
  uLoc_lightVec : Z;
  uLoc_lightHalfVec : Z;
  uLoc_lightClr : Z;
  uLoc_material : Z;
  requests : ptr;
  n_requests : Z;
  capacity_requests : Z;
  meshes : ptr;
  n_meshes : Z;
  capacity_meshes : Z
}.

Definition set_projection (v : C3D_Mtx) (r : renderer) : renderer :=
  {| projection := v;
     uLoc_projection := uLoc_projection r; uLoc_modelView := uLoc_modelView r;
     uLoc_lightVec := uLoc_lightVec r; uLoc_lightHalfVec := uLoc_lightHalfVec r;
     uLoc_lightClr := uLoc_lightClr r; uLoc_material := uLoc_material r;
     requests := requests r; n_requests := n_requests r;
     capacity_requests := capacity_requests r;
     meshes := meshes r; n_meshes := n_meshes r;
     capacity_meshes := capacity_meshes r |}.

Definition set_uLocs (p mv lv lh lc ma : Z) (r : renderer) : renderer :=
  {| projection := projection r;
     uLoc_projection := p; uLoc_modelView := mv;
     uLoc_lightVec := lv; uLoc_lightHalfVec := lh;
     uLoc_lightClr := lc; uLoc_material := ma;
     requests := requests r; n_requests := n_requests r;
     capacity_requests := capacity_requests r;
     meshes := meshes r; n_meshes := n_meshes r;
     capacity_meshes := capacity_meshes r |}.

Definition set_requests (v : ptr) (r : renderer) : renderer :=
  {| projection := projection r;
     uLoc_projection := uLoc_projection r; uLoc_modelView := uLoc_modelView r;
     uLoc_lightVec := uLoc_lightVec r; uLoc_lightHalfVec := uLoc_lightHalfVec r;
     uLoc_lightClr := uLoc_lightClr r; uLoc_material := uLoc_material r;
     requests := v; n_requests := n_requests r;
     capacity_requests := capacity_requests r;
     meshes := meshes r; n_meshes := n_meshes r;
     capacity_meshes := capacity_meshes r |}.

Definition set_n_requests (v : Z) (r : renderer) : renderer :=
  {| projection := projection r;
     uLoc_projection := uLoc_projection r; uLoc_modelView := uLoc_modelView r;
     uLoc_lightVec := uLoc_lightVec r; uLoc_lightHalfVec := uLoc_lightHalfVec r;
     uLoc_lightClr := uLoc_lightClr r; uLoc_material := uLoc_material r;
     requests := requests r; n_requests := v;
     capacity_requests := capacity_requests r;
     meshes := meshes r; n_meshes := n_meshes r;
     capacity_meshes := capacity_meshes r |}.

Definition set_capacity_requests (v : Z) (r : renderer) : renderer :=
  {| projection := projection r;
     uLoc_projection := uLoc_projection r; uLoc_modelView := uLoc_modelView r;
     uLoc_lightVec := uLoc_lightVec r; uLoc_lightHalfVec := uLoc_lightHalfVec r;
     uLoc_lightClr := uLoc_lightClr r; uLoc_material := uLoc_material r;
     requests := requests r; n_requests := n_requests r;
     capacity_requests := v;
     meshes := meshes r; n_meshes := n_meshes r;
     capacity_meshes := capacity_meshes r |}.

Definition set_meshes (v : ptr) (r : renderer) : renderer :=
  {| projection := projection r;
     uLoc_projection := uLoc_projection r; uLoc_modelView := uLoc_modelView r;
     uLoc_lightVec := uLoc_lightVec r; uLoc_lightHalfVec := uLoc_lightHalfVec r;
     uLoc_lightClr := uLoc_lightClr r; uLoc_material := uLoc_material r;
     requests := requests r; n_requests := n_requests r;
     capacity_requests := capacity_requests r;
     meshes := v; n_meshes := n_meshes r;
     capacity_meshes := capacity_meshes r |}.

Definition set_n_meshes (v : Z) (r : renderer) : renderer :=
  {| projection := projection r;
     uLoc_projection := uLoc_projection r; uLoc_modelView := uLoc_modelView r;
     uLoc_lightVec := uLoc_lightVec r; uLoc_lightHalfVec := uLoc_lightHalfVec r;
     uLoc_lightClr := uLoc_lightClr r; uLoc_material := uLoc_material r;
     requests := requests r; n_requests := n_requests r;
     capacity_requests := capacity_requests r;
     meshes := meshes r; n_meshes := v;
     capacity_meshes := capacity_meshes r |}.

Definition set_capacity_meshes (v : Z) (r : renderer) : renderer :=
  {| projection := projection r;
     uLoc_projection := uLoc_projection r; uLoc_modelView := uLoc_modelView r;
     uLoc_lightVec := uLoc_lightVec r; uLoc_lightHalfVec := uLoc_lightHalfVec r;
     uLoc_lightClr := uLoc_lightClr r; uLoc_material := uLoc_material r;
     requests := requests r; n_requests := n_requests r;
     capacity_requests := capacity_requests r;
     meshes := meshes r; n_meshes := n_meshes r;
     capacity_meshes := v |}.

(** ** The C heap *)

Definition sizeof_float : Z := 4.
Definition sizeof_vertex : Z := 8 * sizeof_float.
Definition sizeof_C3D_FVec : Z := 4 * sizeof_float.
Definition sizeof_C3D_Mtx : Z := 4 * sizeof_C3D_FVec.
Definition sizeof_material : Z := 4 * sizeof_C3D_FVec.
(** [u32 mesh_id] followed by a [C3D_Mtx]. *)
Definition sizeof_render_request : Z := 4 + sizeof_C3D_Mtx.

(** What the renderer takes from its platform: the size of [struct mesh]
    (it depends on citro3d's [C3D_Tex]), the texture decoder behind
    [Tex3DS_TextureImport], the uniform table of the compiled shader, and
    the matrix [Mtx_PerspTilt] computes for the top screen
    (80 degrees, [C3D_AspectRatioTop], near 0.01, far 1000, right-handed). *)
Class Platform := {
  sizeof_mesh : Z;
  Tex3DS_decode : list Z → option C3D_Tex;
  shaderInstanceGetUniformLocation : string → Z;
  Mtx_PerspTilt_top : C3D_Mtx
}.

Inductive region := MainHeap | LinearHeap.

(** The objects a block holds, by element index.  A block holds elements
    of one type at a time; [Fresh] is memory nothing was written to. *)
Inductive cells :=
| Fresh
| MeshCells (c : gmap Z mesh)
| RequestCells (c : gmap Z render_request)
| VertexCells (c : list vertex).

Record block := {
  blk_region : region;
  blk_bytes : Z;
  blk_cells : cells
}.

(** ** Calls the citro3d backend receives *)

Inductive GPU_SHADER_TYPE := GPU_VERTEX_SHADER | GPU_GEOMETRY_SHADER.
Inductive GPU_Primitive_t :=
  GPU_TRIANGLES | GPU_TRIANGLE_STRIP | GPU_TRIANGLE_FAN | GPU_GEOMETRY_PRIM.
Inductive GPU_FORMATS := GPU_BYTE | GPU_UNSIGNED_BYTE | GPU_SHORT | GPU_FLOAT.
Inductive C3D_TexEnvMode := C3D_RGB | C3D_Alpha | C3D_Both.
(** [GPU_PRIMARY_COLOR] is the enumerator of value 0. *)
Inductive GPU_TEVSRC := GPU_PRIMARY_COLOR | GPU_TEXTURE0.
Inductive GPU_COMBINEFUNC := GPU_REPLACE | GPU_MODULATE.

Inductive backend_call :=
| C3D_BindProgram
| AttrInfo_Init
| AttrInfo_AddLoader (regId : Z) (format : GPU_FORMATS) (count : Z)
| C3D_TexEnvInit (id : Z)
| C3D_TexEnvSrc (id : Z) (mode : C3D_TexEnvMode) (s1 s2 s3 : GPU_TEVSRC)
| C3D_TexEnvFunc (id : Z) (mode : C3D_TexEnvMode) (f : GPU_COMBINEFUNC)
| BufInfo_Init (info : C3D_BufInfo_ptr)
| BufInfo_Add (info : C3D_BufInfo_ptr) (data : ptr) (stride : Z)
              (attribCount : Z) (permutation : Z)
| C3D_SetBufInfo (info : C3D_BufInfo_ptr)
| C3D_FVUnifMtx4x4 (type : GPU_SHADER_TYPE) (id : Z) (mtx : C3D_Mtx)
| C3D_FVUnifSet (type : GPU_SHADER_TYPE) (id : Z) (x y z w : float)
| C3D_TexBind (unitId : Z) (tex : C3D_Tex)
| C3D_DrawArrays (primitive : GPU_Primitive_t) (first : Z) (size : Z).

(** ** The state of the program *)

(** Addresses are handed out once, in order: the address of an object is
    its position in the list of all objects allocated so far.  A block that
    was freed leaves [None] at its address. *)
Record world := {
  renderers : list renderer;      (* the [struct renderer] objects *)
  heap : list (option block);     (* the blocks of malloc and linearAlloc *)
  alloc_script : list bool;       (* whether the coming allocations succeed *)
  backend : list backend_call     (* calls received so far, oldest first *)
}.

Definition set_renderers (v : list renderer) (w : world) : world :=
  {| renderers := v; heap := heap w;
     alloc_script := alloc_script w; backend := backend w |}.

Definition set_heap (v : list (option block)) (w : world) : world :=
  {| renderers := renderers w; heap := v;
     alloc_script := alloc_script w; backend := backend w |}.

Definition set_alloc_script (v : list bool) (w : world) : world :=
  {| renderers := renderers w; heap := heap w;
     alloc_script := v; backend := backend w |}.

Definition set_backend (v : list backend_call) (w : world) : world :=
  {| renderers := renderers w; heap := heap w;
     alloc_script := alloc_script w; backend := v |}.

(** The live block at an address. *)
Definition block_at (w : world) (a : nat) : option block :=
  heap w !! a ≫= id.

(** How a call ends: it returns; or [panic] is reached, which shows the
    message and calls [abort] (panic.c); or it runs into undefined
    behaviour.  The last two keep the state at that moment. *)
Inductive outcome (A : Type) :=
| Ok (a : A) (w : world)
| Panic (line : Z) (message : string) (w : world)
| Undefined (what : string) (w : world).
Arguments Ok {A} a w.
Arguments Panic {A} line message w.
Arguments Undefined {A} what w.

Definition M (A : Type) : Type := world → outcome A.

Definition ret {A} (a : A) : M A := λ w, Ok a w.

Definition bind {A B} (m : M A) (k : A → M B) : M B := λ w,
  match m w with
  | Ok a w' => k a w'
  | Panic l s w' => Panic l s w'
  | Undefined s w' => Undefined s w'
  end.

Notation "x <- m ;; k" := (bind m (λ x, k))
  (at level 100, m at next level, right associativity).
Notation "m ;; k" := (bind m (λ _, k))
  (at level 100, right associativity).

Definition undefined {A} (what : string) : M A := λ w, Undefined what w.

(** *** inc/panic.h *)

Definition PANIC {A} (line : Z) (message : string) : M A :=
  λ w, Panic line message w.

Definition PANIC_IF_NULL {A} (line : Z) (value : string) (p : option A) : M unit :=
  if p is None then PANIC line (value +:+ " was null!") else ret tt.

Definition PANIC_IF_ZERO (line : Z) (value : string) (v : Z) : M unit :=
  if bool_decide (v = 0) then PANIC line (value +:+ " was zero!") else ret tt.

(** ** Memory primitives *)

Definition modify (f : world → world) : M unit := λ w, Ok tt (f w).

Definition call (c : backend_call) : M unit :=
  modify (λ w, set_backend (backend w ++ [c]) w).

(** [*this] *)
Definition deref_renderer (this : ptr) : M renderer := λ w,
  match this with
  | Some a =>
    match renderers w !! a with
    | Some r => Ok r w
    | None => Undefined "dangling renderer pointer dereferenced" w
    end
  | None => Undefined "null renderer pointer dereferenced" w
  end.

(** [this->field = v] *)
Definition assign (this : ptr) (f : renderer → renderer) : M unit := λ w,
  match this with
  | Some a =>
    match renderers w !! a with
    | Some r => Ok tt (set_renderers (<[a := f r]> (renderers w)) w)
    | None => Undefined "dangling renderer pointer dereferenced" w
    end
  | None => Undefined "null renderer pointer dereferenced" w
  end.

(** [*model] for a pointer argument given with its pointee. *)
Definition deref_arg {A} (what : string) (p : option A) : M A := λ w,
  match p with
  | Some v => Ok v w
  | None => Undefined what w
  end.

(** The next entry of the script decides an allocation; an exhausted
    script lets every allocation succeed. *)
Definition take_alloc_result (w : world) : bool * world :=
  match alloc_script w with
  | [] => (true, w)
  | ok :: s => (ok, set_alloc_script s w)
  end.

Definition new_block (rg : region) (bytes : Z) : M ptr := λ w,
  let '(ok, w1) := take_alloc_result w in
  if ok then
    let b := {| blk_region := rg; blk_bytes := bytes; blk_cells := Fresh |} in
    Ok (Some (length (heap w1))) (set_heap (heap w1 ++ [Some b]) w1)
  else Ok NULL w1.

Definition malloc (bytes : Z) : M ptr := new_block MainHeap bytes.
Definition linearAlloc (bytes : Z) : M ptr := new_block LinearHeap bytes.

(** [malloc(sizeof(struct renderer))]: the new object holds whatever the
    memory held, [uninit].  Renderer structs are kept in [renderers], apart
    from the blocks of [heap]: what a call writes to a struct shows in
    [renderers], not in [heap]. *)
Definition malloc_renderer (uninit : renderer) : M ptr := λ w,
  let '(ok, w1) := take_alloc_result w in
  if ok then
    Ok (Some (length (renderers w1))) (set_renderers (renderers w1 ++ [uninit]) w1)
  else Ok NULL w1.

(** The elements that lie whole within the first [keep] bytes. *)
Definition truncate_cells `{Platform} (keep : Z) (c : cells) : cells :=
  match c with
  | Fresh => Fresh
  | MeshCells m =>
      MeshCells (filter (λ kv, (kv.1 + 1) * sizeof_mesh ≤ keep) m)
  | RequestCells m =>
      RequestCells (filter (λ kv, (kv.1 + 1) * sizeof_render_request ≤ keep) m)
  | VertexCells l => VertexCells (take (Z.to_nat (keep / sizeof_vertex)) l)
  end.

(** [realloc(p, bytes)]: a new block of [bytes] bytes that keeps the
    contents up to the lesser of the two sizes; the old block is gone.  On
    failure NULL is returned and the old block stays. *)
Definition realloc `{Platform} (p : ptr) (bytes : Z) : M ptr := λ w,
  match p with
  | None => malloc bytes w
  | Some a =>
    match block_at w a with
    | Some b =>
      match blk_region b with
      | MainHeap =>
        let '(ok, w1) := take_alloc_result w in
        if ok then
          let b' := {| blk_region := MainHeap; blk_bytes := bytes;
                       blk_cells := truncate_cells (Z.min (blk_bytes b) bytes)
                                                   (blk_cells b) |} in
          Ok (Some (length (heap w1)))
             (set_heap (<[a := None]> (heap w1) ++ [Some b']) w1)
        else Ok NULL w1
      | LinearHeap => Undefined "realloc of a pointer malloc did not return" w
      end
    | None => Undefined "realloc of a pointer malloc did not return" w
    end
  end.

Definition set_cells (c : cells) (b : block) : block :=
  {| blk_region := blk_region b; blk_bytes := blk_bytes b; blk_cells := c |}.

(** Element [idx] of size [elt] lies within the block. *)
Definition in_bounds (b : block) (idx elt : Z) : bool :=
  bool_decide (0 ≤ idx ∧ (idx + 1) * elt ≤ blk_bytes b).

Definition mesh_cells (b : block) : gmap Z mesh :=
  match blk_cells b with MeshCells c => c | _ => ∅ end.

Definition request_cells (b : block) : gmap Z render_request :=
  match blk_cells b with RequestCells c => c | _ => ∅ end.

Definition read_mesh (b : block) (idx : Z) : mesh :=
  default blank_mesh (mesh_cells b !! idx).

Definition read_request (b : block) (idx : Z) : render_request :=
  default blank_request (request_cells b !! idx).

Definition write_mesh (idx : Z) (m : mesh) (b : block) : block :=
  set_cells (MeshCells (<[idx := m]> (mesh_cells b))) b.

Definition write_request (idx : Z) (rq : render_request) (b : block) : block :=
  set_cells (RequestCells (<[idx := rq]> (request_cells b))) b.

(** The object [base[idx]] designates, when that storage exists; fields
    never written are [None]. *)
Definition mesh_slot `{Platform} (w : world) (base : ptr) (idx : Z) : option mesh :=
  match base with
  | Some a =>
    match block_at w a with
    | Some b => if in_bounds b idx sizeof_mesh then Some (read_mesh b idx) else None
    | None => None
    end
  | None => None
  end.

Definition request_slot (w : world) (base : ptr) (idx : Z) : option render_request :=
  match base with
  | Some a =>
    match block_at w a with
    | Some b =>
      if in_bounds b idx sizeof_render_request then Some (read_request b idx) else None
    | None => None
    end
  | None => None
  end.

(** A read whose value is used.  A field never written holds an
    indeterminate value; the model does not follow a call past the use of
    one (what it then does depends on the bytes found). *)
Definition load_mesh `{Platform} {A} (at_ : ptr * Z) (field : mesh → option A) : M A := λ w,
  match mesh_slot w at_.1 at_.2 with
  | Some m =>
    match field m with
    | Some v => Ok v w
    | None => Undefined "indeterminate mesh field used" w
    end
  | None => Undefined "mesh access outside a live block" w
  end.

(** A read made for a diagnostic printf only: the storage must exist. *)
Definition peek_mesh `{Platform} (at_ : ptr * Z) : M unit := λ w,
  match mesh_slot w at_.1 at_.2 with
  | Some _ => Ok tt w
  | None => Undefined "mesh access outside a live block" w
  end.

(** [base[idx].field = v] *)
Definition store_mesh `{Platform} (at_ : ptr * Z) (f : mesh → mesh) : M unit := λ w,
  match at_.1 with
  | Some a =>
    match block_at w a with
    | Some b =>
      if in_bounds b at_.2 sizeof_mesh
      then Ok tt (set_heap (<[a := Some (write_mesh at_.2 (f (read_mesh b at_.2)) b)]>
                              (heap w)) w)
      else Undefined "mesh access outside a live block" w
    | None => Undefined "mesh access outside a live block" w
    end
  | None => Undefined "mesh access outside a live block" w
  end.

Definition load_request {A} (at_ : ptr * Z) (field : render_request → option A) : M A := λ w,
  match request_slot w at_.1 at_.2 with
  | Some rq =>
    match field rq with
    | Some v => Ok v w
    | None => Undefined "indeterminate request field used" w
    end
  | None => Undefined "request access outside a live block" w
  end.

Definition store_request (at_ : ptr * Z) (f : render_request → render_request) : M unit := λ w,
  match at_.1 with
  | Some a =>
    match block_at w a with
    | Some b =>
      if in_bounds b at_.2 sizeof_render_request
      then Ok tt (set_heap (<[a := Some (write_request at_.2 (f (read_request b at_.2)) b)]>
                              (heap w)) w)
      else Undefined "request access outside a live block" w
    | None => Undefined "request access outside a live block" w
    end
  | None => Undefined "request access outside a live block" w
  end.

(** [memcpy(dst, src, size)] from the caller's vertex array [src].  Both
    pointers have to be valid, also for a size of 0 (C11 7.24.1): a null
    destination is undefined behaviour whatever the size. *)
Definition memcpy_vertices (dst : ptr) (src : option (list vertex)) (size : Z) : M unit := λ w,
  match dst, src with
  | Some a, Some vs =>
    match block_at w a with
    | Some b =>
      if bool_decide (size ≤ blk_bytes b ∧
                      size ≤ sizeof_vertex * Z.of_nat (length vs))
      then Ok tt (set_heap (<[a := Some (set_cells
                                (VertexCells (take (Z.to_nat (size / sizeof_vertex)) vs)) b)]>
                              (heap w)) w)
      else Undefined "memcpy outside the source or the destination" w
    | None => Undefined "memcpy to a dangling pointer" w
    end
  | _, _ => Undefined "memcpy with a null pointer" w
  end.

Definition set_mesh_material (v : option material) (m : mesh) : mesh :=
  {| mesh_material := v; mesh_vbo_data := mesh_vbo_data m;
     mesh_buf_info := mesh_buf_info m; mesh_texture := mesh_texture m;
     mesh_vertex_count := mesh_vertex_count m |}.

Definition set_mesh_vbo_data (v : option ptr) (m : mesh) : mesh :=
  {| mesh_material := mesh_material m; mesh_vbo_data := v;
     mesh_buf_info := mesh_buf_info m; mesh_texture := mesh_texture m;
     mesh_vertex_count := mesh_vertex_count m |}.

Definition set_mesh_buf_info (v : option C3D_BufInfo_ptr) (m : mesh) : mesh :=
  {| mesh_material := mesh_material m; mesh_vbo_data := mesh_vbo_data m;
     mesh_buf_info := v; mesh_texture := mesh_texture m;
     mesh_vertex_count := mesh_vertex_count m |}.

Definition set_mesh_texture (v : option C3D_Tex) (m : mesh) : mesh :=
  {| mesh_material := mesh_material m; mesh_vbo_data := mesh_vbo_data m;
     mesh_buf_info := mesh_buf_info m; mesh_texture := v;
     mesh_vertex_count := mesh_vertex_count m |}.

Definition set_mesh_vertex_count (v : option Z) (m : mesh) : mesh :=
  {| mesh_material := mesh_material m; mesh_vbo_data := mesh_vbo_data m;
     mesh_buf_info := mesh_buf_info m; mesh_texture := mesh_texture m;
     mesh_vertex_count := v |}.

Definition set_req_mesh_id (v : option Z) (rq : render_request) : render_request :=
  {| req_mesh_id := v; req_model := req_model rq |}.

Definition set_req_model (v : option C3D_Mtx) (rq : render_request) : render_request :=
  {| req_mesh_id := req_mesh_id rq; req_model := v |}.

(** ** The backend functions that write to the renderer's memory *)

(** [Tex3DS_TextureImport(input, insize, tex, NULL, false)]: decodes the
    first [insize] bytes of [input] into [*tex]; the result tells whether
    the handle returned is non-null. *)
Definition Tex3DS_TextureImport `{Platform}
    (input : option (list Z)) (insize : Z) (tex : ptr * Z) : M bool :=
  match input with
  | Some bytes =>
    if bool_decide (insize ≤ Z.of_nat (length bytes)) then
      match Tex3DS_decode (take (Z.to_nat insize) bytes) with
      | Some t => store_mesh tex (set_mesh_texture (Some t)) ;; ret true
      | None => ret false
      end
    else undefined "texture import reads past the buffer"
  | None => undefined "texture import from a null pointer"
  end.

Definition set_filters (mag min : GPU_TEXTURE_FILTER_PARAM) (t : C3D_Tex) : C3D_Tex :=
  {| tex_data := tex_data t; tex_width := tex_width t; tex_height := tex_height t;
     tex_mag_filter := mag; tex_min_filter := min |}.

Definition C3D_TexSetFilter `{Platform}
    (tex : ptr * Z) (magFilter minFilter : GPU_TEXTURE_FILTER_PARAM) : M unit :=
  t <- load_mesh tex mesh_texture ;;
  store_mesh tex (set_mesh_texture (Some (set_filters magFilter minFilter t))).

(** [(C3D_Mtx* )&mesh->material]: the four vectors read as four rows. *)
Definition material_as_Mtx (m : material) : C3D_Mtx :=
  {| r0 := ambient m; r1 := diffuse m; r2 := specular m; r3 := emission m |}.

(** ** source/renderer.c *)

(** Lines 13-54.  The table fields (requests, n_requests, capacity_requests,
    meshes, n_meshes, capacity_meshes) are not assigned: they keep what the
    memory malloc returned held.  The parsing of the shader binary and the
    set-up of the shader program (lines 20-22) only fill fields that are
    left out of [renderer]. *)
Definition renderer_init `{Platform} (uninit : renderer) : M ptr :=
  ret_ <- malloc_renderer uninit ;;
  PANIC_IF_NULL 16 "ret" ret_ ;;
  assign ret_ (set_projection Mtx_PerspTilt_top) ;;
  call C3D_BindProgram ;;
  assign ret_ (set_uLocs (shaderInstanceGetUniformLocation "projection")
                         (shaderInstanceGetUniformLocation "modelView")
                         (shaderInstanceGetUniformLocation "lightVec")
                         (shaderInstanceGetUniformLocation "lightHalfVec")
                         (shaderInstanceGetUniformLocation "lightClr")
                         (shaderInstanceGetUniformLocation "material")) ;;
  call AttrInfo_Init ;;
  call (AttrInfo_AddLoader 0 GPU_FLOAT 3) ;;
  call (AttrInfo_AddLoader 1 GPU_FLOAT 2) ;;
  call (AttrInfo_AddLoader 2 GPU_FLOAT 3) ;;
  call (C3D_TexEnvInit 0) ;;
  call (C3D_TexEnvSrc 0 C3D_Both GPU_TEXTURE0 GPU_PRIMARY_COLOR GPU_PRIMARY_COLOR) ;;
  call (C3D_TexEnvFunc 0 C3D_Both GPU_MODULATE) ;;
  ret ret_.

(** Lines 56-74. *)
Definition new_mesh `{Platform} (this : ptr) : M Z :=
  PANIC_IF_NULL 58 "this" this ;;
  r <- deref_renderer this ;;
  (if meshes r is None then
     p <- malloc (size_t_mul 10 sizeof_mesh) ;;
     assign this (set_meshes p) ;;
     (if p is None then PANIC 62 "failed malloc" else ret tt) ;;
     assign this (set_capacity_meshes 10)
   else if bool_decide (n_meshes r = capacity_meshes r) then
     let newcap := size_t_mul (capacity_meshes r) 3 / 2 in
     p <- realloc (meshes r) newcap ;;
     assign this (set_meshes p) ;;
     (if p is None then PANIC 68 "failed realloc" else ret tt) ;;
     assign this (set_capacity_meshes newcap)
   else ret tt) ;;
  assign this (λ r, set_n_meshes (size_t_add (n_meshes r) 1) r) ;;
  r <- deref_renderer this ;;
  ret (size_t_sub (n_meshes r) 1).

(** Lines 79-129.  The two printf calls (lines 109-110 and 121) only read
    the slot. *)
Definition renderer_register_mesh `{Platform}
    (this : ptr)
    (vertices : option (list vertex)) (n_vertices : Z)
    (texture_data : option (list Z)) (texture_size : Z)
    (material_ : material) : M Z :=
  PANIC_IF_NULL 91 "this" this ;;
  PANIC_IF_NULL 92 "vertices" vertices ;;
  PANIC_IF_NULL 93 "texture_data" texture_data ;;
  PANIC_IF_ZERO 94 "n_vertices" n_vertices ;;
  PANIC_IF_ZERO 95 "texture_size" texture_size ;;
  ret_ <- new_mesh this ;;
  r <- deref_renderer this ;;
  let mesh := (meshes r, ret_) in
  store_mesh mesh (set_mesh_material (Some material_)) ;;
  let size := size_t_mul sizeof_vertex n_vertices in
  vbo <- linearAlloc size ;;
  store_mesh mesh (set_mesh_vbo_data (Some vbo)) ;;
  dst <- load_mesh mesh mesh_vbo_data ;;
  memcpy_vertices dst vertices size ;;
  store_mesh mesh (set_mesh_vertex_count (Some n_vertices)) ;;
  vbo_data <- load_mesh mesh mesh_vbo_data ;;
  PANIC_IF_NULL 107 "mesh->vbo_data" vbo_data ;;
  peek_mesh mesh ;;
  t3x <- Tex3DS_TextureImport texture_data texture_size mesh ;;
  (if t3x : bool then ret tt else PANIC 114 "importing t3x texture failed!") ;;
  C3D_TexSetFilter mesh GPU_LINEAR GPU_NEAREST ;;
  peek_mesh mesh ;;
  store_mesh mesh (set_mesh_buf_info (Some ctx_bufInfo)) ;;
  buf_info <- load_mesh mesh mesh_buf_info ;;
  call (BufInfo_Init buf_info) ;;
  buf_info <- load_mesh mesh mesh_buf_info ;;
  vbo_data <- load_mesh mesh mesh_vbo_data ;;
  call (BufInfo_Add buf_info vbo_data sizeof_vertex 3 0x210) ;;
  ret ret_.

(** Lines 131-154. *)
Definition renderer_request `{Platform}
    (this : ptr) (mesh_id : Z) (model : option C3D_Mtx) : M unit :=
  r <- deref_renderer this ;;
  (if requests r is None then
     p <- malloc (size_t_mul 10 sizeof_mesh) ;;
     assign this (set_requests p) ;;
     (if p is None then PANIC 139 "failed malloc" else ret tt) ;;
     assign this (set_capacity_requests 10)
   else if bool_decide (n_requests r = capacity_requests r) then
     let newcap := size_t_mul (capacity_requests r) 3 / 2 in
     p <- realloc (requests r) newcap ;;
     assign this (set_meshes p) ;;
     r' <- deref_renderer this ;;
     (if requests r' is None then PANIC 145 "failed realloc" else ret tt) ;;
     assign this (set_capacity_requests newcap)
   else ret tt) ;;
  r <- deref_renderer this ;;
  let request := (requests r, n_requests r) in
  assign this (λ r, set_n_requests (size_t_add (n_requests r) 1) r) ;;
  store_request request (set_req_mesh_id (Some (u32_of_size_t mesh_id))) ;;
  m <- deref_arg "null model matrix dereferenced" model ;;
  store_request request (set_req_model (Some m)).

(** The body of the loop, lines 162-181.  The printf calls of lines
    165-168 read the material of the mesh.  [C3D_DrawArrays] takes its
    count as an [int]: the [size_t] vertex_count is converted. *)
Definition render_one `{Platform} (this : ptr) (idx : Z) : M unit :=
  r <- deref_renderer this ;;
  mesh_id <- load_request (requests r, idx) req_mesh_id ;;
  let mesh := (meshes r, mesh_id) in
  peek_mesh mesh ;;
  call (C3D_FVUnifMtx4x4 GPU_VERTEX_SHADER (uLoc_projection r) (projection r)) ;;
  model <- load_request (requests r, idx) req_model ;;
  call (C3D_FVUnifMtx4x4 GPU_VERTEX_SHADER (uLoc_modelView r) model) ;;
  mat <- load_mesh mesh mesh_material ;;
  call (C3D_FVUnifMtx4x4 GPU_VERTEX_SHADER (uLoc_material r) (material_as_Mtx mat)) ;;
  call (C3D_FVUnifSet GPU_VERTEX_SHADER (uLoc_lightVec r) f_0_0 f_0_0 f_neg_1_0 f_0_0) ;;
  call (C3D_FVUnifSet GPU_VERTEX_SHADER (uLoc_lightHalfVec r) f_0_0 f_0_0 f_neg_1_0 f_0_0) ;;
  call (C3D_FVUnifSet GPU_VERTEX_SHADER (uLoc_lightClr r) f_1_0 f_1_0 f_1_0 f_1_0) ;;
  tex <- load_mesh mesh mesh_texture ;;
  call (C3D_TexBind 0 tex) ;;
  vertex_count <- load_mesh mesh mesh_vertex_count ;;
  call (C3D_DrawArrays GPU_TRIANGLES 0 (int_of_size_t vertex_count)).

(** [for (size_t idx = ...; idx < this->n_requests; idx++)], with the
    number of rounds left as the structural argument. *)
Fixpoint render_loop `{Platform} (rounds : nat) (this : ptr) (idx : Z) : M unit :=
  r <- deref_renderer this ;;
  if bool_decide (idx < n_requests r) then
    match rounds with
    | S rounds' =>
      render_one this idx ;;
      render_loop rounds' this (size_t_add idx 1)
    | O => undefined "loop ran past its bound"
    end
  else ret tt.

(** Lines 156-186. *)
Definition renderer_render `{Platform} (this : ptr) : M unit :=
  PANIC_IF_NULL 158 "this" this ;;
  r <- deref_renderer this ;;
  render_loop (Z.to_nat (n_requests r)) this 0 ;;
  assign this (set_n_requests 0).

(** ** Reading a frame off the state *)

(** What one queued request asks the backend to draw: its model matrix and
    the material, texture and vertex count of the mesh it names. *)
Record draw_job := {
  job_model : C3D_Mtx;
  job_material : material;
  job_texture : C3D_Tex;
  job_vertex_count : Z
}.

(** The request at index [idx] of the queue with the mesh its handle
    designates; [None] when one of the two cannot be read. *)
Definition job_at `{Platform} (w : world) (r : renderer) (idx : Z) : option draw_job :=
  rq ← request_slot w (requests r) idx;
  mesh_id ← req_mesh_id rq;
  model ← req_model rq;
  m ← mesh_slot w (meshes r) mesh_id;
  mat ← mesh_material m;
  tex ← mesh_texture m;
  vc ← mesh_vertex_count m;
  Some {| job_model := model; job_material := mat;
          job_texture := tex; job_vertex_count := vc |}.

Fixpoint jobs_from `{Platform} (w : world) (r : renderer) (count : nat) (idx : Z)
    : option (list draw_job) :=
  match count with
  | O => Some []
  | S count' =>
    j ← job_at w r idx;
    js ← jobs_from w r count' (idx + 1);
    Some (j :: js)
  end.

(** The queue in enqueue order: entries 0 .. n_requests - 1. *)
Definition frame_jobs `{Platform} (w : world) (r : renderer) : option (list draw_job) :=
  jobs_from w r (Z.to_nat (n_requests r)) 0.

(** The calls one request gives rise to. *)
Definition job_calls (r : renderer) (j : draw_job) : list backend_call :=
  [ C3D_FVUnifMtx4x4 GPU_VERTEX_SHADER (uLoc_projection r) (projection r);
    C3D_FVUnifMtx4x4 GPU_VERTEX_SHADER (uLoc_modelView r) (job_model j);
    C3D_FVUnifMtx4x4 GPU_VERTEX_SHADER (uLoc_material r)
                     (material_as_Mtx (job_material j));
    C3D_FVUnifSet GPU_VERTEX_SHADER (uLoc_lightVec r) f_0_0 f_0_0 f_neg_1_0 f_0_0;
    C3D_FVUnifSet GPU_VERTEX_SHADER (uLoc_lightHalfVec r) f_0_0 f_0_0 f_neg_1_0 f_0_0;
    C3D_FVUnifSet GPU_VERTEX_SHADER (uLoc_lightClr r) f_1_0 f_1_0 f_1_0 f_1_0;
    C3D_TexBind 0 (job_texture j);
    C3D_DrawArrays GPU_TRIANGLES 0 (int_of_size_t (job_vertex_count j)) ].

(** The request at index [idx] of the queue, or the slot of the mesh table
    that its handle designates, lies outside every live block. *)
Definition out_of_reach `{Platform} (w : world) (r : renderer) (idx : Z) : Prop :=
  request_slot w (requests r) idx = None ∨
  ∃ rq mesh_id,
    request_slot w (requests r) idx = Some rq ∧
    req_mesh_id rq = Some mesh_id ∧
    mesh_slot w (meshes r) mesh_id = None.

(** ** The backend's side of a trace *)

Definition is_draw (c : backend_call) : bool :=
  match c with C3D_DrawArrays _ _ _ => true | _ => false end.

(** A trace cut after each draw call: one group per draw, made of the
    state changes since the previous draw and the draw itself. *)
Fixpoint draw_groups (pending : list backend_call) (calls : list backend_call)
    : list (list backend_call) :=
  match calls with
  | [] => []
  | c :: cs =>
    if is_draw c then (pending ++ [c]) :: draw_groups [] cs
    else draw_groups (pending ++ [c]) cs
  end.

(** A buffer of the context's descriptor: data, stride, attribute count,
    permutation. *)
Definition C3D_BufCfg : Type := ptr * Z * Z * Z.

(** The context's buffer descriptor after a trace.  [C3D_SetBufInfo] copies
    the descriptor it is given, which here can only be the context's own. *)
Fixpoint bufInfo_after (cur : list C3D_BufCfg) (calls : list backend_call)
    : list C3D_BufCfg :=
  match calls with
  | [] => cur
  | BufInfo_Init ctx_bufInfo :: cs => bufInfo_after [] cs
  | BufInfo_Add ctx_bufInfo data stride n perm :: cs =>
      bufInfo_after (cur ++ [(data, stride, n, perm)]) cs
  | _ :: cs => bufInfo_after cur cs
  end.

(** The draws of a trace, each with the buffer descriptor the context
    holds when the draw is issued: where its vertices come from. *)
Fixpoint draw_sources (cur : list C3D_BufCfg) (calls : list backend_call)
    : list (list C3D_BufCfg * Z) :=
  match calls with
  | [] => []
  | c :: cs =>
    match c with
    | C3D_DrawArrays _ _ size => (cur, size) :: draw_sources cur cs
    | _ => draw_sources (bufInfo_after cur [c]) cs
    end
  end.


(** ** Frame conditions *)

(** Calls that return leave the part [proj] of the state as it was. *)
Definition preserves {X A} (proj : world → X) (m : M A) : Prop :=
  ∀ w a w', m w = Ok a w' → proj w' = proj w.


(** ** A sample platform and sample data *)

Definition sample_decode (bytes : list Z) : option C3D_Tex :=
  match bytes with
  | b :: _ =>
    if bool_decide (b = 0) then None
    else Some {| tex_data := b; tex_width := 1; tex_height := 1;
                 tex_mag_filter := GPU_NEAREST; tex_min_filter := GPU_NEAREST |}
  | [] => None
  end.

Definition sample_uniforms (name : string) : Z :=
  if bool_decide (name = "projection") then 0
  else if bool_decide (name = "modelView") then 4
  else if bool_decide (name = "lightVec") then 8
  else if bool_decide (name = "lightHalfVec") then 9
  else if bool_decide (name = "lightClr") then 10
  else if bool_decide (name = "material") then 11
  else -1.

Definition identity_Mtx : C3D_Mtx :=
  {| r0 := {| fv_x := f_1_0; fv_y := f_0_0; fv_z := f_0_0; fv_w := f_0_0 |};
     r1 := {| fv_x := f_0_0; fv_y := f_1_0; fv_z := f_0_0; fv_w := f_0_0 |};
     r2 := {| fv_x := f_0_0; fv_y := f_0_0; fv_z := f_1_0; fv_w := f_0_0 |};
     r3 := {| fv_x := f_0_0; fv_y := f_0_0; fv_z := f_0_0; fv_w := f_1_0 |} |}.

Definition sample_projection : C3D_Mtx :=
  {| r0 := {| fv_x := f_0_2; fv_y := f_0_0; fv_z := f_0_0; fv_w := f_0_0 |};
     r1 := {| fv_x := f_0_0; fv_y := f_0_2; fv_z := f_0_0; fv_w := f_0_0 |};
     r2 := {| fv_x := f_0_0; fv_y := f_0_0; fv_z := f_neg_1_0; fv_w := f_0_2 |};
     r3 := {| fv_x := f_0_0; fv_y := f_0_0; fv_z := f_neg_1_0; fv_w := f_0_0 |} |}.

(** [struct mesh] with a 24-byte [C3D_Tex] and [buf_info] held as a
    pointer: 64 + 4 + 4 + 24 + 4 bytes. *)
Definition sample_platform : Platform :=
  {| sizeof_mesh := 100;
     Tex3DS_decode := sample_decode;
     shaderInstanceGetUniformLocation := sample_uniforms;
     Mtx_PerspTilt_top := sample_projection |}.

(** Memory that happens to be zero-filled. *)
Definition zero_filled : renderer :=
  let z := {| fv_x := 0; fv_y := 0; fv_z := 0; fv_w := 0 |} in
  {| projection := {| r0 := z; r1 := z; r2 := z; r3 := z |};
     uLoc_projection := 0; uLoc_modelView := 0; uLoc_lightVec := 0;
     uLoc_lightHalfVec := 0; uLoc_lightClr := 0; uLoc_material := 0;
     requests := NULL; n_requests := 0; capacity_requests := 0;
     meshes := NULL; n_meshes := 0; capacity_meshes := 0 |}.

Definition boot : world :=
  {| renderers := []; heap := []; alloc_script := []; backend := [] |}.

Definition sample_vertex (k : Z) : vertex :=
  {| position := (k, f_0_0, f_0_0); texcoord := (f_0_0, f_0_0);
     normal := (f_0_0, f_0_0, f_neg_1_0) |}.

Definition triangle (k : Z) : list vertex :=
  [sample_vertex k; sample_vertex (k + 1); sample_vertex (k + 2)].

(** The renderer of the sample runs is the first one allocated. *)
Definition the_renderer : ptr := Some 0%nat.

(** Registers a triangle whose one-byte texture is [k + 1]. *)
Definition register_sample (k : Z) : M Z :=
  renderer_register_mesh (H := sample_platform) the_renderer
    (Some (triangle k)) 3 (Some [k + 1]) 1 default_material.

Fixpoint register_samples (n : nat) (k : Z) : M (list Z) :=
  match n with
  | O => ret []
  | S n' =>
    h <- register_sample k ;;
    hs <- register_samples n' (k + 1) ;;
    ret (h :: hs)
  end.

Fixpoint request_samples (ids : list Z) : M unit :=
  match ids with
  | [] => ret tt
  | id :: ids' =>
    renderer_request (H := sample_platform) the_renderer id (Some identity_Mtx) ;;
    request_samples ids'
  end.

Definition world_of {A} (o : outcome A) : world :=
  match o with Ok _ w | Panic _ _ w | Undefined _ w => w end.

(** Calls that, however they end (return, panic or undefined behaviour),
    leave the part [proj] of the state as it was. *)
Definition keeps_always {X A} (proj : world → X) (m : M A) : Prop :=
  ∀ w, proj (world_of (m w)) = proj w.

(** A renderer on zero-filled memory, [n] registered triangles, and the
    handles [ids] enqueued. *)
Definition sample_world (n : nat) (ids : list Z) : world :=
  world_of ((renderer_init (H := sample_platform) zero_filled ;;
             register_samples n 0 ;;
             request_samples ids) boot).

Definition sample_renderer (n : nat) (ids : list Z) : renderer :=
  default zero_filled (renderers (sample_world n ids) !! 0%nat).

(** Memory that holds what an earlier use left in it. *)
Definition stale_filled : renderer :=
  let z := {| fv_x := 0; fv_y := 0; fv_z := 0; fv_w := 0 |} in
  {| projection := {| r0 := z; r1 := z; r2 := z; r3 := z |};
     uLoc_projection := 0; uLoc_modelView := 0; uLoc_lightVec := 0;
     uLoc_lightHalfVec := 0; uLoc_lightClr := 0; uLoc_material := 0;
     requests := Some 7%nat; n_requests := 3; capacity_requests := 5;
     meshes := Some 9%nat; n_meshes := 2; capacity_meshes := 4 |}.

(** A renderer on such memory. *)
Definition stale_world : world :=
  world_of (renderer_init (H := sample_platform) stale_filled boot).

(** The state [w] with the next allocation failing. *)
Definition out_of_memory (w : world) : world := set_alloc_script [false] w.

(** The mesh a handle resolves to in a sample state. *)
Definition sample_mesh (n : nat) (ids : list Z) (k : Z) : mesh :=
  default blank_mesh
    (mesh_slot (H := sample_platform) (sample_world n ids)
               (meshes (sample_renderer n ids)) k).

Definition sample_block (n : nat) (ids : list Z) (a : nat) : block :=
  default {| blk_region := MainHeap; blk_bytes := 0; blk_cells := Fresh |}
          (block_at (sample_world n ids) a).

Definition sample_jobs (n : nat) (ids : list Z) : list draw_job :=
  default [] (frame_jobs (H := sample_platform)
                (sample_world n ids) (sample_renderer n ids)).

(** The texel storage each of the handles 0 .. 9 resolves to. *)
Definition resolved_textures (w : world) : list (option Z) :=
  map (λ k, r ← renderers w !! 0%nat;
            m ← mesh_slot (H := sample_platform) w (meshes r) k;
            tex_data <$> mesh_texture m)
      (seqZ 0 10).

(** * Properties *)

Section Properties.
Context `{Platform}.

Lemma bind_ok {A B} (m : M A) (k : A → M B) w a w1 :
  m w = Ok a w1 → bind m k w = k a w1.
Proof. intros E. unfold bind. by rewrite E. Qed.

Lemma bind_ok_inv {A B} (m : M A) (k : A → M B) w b w2 :
  bind m k w = Ok b w2 → ∃ a w1, m w = Ok a w1 ∧ k a w1 = Ok b w2.
Proof. unfold bind. destruct (m w) as [a w1| |]; [eauto | done | done]. Qed.

Lemma deref_renderer_ok a r w :
  renderers w !! a = Some r → deref_renderer (Some a) w = Ok r w.
Proof. intros E. unfold deref_renderer. by rewrite E. Qed.

Lemma call_ok c w : call c w = Ok tt (set_backend (backend w ++ [c]) w).
Proof. reflexivity. Qed.

Lemma load_mesh_ok {A} p i (field : mesh → option A) m v w :
  mesh_slot w p i = Some m → field m = Some v → load_mesh (p, i) field w = Ok v w.
Proof. intros Em Ef. unfold load_mesh. cbn [fst snd]. by rewrite Em, Ef. Qed.

Lemma peek_mesh_ok p i m w :
  mesh_slot w p i = Some m → peek_mesh (p, i) w = Ok tt w.
Proof. intros Em. unfold peek_mesh. cbn [fst snd]. by rewrite Em. Qed.

Lemma load_request_ok {A} p i (field : render_request → option A) rq v w :
  request_slot w p i = Some rq → field rq = Some v →
  load_request (p, i) field w = Ok v w.
Proof. intros Em Ef. unfold load_request. cbn [fst snd]. by rewrite Em, Ef. Qed.

Lemma render_one_ok a r w idx j :
  renderers w !! a = Some r →
  job_at w r idx = Some j →
  render_one (Some a) idx w = Ok tt (set_backend (backend w ++ job_calls r j) w).
Proof.
  intros Hr Hj. unfold job_at in Hj.
  destruct (request_slot w (requests r) idx) as [rq|] eqn:Erq; simpl in Hj; [|done].
  destruct (req_mesh_id rq) as [id|] eqn:Eid; simpl in Hj; [|done].
  destruct (req_model rq) as [model|] eqn:Emodel; simpl in Hj; [|done].
  destruct (mesh_slot w (meshes r) id) as [m|] eqn:Em; simpl in Hj; [|done].
  destruct (mesh_material m) as [mat|] eqn:Emat; simpl in Hj; [|done].
  destruct (mesh_texture m) as [tex|] eqn:Etex; simpl in Hj; [|done].
  destruct (mesh_vertex_count m) as [vc|] eqn:Evc; simpl in Hj; [|done].
  injection Hj as <-.
  unfold render_one.
  erewrite bind_ok by (by apply deref_renderer_ok).
  erewrite bind_ok by (by eapply load_request_ok).
  erewrite bind_ok by (by eapply peek_mesh_ok).
  erewrite bind_ok by apply call_ok.
  erewrite bind_ok by (eapply load_request_ok; [exact Erq | exact Emodel]).
  erewrite bind_ok by apply call_ok.
  erewrite bind_ok by (eapply load_mesh_ok; [exact Em | exact Emat]).
  do 4 (erewrite bind_ok by apply call_ok).
  erewrite bind_ok by (eapply load_mesh_ok; [exact Em | exact Etex]).
  erewrite bind_ok by apply call_ok.
  erewrite bind_ok by (eapply load_mesh_ok; [exact Em | exact Evc]).
  rewrite call_ok. cbn [set_backend backend renderers heap alloc_script job_calls
    job_model job_material job_texture job_vertex_count].
  rewrite <- !app_assoc. reflexivity.
Qed.

Lemma jobs_from_length w r count idx js :
  jobs_from w r count idx = Some js → length js = count.
Proof.
  revert idx js. induction count as [|c IH]; intros idx js Hjs; simpl in Hjs.
  - by simplify_eq.
  - destruct (job_at w r idx) as [j|]; simpl in Hjs; [|done].
    destruct (jobs_from w r c (idx + 1)) as [js'|] eqn:Ejs; simpl in Hjs; [|done].
    injection Hjs as <-. simpl. f_equal. by eapply IH.
Qed.

Lemma jobs_from_set_backend b w r count idx :
  jobs_from (set_backend b w) r count idx = jobs_from w r count idx.
Proof. revert idx. induction count as [|c IH]; intros idx; [done|]. simpl. by rewrite IH. Qed.

Lemma render_loop_ok a r w rounds idx js :
  renderers w !! a = Some r →
  0 ≤ idx →
  n_requests r ≤ SIZE_MAX →
  Z.of_nat rounds = n_requests r - idx →
  jobs_from w r rounds idx = Some js →
  render_loop rounds (Some a) idx w
  = Ok tt (set_backend (backend w ++ flat_map (job_calls r) js) w).
Proof.
  revert idx w js. induction rounds as [|k IH]; intros idx w js Hr Hidx Hmax Hk Hjs.
  - simpl in Hjs. injection Hjs as <-. simpl.
    erewrite bind_ok by (by apply deref_renderer_ok).
    rewrite bool_decide_eq_false_2 by lia.
    unfold ret. simpl. rewrite app_nil_r. by destruct w.
  - simpl in Hjs.
    destruct (job_at w r idx) as [j|] eqn:Ej; simpl in Hjs; [|done].
    destruct (jobs_from w r k (idx + 1)) as [js'|] eqn:Ejs; simpl in Hjs; [|done].
    injection Hjs as <-. simpl.
    erewrite bind_ok by (by apply deref_renderer_ok).
    rewrite bool_decide_eq_true_2 by lia.
    erewrite bind_ok by (by eapply render_one_ok).
    assert (size_t_add idx 1 = idx + 1) as ->.
    { unfold size_t_add, size_t_wrap, SIZE_MAX in *. rewrite Z.mod_small; lia. }
    erewrite IH; [| done | lia | done | lia | by rewrite jobs_from_set_backend].
    cbn [set_backend backend renderers heap alloc_script].
    by rewrite <- app_assoc.
Qed.

Lemma renderer_render_ok a r w js :
  renderers w !! a = Some r →
  n_requests r ≤ SIZE_MAX →
  frame_jobs w r = Some js →
  renderer_render (Some a) w
  = Ok tt (set_renderers (<[a := set_n_requests 0 r]> (renderers w))
             (set_backend (backend w ++ flat_map (job_calls r) js) w)).
Proof.
  intros Hr Hmax Hjs. unfold renderer_render, frame_jobs in *.
  simpl. erewrite bind_ok by reflexivity.
  erewrite bind_ok by (by apply deref_renderer_ok).
  destruct (decide (0 ≤ n_requests r)) as [Hn|Hn].
  - erewrite bind_ok by (eapply render_loop_ok; [done|lia|done|lia|done]).
    unfold assign. cbn [set_backend backend renderers heap alloc_script].
    by rewrite Hr.
  - replace (Z.to_nat (n_requests r)) with 0%nat in * by lia.
    simpl in Hjs. injection Hjs as <-.
    assert (render_loop 0 (Some a) 0 w = Ok tt w) as Hl.
    { simpl. erewrite bind_ok by (by apply deref_renderer_ok).
      by rewrite bool_decide_eq_false_2 by lia. }
    erewrite bind_ok by exact Hl.
    unfold assign. rewrite Hr. simpl. rewrite app_nil_r. by destruct w.
Qed.

Lemma bind_panic_inv {A B} (m : M A) (k : A → M B) w l s w2 :
  bind m k w = Panic l s w2 →
  m w = Panic l s w2 ∨ ∃ a w1, m w = Ok a w1 ∧ k a w1 = Panic l s w2.
Proof.
  unfold bind. destruct (m w) as [a w1| |]; intros E;
    [right; eauto | injection E as -> -> ->; by left | discriminate E].
Qed.

Lemma preserves_bind {X A B} (proj : world → X) (m : M A) (k : A → M B) :
  preserves proj m → (∀ a, preserves proj (k a)) → preserves proj (bind m k).
Proof.
  intros Hm Hk w b w2 E. apply bind_ok_inv in E as (a & w1 & E1 & E2).
  rewrite (Hk _ _ _ _ E2). by apply (Hm _ _ _ E1).
Qed.

(** A primitive preserves a field when each of its results is the state
    with other fields set. *)
Ltac prim_preserves :=
  let E := fresh "E" in
  intros ? ? ? E;
  repeat (unfold ret, undefined, PANIC, PANIC_IF_NULL, PANIC_IF_ZERO, call, modify,
            deref_renderer, assign, deref_arg, malloc, linearAlloc, new_block,
            take_alloc_result, realloc, load_mesh, peek_mesh, store_mesh,
            load_request, store_request, memcpy_vertices in E;
          cbn beta iota in E);
  repeat (case_match; simplify_eq/=);
  simplify_eq/=; try done.

Lemma preserves_ret {X A} (proj : world → X) (a : A) : preserves proj (ret a).
Proof. prim_preserves. Qed.
Lemma preserves_undefined {X A} (proj : world → X) s : preserves proj (undefined (A:=A) s).
Proof. prim_preserves. Qed.
Lemma preserves_PANIC {X A} (proj : world → X) l s : preserves proj (PANIC (A:=A) l s).
Proof. prim_preserves. Qed.
Lemma preserves_PANIC_IF_ZERO {X} (proj : world → X) l s v :
  preserves proj (PANIC_IF_ZERO l s v).
Proof. prim_preserves. Qed.
Lemma preserves_deref {X} (proj : world → X) this : preserves proj (deref_renderer this).
Proof. prim_preserves. Qed.
Lemma preserves_deref_arg {X A} (proj : world → X) s (p : option A) : preserves proj (deref_arg s p).
Proof. prim_preserves. Qed.
Lemma preserves_load_mesh {X A} (proj : world → X) at_ (f : mesh → option A) :
  preserves proj (load_mesh at_ f).
Proof. prim_preserves. Qed.
Lemma preserves_peek_mesh {X} (proj : world → X) at_ : preserves proj (peek_mesh at_).
Proof. prim_preserves. Qed.
Lemma preserves_load_request {X A} (proj : world → X) at_ (f : render_request → option A) :
  preserves proj (load_request at_ f).
Proof. prim_preserves. Qed.

Lemma call_keeps_renderers c : preserves renderers (call c).
Proof. prim_preserves. Qed.
Lemma call_keeps_heap c : preserves heap (call c).
Proof. prim_preserves. Qed.

Lemma assign_keeps_backend this f : preserves backend (assign this f).
Proof. prim_preserves. Qed.
Lemma assign_keeps_heap this f : preserves heap (assign this f).
Proof. prim_preserves. Qed.

Lemma new_block_keeps_backend rg n : preserves backend (new_block rg n).
Proof. prim_preserves. Qed.
Lemma new_block_keeps_renderers rg n : preserves renderers (new_block rg n).
Proof. prim_preserves. Qed.
Lemma realloc_keeps_backend p n : preserves backend (realloc p n).
Proof. prim_preserves. Qed.
Lemma realloc_keeps_renderers p n : preserves renderers (realloc p n).
Proof. prim_preserves. Qed.
Lemma store_mesh_keeps_backend at_ f : preserves backend (store_mesh at_ f).
Proof. prim_preserves. Qed.
Lemma store_mesh_keeps_renderers at_ f : preserves renderers (store_mesh at_ f).
Proof. prim_preserves. Qed.
Lemma store_request_keeps_backend at_ f : preserves backend (store_request at_ f).
Proof. prim_preserves. Qed.
Lemma store_request_keeps_renderers at_ f : preserves renderers (store_request at_ f).
Proof. prim_preserves. Qed.
Lemma memcpy_keeps_backend d s n : preserves backend (memcpy_vertices d s n).
Proof. prim_preserves. Qed.
Lemma memcpy_keeps_renderers d s n : preserves renderers (memcpy_vertices d s n).
Proof. prim_preserves. Qed.


(** ** Inversion of the primitives *)

Lemma deref_renderer_inv this r w w' :
  deref_renderer this w = Ok r w' →
  w' = w ∧ ∃ a, this = Some a ∧ renderers w !! a = Some r.
Proof.
  unfold deref_renderer. intros E. repeat case_match; simplify_eq. eauto.
Qed.

Lemma assign_inv this f u w w' :
  assign this f w = Ok u w' →
  ∃ a r, this = Some a ∧ renderers w !! a = Some r ∧
         w' = set_renderers (<[a := f r]> (renderers w)) w.
Proof.
  unfold assign. intros E. repeat case_match; simplify_eq. eauto.
Qed.

Lemma assign_lookup a f r w :
  renderers w !! a = Some r →
  renderers (set_renderers (<[a := f r]> (renderers w)) w) !! a = Some (f r).
Proof.
  intros Hr. cbn. apply list_lookup_insert_eq. by eapply lookup_lt_Some.
Qed.

Lemma PANIC_IF_NULL_inv {A} l s (p : option A) u w w' :
  PANIC_IF_NULL l s p w = Ok u w' → w' = w ∧ is_Some p.
Proof.
  unfold PANIC_IF_NULL, ret, PANIC. intros E. destruct p; simplify_eq. eauto.
Qed.

Lemma PANIC_IF_ZERO_inv l s v u w w' :
  PANIC_IF_ZERO l s v w = Ok u w' → w' = w ∧ v ≠ 0.
Proof.
  unfold PANIC_IF_ZERO, ret, PANIC. intros E. case_bool_decide; simplify_eq. eauto.
Qed.

Lemma block_at_lt w a b : block_at w a = Some b → (a < length (heap w))%nat.
Proof.
  unfold block_at. intros E. destruct (heap w !! a) eqn:El; [|done].
  by eapply lookup_lt_Some.
Qed.

Lemma mesh_slot_inv w p i m :
  mesh_slot w p i = Some m →
  ∃ a b, p = Some a ∧ block_at w a = Some b ∧
         in_bounds b i sizeof_mesh = true ∧ m = read_mesh b i.
Proof.
  unfold mesh_slot. intros E. repeat case_match; simplify_eq. eauto 10.
Qed.

Lemma mesh_slot_intro w a b i :
  block_at w a = Some b → in_bounds b i sizeof_mesh = true →
  mesh_slot w (Some a) i = Some (read_mesh b i).
Proof. intros Eb Ei. unfold mesh_slot. by rewrite Eb, Ei. Qed.

Lemma read_write_mesh i m b : read_mesh (write_mesh i m b) i = m.
Proof. unfold read_mesh, write_mesh, mesh_cells. cbn. by rewrite lookup_insert_eq. Qed.

Lemma in_bounds_write_mesh i m b j e :
  in_bounds (write_mesh i m b) j e = in_bounds b j e.
Proof. reflexivity. Qed.

Lemma store_mesh_inv p i f u w w' :
  store_mesh (p, i) f w = Ok u w' →
  ∃ a m, p = Some a ∧ mesh_slot w p i = Some m ∧ mesh_slot w' p i = Some (f m) ∧
       (∀ a' j m', a' ≠ a → mesh_slot w (Some a') j = Some m' →
                   mesh_slot w' (Some a') j = Some m') ∧
       length (heap w') = length (heap w).
Proof.
  unfold store_mesh. cbn [fst snd]. intros E.
  destruct p as [a|]; [|done].
  destruct (block_at w a) as [b|] eqn:Eb; [|done].
  destruct (in_bounds b i sizeof_mesh) eqn:Ei; [|done].
  simplify_eq. exists a, (read_mesh b i).
  pose proof (block_at_lt _ _ _ Eb) as Hlt.
  split; [done|]. split; [by apply mesh_slot_intro|]. split; [|split].
  - unfold mesh_slot, block_at. cbn [heap set_heap].
    rewrite list_lookup_insert_eq by done. cbn [mbind option_bind id].
    rewrite in_bounds_write_mesh, Ei. by rewrite read_write_mesh.
  - intros a' j m' Hne Ea'. unfold mesh_slot, block_at in *. cbn [heap set_heap].
    by rewrite list_lookup_insert_ne by done.
  - cbn [heap set_heap]. by rewrite length_insert.
Qed.

Lemma new_block_inv rg n p w w' :
  new_block rg n w = Ok p w' →
  (∀ q j m, mesh_slot w q j = Some m → mesh_slot w' q j = Some m) ∧
  (∀ d, p = Some d → d = length (heap w)).
Proof.
  unfold new_block, take_alloc_result. intros E.
  repeat case_match; simplify_eq; cbn [heap set_heap set_alloc_script]; split; try done.
  all: try (intros d [= <-]; done).
  all: intros q j m Em; apply mesh_slot_inv in Em as (a & b & -> & Eb & Ei & ->);
    pose proof (block_at_lt _ _ _ Eb) as Hlt;
    unfold mesh_slot, block_at in *; cbn [heap set_heap set_alloc_script];
    rewrite lookup_app_l by done; by rewrite Eb, Ei.
Qed.

Lemma memcpy_vertices_inv dst src n u w w' :
  memcpy_vertices dst src n w = Ok u w' →
  ∃ d, dst = Some d ∧ (d < length (heap w))%nat ∧
       ∀ a j m, a ≠ d → mesh_slot w (Some a) j = Some m →
                mesh_slot w' (Some a) j = Some m.
Proof.
  unfold memcpy_vertices. intros E.
  destruct dst as [d|]; [|done]. destruct src as [vs|]; [|done].
  destruct (block_at w d) as [b|] eqn:Eb; [|done].
  case_bool_decide; [|done]. simplify_eq.
  exists d. split; [done|]. split; [by eapply block_at_lt|].
  intros a j m Hne Em. unfold mesh_slot, block_at in *. cbn [heap set_heap].
  by rewrite list_lookup_insert_ne by done.
Qed.

Lemma load_mesh_inv {A} p i (field : mesh → option A) v w w' :
  load_mesh (p, i) field w = Ok v w' →
  w' = w ∧ ∃ m, mesh_slot w p i = Some m ∧ field m = Some v.
Proof.
  unfold load_mesh. cbn [fst snd]. intros E. repeat case_match; simplify_eq. eauto.
Qed.

Lemma peek_mesh_inv at_ u w w' : peek_mesh at_ w = Ok u w' → w' = w.
Proof. unfold peek_mesh. intros E. repeat case_match; by simplify_eq. Qed.

Lemma Tex3DS_TextureImport_inv input insize tex t w w' :
  Tex3DS_TextureImport input insize tex w = Ok t w' →
  ∃ bytes, input = Some bytes ∧ insize ≤ Z.of_nat (length bytes) ∧
    match Tex3DS_decode (take (Z.to_nat insize) bytes) with
    | Some tx => t = true ∧ store_mesh tex (set_mesh_texture (Some tx)) w = Ok tt w'
    | None => t = false ∧ w' = w
    end.
Proof.
  unfold Tex3DS_TextureImport. intros E.
  destruct input as [bytes|]; [|done]. case_bool_decide; [|done].
  exists bytes. split; [done|]. split; [done|].
  destruct (Tex3DS_decode _) as [tx|].
  - apply bind_ok_inv in E as ([] & w1 & E1 & E). injection E as <- <-. done.
  - by injection E as <- <-.
Qed.

(** What [new_mesh] does to the count. *)
Lemma new_mesh_inv a r h w w' :
  renderers w !! a = Some r →
  new_mesh (Some a) w = Ok h w' →
  ∃ r', renderers w' !! a = Some r' ∧
        n_meshes r' = size_t_add (n_meshes r) 1 ∧
        h = size_t_sub (n_meshes r') 1 ∧
        backend w' = backend w.
Proof.
  intros Hr E. unfold new_mesh in E.
  apply bind_ok_inv in E as ([] & w1 & E1 & E). apply PANIC_IF_NULL_inv in E1 as [-> _].
  apply bind_ok_inv in E as (r0 & w1 & E1 & E).
  apply deref_renderer_inv in E1 as [-> (? & [= <-] & Hr0)]. simplify_eq.
  apply bind_ok_inv in E as ([] & w1 & E1 & E).
  assert (∃ r1, renderers w1 !! a = Some r1 ∧ n_meshes r1 = n_meshes r ∧
                backend w1 = backend w) as (r1 & Hr1 & Hn1 & Hb1).
  { destruct (meshes r) as [b|].
    - case_bool_decide.
      + apply bind_ok_inv in E1 as (p & w2 & E2 & E1).
        pose proof (realloc_keeps_renderers _ _ _ _ _ E2) as R2.
        pose proof (realloc_keeps_backend _ _ _ _ _ E2) as B2.
        apply bind_ok_inv in E1 as ([] & w3 & E3 & E1).
        apply assign_inv in E3 as (? & r3 & [= <-] & Hr3 & ->).
        apply bind_ok_inv in E1 as ([] & w4 & E4 & E1).
        assert (w4 = set_renderers (<[a:=set_meshes p r3]> (renderers w2)) w2) as ->
          by (unfold ret, PANIC in E4; destruct p; by simplify_eq).
        apply assign_inv in E1 as (? & r5 & [= <-] & Hr5 & ->).
        rewrite (assign_lookup _ _ _ _ Hr3) in Hr5. simplify_eq.
        eexists. split; [repeat apply assign_lookup; eassumption|]. split; [|done].
        rewrite R2 in Hr3. by simplify_eq.
      + unfold ret in E1. simplify_eq. eauto.
    - apply bind_ok_inv in E1 as (p & w2 & E2 & E1).
      pose proof (new_block_keeps_renderers _ _ _ _ _ E2) as R2.
      pose proof (new_block_keeps_backend _ _ _ _ _ E2) as B2.
      apply bind_ok_inv in E1 as ([] & w3 & E3 & E1).
      apply assign_inv in E3 as (? & r3 & [= <-] & Hr3 & ->).
      apply bind_ok_inv in E1 as ([] & w4 & E4 & E1).
      assert (w4 = set_renderers (<[a:=set_meshes p r3]> (renderers w2)) w2) as ->
        by (unfold ret, PANIC in E4; destruct p; by simplify_eq).
      apply assign_inv in E1 as (? & r5 & [= <-] & Hr5 & ->).
      rewrite (assign_lookup _ _ _ _ Hr3) in Hr5. simplify_eq.
      eexists. split; [repeat apply assign_lookup; eassumption|]. split; [|done].
      rewrite R2 in Hr3. by simplify_eq. }
  apply bind_ok_inv in E as ([] & w2 & E2 & E).
  apply assign_inv in E2 as (? & r2 & [= <-] & Hr2 & ->). simplify_eq.
  apply bind_ok_inv in E as (r3 & w3 & E3 & E).
  apply deref_renderer_inv in E3 as [-> (? & [= <-] & Hr3)].
  rewrite (assign_lookup _ _ _ _ Hr2) in Hr3. simplify_eq.
  unfold ret in E. simplify_eq. eexists. split; [by apply assign_lookup|].
  cbn. by rewrite Hn1.
Qed.


Lemma render_one_keeps {X} (proj : world → X) this idx :
  (∀ c, preserves proj (call c)) → preserves proj (render_one this idx).
Proof.
  intros Hcall. unfold render_one.
  repeat first
    [ apply Hcall | apply preserves_deref | apply preserves_load_mesh
    | apply preserves_peek_mesh | apply preserves_load_request
    | apply preserves_bind; [| intros ?] ].
Qed.

Lemma render_loop_keeps {X} (proj : world → X) rounds this idx :
  (∀ c, preserves proj (call c)) → preserves proj (render_loop rounds this idx).
Proof.
  intros Hcall. revert idx. induction rounds as [|k IH]; intros idx; simpl.
  - apply preserves_bind; [apply preserves_deref | intros r].
    case_bool_decide; [apply preserves_undefined | apply preserves_ret].
  - apply preserves_bind; [apply preserves_deref | intros r].
    case_bool_decide; [| apply preserves_ret].
    apply preserves_bind; [by apply render_one_keeps | intros _; apply IH].
Qed.

Lemma flat_map_job_calls_length r js :
  length (flat_map (job_calls r) js) = (8 * length js)%nat.
Proof. induction js as [|j js IH]; simpl; [done | rewrite IH; lia]. Qed.

Lemma flat_map_job_calls_at r js (i : nat) j :
  js !! i = Some j →
  take 8 (drop (8 * i) (flat_map (job_calls r) js)) = job_calls r j.
Proof.
  revert i. induction js as [|j0 js IH]; intros i Hi; [done|].
  destruct i as [|i]; simpl in Hi.
  - injection Hi as ->. reflexivity.
  - replace (8 * S i)%nat with (8 + 8 * i)%nat by lia.
    change (flat_map (job_calls r) (j0 :: js))
      with (job_calls r j0 ++ flat_map (job_calls r) js).
    rewrite drop_app_add' by reflexivity. by apply IH.
Qed.

Lemma draw_groups_job_calls r js :
  draw_groups [] (flat_map (job_calls r) js) = map (job_calls r) js.
Proof. induction js as [|j js IH]; simpl; [done | by rewrite IH]. Qed.

Lemma jobs_from_lookup w r count idx js (i : nat) j :
  jobs_from w r count idx = Some js → js !! i = Some j →
  job_at w r (idx + Z.of_nat i) = Some j.
Proof.
  revert idx js i. induction count as [|c IH]; intros idx js i Hjs Hi.
  - simpl in Hjs. by simplify_eq.
  - simpl in Hjs.
    destruct (job_at w r idx) as [j0|] eqn:Ej; simpl in Hjs; [|done].
    destruct (jobs_from w r c (idx + 1)) as [js'|] eqn:Ejs; simpl in Hjs; [|done].
    injection Hjs as <-. destruct i as [|i]; simpl in Hi.
    + injection Hi as <-. by rewrite Z.add_0_r.
    + replace (idx + Z.of_nat (S i)) with (idx + 1 + Z.of_nat i) by lia.
      by eapply IH.
Qed.

(** A job is read off the request slot and the mesh slot its handle
    designates. *)
Lemma job_at_inv w r idx j :
  job_at w r idx = Some j →
  ∃ rq mesh_id m,
    request_slot w (requests r) idx = Some rq ∧
    req_mesh_id rq = Some mesh_id ∧
    req_model rq = Some (job_model j) ∧
    mesh_slot w (meshes r) mesh_id = Some m ∧
    mesh_material m = Some (job_material j) ∧
    mesh_texture m = Some (job_texture j) ∧
    mesh_vertex_count m = Some (job_vertex_count j).
Proof.
  unfold job_at. intros Hj.
  destruct (request_slot w (requests r) idx) as [rq|]; simpl in Hj; [|done].
  destruct (req_mesh_id rq) as [id|] eqn:Eid; simpl in Hj; [|done].
  destruct (req_model rq) as [model|] eqn:Emodel; simpl in Hj; [|done].
  destruct (mesh_slot w (meshes r) id) as [m|] eqn:Em; simpl in Hj; [|done].
  destruct (mesh_material m) as [mat|] eqn:Emat; simpl in Hj; [|done].
  destruct (mesh_texture m) as [tex|] eqn:Etex; simpl in Hj; [|done].
  destruct (mesh_vertex_count m) as [vc|] eqn:Evc; simpl in Hj; [|done].
  injection Hj as <-. exists rq, id, m. by rewrite Eid, Emodel.
Qed.

(** C1: for every queued request, in queue order, the backend receives
    exactly these eight calls, in this order: the projection matrix of the
    renderer to the projection uniform; the model matrix stored in the
    request, as it is, to the model-view uniform; the material of the mesh
    the request names (its ambient, diffuse, specular and emission vectors
    as the four rows of a matrix) to the material uniform; lightVec =
    (0,0,-1,0), lightHalfVec = (0,0,-1,0), lightClr = (1,1,1,1); the
    texture of that mesh to unit 0; and one non-indexed triangle-list draw
    from vertex 0 over the vertex_count of that mesh, converted to the int
    the draw call takes.  The request is the one at index i of the queue
    and the mesh the one in the slot of the mesh table that the request's
    handle designates.  The projection matrix is the same before and
    after. *)
Theorem C1_render_call_sequence a r w js :
  renderers w !! a = Some r →
  n_requests r ≤ SIZE_MAX →
  frame_jobs w r = Some js →
  ∃ w' calls,
    renderer_render (Some a) w = Ok tt w' ∧
    backend w' = backend w ++ calls ∧
    length calls = (8 * length js)%nat ∧
    length js = Z.to_nat (n_requests r) ∧
    projection <$> renderers w' !! a = Some (projection r) ∧
    ∀ (i : nat), (i < length js)%nat →
      ∃ rq mesh_id model m mat tex vertex_count,
        request_slot w (requests r) (Z.of_nat i) = Some rq ∧
        req_mesh_id rq = Some mesh_id ∧
        req_model rq = Some model ∧
        mesh_slot w (meshes r) mesh_id = Some m ∧
        mesh_material m = Some mat ∧
        mesh_texture m = Some tex ∧
        mesh_vertex_count m = Some vertex_count ∧
        take 8 (drop (8 * i) calls) =
        [ C3D_FVUnifMtx4x4 GPU_VERTEX_SHADER (uLoc_projection r) (projection r);
          C3D_FVUnifMtx4x4 GPU_VERTEX_SHADER (uLoc_modelView r) model;
          C3D_FVUnifMtx4x4 GPU_VERTEX_SHADER (uLoc_material r)
                           {| r0 := ambient mat; r1 := diffuse mat;
                              r2 := specular mat; r3 := emission mat |};
          C3D_FVUnifSet GPU_VERTEX_SHADER (uLoc_lightVec r)
                        f_0_0 f_0_0 f_neg_1_0 f_0_0;
          C3D_FVUnifSet GPU_VERTEX_SHADER (uLoc_lightHalfVec r)
                        f_0_0 f_0_0 f_neg_1_0 f_0_0;
          C3D_FVUnifSet GPU_VERTEX_SHADER (uLoc_lightClr r)
                        f_1_0 f_1_0 f_1_0 f_1_0;
          C3D_TexBind 0 tex;
          C3D_DrawArrays GPU_TRIANGLES 0
                         (if bool_decide (vertex_count mod 2 ^ 32 < 2 ^ 31)
                          then vertex_count mod 2 ^ 32
                          else vertex_count mod 2 ^ 32 - 2 ^ 32) ].
Proof.
  intros Hr Hmax Hjs. eexists _, _. split; [by apply renderer_render_ok|].
  cbn [backend set_renderers set_backend renderers].
  split; [done|]. split; [apply flat_map_job_calls_length|].
  split; [by eapply jobs_from_length|]. split.
  - rewrite list_lookup_insert_eq by (by eapply lookup_lt_Some). done.
  - intros i Hi. destruct (lookup_lt_is_Some_2 js i Hi) as [j Hj].
    pose proof (jobs_from_lookup _ _ _ _ _ _ _ Hjs Hj) as Ej.
    rewrite Z.add_0_l in Ej.
    destruct (job_at_inv _ _ _ _ Ej) as (rq & id & m & Erq & Eid & Emo & Em & Ema & Et & Ev).
    exists rq, id, (job_model j), m, (job_material j), (job_texture j), (job_vertex_count j).
    repeat (split; [done|]).
    by apply (flat_map_job_calls_at r) in Hj.
Qed.

(** C4: the draws reach the backend in queue order.  Cutting the calls of
    the frame after each draw call gives one group per queued request, in
    the order of the queue, and the k-th group is the one of the k-th
    request; for a queue [A, B] the calls are those of A followed by
    those of B. *)
Theorem C4_draws_in_enqueue_order a r w js :
  renderers w !! a = Some r →
  n_requests r ≤ SIZE_MAX →
  frame_jobs w r = Some js →
  ∃ w' calls,
    renderer_render (Some a) w = Ok tt w' ∧
    backend w' = backend w ++ calls ∧
    draw_groups [] calls = map (job_calls r) js ∧
    filter (λ c, is_draw c = true) calls
    = map (λ j, C3D_DrawArrays GPU_TRIANGLES 0 (int_of_size_t (job_vertex_count j))) js ∧
    ∀ A B, js = [A; B] → calls = job_calls r A ++ job_calls r B.
Proof.
  intros Hr Hmax Hjs. eexists _, _. split; [by apply renderer_render_ok|].
  cbn [backend set_renderers set_backend]. split; [done|].
  split; [apply draw_groups_job_calls|]. split.
  - clear. induction js as [|j js IH]; [done|].
    change (flat_map (job_calls r) (j :: js))
      with (job_calls r j ++ flat_map (job_calls r) js).
    rewrite filter_app, IH. reflexivity.
  - intros A B ->. simpl. done.
Qed.

(** C6: a call of renderer_render that returns leaves the queue with
    length 0, whatever its length was, and keeps the storage of the queue
    and its capacity; and the call does return whenever every queued
    request and the mesh it names can be read. *)
Theorem C6_queue_empty_after_render a r w :
  renderers w !! a = Some r →
  (∀ w', renderer_render (Some a) w = Ok tt w' →
     ∃ r', renderers w' !! a = Some r' ∧ n_requests r' = 0 ∧
           requests r' = requests r ∧
           capacity_requests r' = capacity_requests r ∧
           heap w' = heap w) ∧
  (∀ js, n_requests r ≤ SIZE_MAX → frame_jobs w r = Some js →
     ∃ w', renderer_render (Some a) w = Ok tt w').
Proof.
  intros Hr. split.
  - intros w' E. unfold renderer_render in E.
    apply bind_ok_inv in E as (? & w1 & E1 & E). injection E1 as _ <-.
    apply bind_ok_inv in E as (r1 & w1 & E1 & E).
    rewrite (deref_renderer_ok _ _ _ Hr) in E1. injection E1 as <- <-.
    apply bind_ok_inv in E as ([] & w1 & E1 & E).
    pose proof (render_loop_keeps renderers _ _ _ call_keeps_renderers _ _ _ E1) as Er.
    pose proof (render_loop_keeps heap _ _ _ call_keeps_heap _ _ _ E1) as Eh.
    unfold assign in E. rewrite Er, Hr in E. injection E as <-.
    exists (set_n_requests 0 r). cbn [renderers set_renderers heap].
    rewrite list_lookup_insert_eq by (by eapply lookup_lt_Some).
    done.
  - intros js Hmax Hjs. eexists. by apply renderer_render_ok.
Qed.

(** C8: with no request queued, renderer_render returns with the state it
    was called in: the backend has received no call at all, and the
    renderer, its mesh table and the heap are as they were. *)
Theorem C8_empty_render_is_noop a r w :
  renderers w !! a = Some r →
  n_requests r = 0 →
  renderer_render (Some a) w = Ok tt w.
Proof.
  intros Hr Hn.
  rewrite (renderer_render_ok a r w []); [| done | unfold SIZE_MAX; lia |].
  - f_equal. simpl. rewrite app_nil_r.
    assert (set_n_requests 0 r = r) as -> by (destruct r; simpl in *; by subst).
    rewrite list_insert_id by done. by destruct w.
  - unfold frame_jobs. by rewrite Hn.
Qed.

(** C7: with n_vertices = 0 or texture_size = 0 the registration ends in
    panic, with the state it was called in: the mesh count, the capacity
    and every registered mesh are untouched. *)
Theorem C7_empty_input_panics_before_mutation
    this vertices n_vertices texture_data texture_size material_ w :
  n_vertices = 0 ∨ texture_size = 0 →
  ∃ line message,
    renderer_register_mesh this vertices n_vertices texture_data texture_size
                           material_ w
    = Panic line message w.
Proof.
  intros Hz. unfold renderer_register_mesh.
  destruct this as [a|]; [| by eexists _, _].
  destruct vertices as [vs|]; [| by eexists _, _].
  destruct texture_data as [td|]; [| by eexists _, _].
  destruct (decide (n_vertices = 0)) as [->|Hn]; [by eexists _, _|].
  destruct Hz as [?| ->]; [done|].
  eexists _, _. unfold bind, PANIC_IF_NULL, PANIC_IF_ZERO, ret.
  rewrite bool_decide_eq_false_2 by done. reflexivity.
Qed.

(** ** What reaches the backend *)










Lemma Tex3DS_TextureImport_keeps_renderers i n t : preserves renderers (Tex3DS_TextureImport i n t).
Proof.
  intros w a w' E. apply Tex3DS_TextureImport_inv in E as (bytes & -> & _ & Hd).
  destruct (Tex3DS_decode _); destruct Hd as [_ Hd]; [| by subst].
  by eapply store_mesh_keeps_renderers.
Qed.


Lemma C3D_TexSetFilter_keeps_renderers t mg mn : preserves renderers (C3D_TexSetFilter t mg mn).
Proof.
  apply preserves_bind; [apply preserves_load_mesh | intros ?; apply store_mesh_keeps_renderers].
Qed.



Lemma renderer_request_keeps_backend this mesh_id model :
  preserves backend (renderer_request this mesh_id model).
Proof.
  unfold renderer_request.
  repeat first
    [ apply preserves_deref | apply preserves_ret | apply preserves_PANIC
    | apply preserves_deref_arg
    | apply assign_keeps_backend | apply new_block_keeps_backend
    | apply realloc_keeps_backend | apply store_request_keeps_backend
    | apply preserves_bind; [| intros ?]
    | case_match | case_bool_decide ].
Qed.



(** A step that cannot be the one that panicked at the given line. *)
Ltac exclude_panic E :=
  exfalso;
  repeat (unfold new_mesh, Tex3DS_TextureImport, C3D_TexSetFilter,
            PANIC_IF_NULL, PANIC_IF_ZERO, PANIC, ret, undefined, bind, call, modify,
            deref_renderer, assign, deref_arg, malloc, linearAlloc, new_block,
            take_alloc_result, realloc, load_mesh, peek_mesh, store_mesh,
            load_request, store_request, memcpy_vertices in E;
          cbn beta iota in E);
  repeat (case_match; simplify_eq/=); simplify_eq/=.

Ltac panic_step E x w1 E1 :=
  apply bind_panic_inv in E as [E | (x & w1 & E1 & E)]; [by exclude_panic E|].

Ltac panic_skip E :=
  apply bind_panic_inv in E as [E | (? & ? & _ & E)]; [by exclude_panic E|].

(** C10: when the registration ends in the panic of line 114, which is
    the one taken when the texture import fails, the state at that moment
    has the mesh count incremented and the material, the vertex buffer and
    the vertex count of the new slot written. *)
Theorem C10_import_failure_after_mutation
    a r vertices n_vertices texture_data texture_size material_ w w' :
  renderers w !! a = Some r →
  renderer_register_mesh (Some a) vertices n_vertices texture_data texture_size
                         material_ w
  = Panic 114 "importing t3x texture failed!" w' →
  ∃ r' m vbo bytes,
    renderers w' !! a = Some r' ∧
    n_meshes r' = size_t_add (n_meshes r) 1 ∧
    mesh_slot w' (meshes r') (size_t_sub (n_meshes r') 1) = Some m ∧
    mesh_material m = Some material_ ∧
    mesh_vbo_data m = Some (Some vbo) ∧
    mesh_vertex_count m = Some n_vertices ∧
    texture_data = Some bytes ∧
    Tex3DS_decode (take (Z.to_nat texture_size) bytes) = None.
Proof.
  intros Hr E. unfold renderer_register_mesh in E.
  panic_step E u1 w1 E1. apply PANIC_IF_NULL_inv in E1 as [-> _].
  panic_step E u2 w1 E1. apply PANIC_IF_NULL_inv in E1 as [-> _].
  panic_step E u3 w1 E1. apply PANIC_IF_NULL_inv in E1 as [-> _].
  panic_step E u4 w1 E1. apply PANIC_IF_ZERO_inv in E1 as [-> _].
  panic_step E u5 w1 E1. apply PANIC_IF_ZERO_inv in E1 as [-> _].
  panic_step E h w1 E1.
  apply (new_mesh_inv _ _ _ _ _ Hr) in E1 as (r1 & Hr1 & Hn1 & -> & _).
  panic_step E r1' w1' E1.
  apply deref_renderer_inv in E1 as [-> (? & [= <-] & Hr1')]. simplify_eq.
  set (i := size_t_sub (n_meshes r1) 1) in *.
  panic_step E u6 w2 E1.
  pose proof (store_mesh_keeps_renderers _ _ _ _ _ E1) as R2.
  apply store_mesh_inv in E1 as (am & m1 & Ep & _ & S2 & _ & L2).
  panic_step E vbo w3 E1.
  pose proof (new_block_keeps_renderers _ _ _ _ _ E1) as R3.
  assert (am < length (heap w2))%nat as Hlt.
  { rewrite Ep in S2. apply mesh_slot_inv in S2 as (? & b & [= <-] & Eb & _).
    by apply block_at_lt in Eb. }
  apply new_block_inv in E1 as [F3 V3]. apply F3 in S2.
  panic_step E u7 w4 E1.
  pose proof (store_mesh_keeps_renderers _ _ _ _ _ E1) as R4.
  apply store_mesh_inv in E1 as (? & m3 & ? & S3 & S4 & _ & L4). simplify_eq.
  panic_step E dst w4' E1.
  apply load_mesh_inv in E1 as [-> (m4 & S4' & V4)]. simplify_eq/=.
  panic_step E u8 w5 E1.
  pose proof (memcpy_keeps_renderers _ _ _ _ _ _ E1) as R5.
  apply memcpy_vertices_inv in E1 as (d & -> & Hd & F5).
  specialize (V3 _ eq_refl). subst d. rewrite Ep in *.
  apply F5 in S4; [|lia].
  panic_step E u9 w6 E1.
  pose proof (store_mesh_keeps_renderers _ _ _ _ _ E1) as R6.
  apply store_mesh_inv in E1 as (? & m5 & ? & S5 & S6 & _ & L6). simplify_eq.
  panic_step E vd w6' E1.
  apply load_mesh_inv in E1 as [-> _].
  panic_step E u10 w7 E1. apply PANIC_IF_NULL_inv in E1 as [-> _].
  panic_step E u11 w7 E1. apply peek_mesh_inv in E1 as ->.
  panic_step E t3x w7 E1.
  apply Tex3DS_TextureImport_inv in E1 as (bytes & -> & _ & Hdec).
  apply bind_panic_inv in E as [E | (u12 & w8 & E1 & E)].
  - destruct t3x; [done|]. injection E as <-.
    destruct (Tex3DS_decode _) as [tx|] eqn:Edec; destruct Hdec as [Ht Hw]; [done|].
    subst w7.
    exists r1. eexists _, _, bytes.
    split; [congruence|]. split; [done|]. split; [rewrite Ep; exact S6|].
    done.
  - exfalso. clear - E. do 8 panic_skip E. done.
Qed.



(** ** The growth paths *)

Lemma take_alloc_result_ok w :
  head (alloc_script w) ≠ Some false →
  ∃ w1, take_alloc_result w = (true, w1) ∧ renderers w1 = renderers w ∧
        heap w1 = heap w ∧ backend w1 = backend w.
Proof.
  intros Hs. unfold take_alloc_result.
  destruct (alloc_script w) as [|[] s]; [by exists w | by eexists | done].
Qed.

Lemma assign_ok a f r w :
  renderers w !! a = Some r →
  assign (Some a) f w = Ok tt (set_renderers (<[a := f r]> (renderers w)) w).
Proof. intros Hr. unfold assign. by rewrite Hr. Qed.

Lemma size_t_add_sub n : 0 ≤ n < SIZE_MAX → size_t_sub (size_t_add n 1) 1 = n.
Proof.
  unfold size_t_sub, size_t_add, size_t_wrap, SIZE_MAX. intros Hn.
  rewrite (Z.mod_small (n + 1)) by lia. rewrite Z.mod_small; lia.
Qed.

Lemma size_t_add_small n : 0 ≤ n < SIZE_MAX → size_t_add n 1 = n + 1.
Proof. unfold size_t_add, size_t_wrap, SIZE_MAX. intros Hn. rewrite Z.mod_small; lia. Qed.

Lemma newcap_nonneg c : 0 ≤ size_t_mul c 3 / 2.
Proof.
  unfold size_t_mul, size_t_wrap. apply Z.div_pos; [|lia].
  apply Z.mod_pos_bound. lia.
Qed.

(** The block [realloc] returns for a table of [cap] elements holds
    [cap * 3 / 2] bytes: no element of the table fits in it. *)
Lemma realloc_ok b blk n w :
  block_at w b = Some blk → blk_region blk = MainHeap →
  head (alloc_script w) ≠ Some false →
  ∃ w1, renderers w1 = renderers w ∧ heap w1 = heap w ∧ backend w1 = backend w ∧
    realloc (Some b) n w
    = Ok (Some (length (heap w)))
         (set_heap (<[b := None]> (heap w)
                    ++ [Some {| blk_region := MainHeap; blk_bytes := n;
                                blk_cells := truncate_cells (Z.min (blk_bytes blk) n)
                                                            (blk_cells blk) |}]) w1).
Proof.
  intros Hb Hreg Hs. destruct (take_alloc_result_ok w Hs) as (w1 & Et & R1 & H1 & B1).
  exists w1. repeat split; try done.
  unfold realloc. rewrite Hb, Hreg, Et. by rewrite H1.
Qed.

Lemma block_at_after_realloc b (h : list (option block)) x w :
  (b < length h)%nat →
  block_at (set_heap (<[b := None]> h ++ [Some x]) w) b = None ∧
  block_at (set_heap (<[b := None]> h ++ [Some x]) w) (length h) = Some x.
Proof.
  intros Hlt. unfold block_at. cbn [heap set_heap]. split.
  - rewrite lookup_app_l by (by rewrite length_insert).
    by rewrite list_lookup_insert_eq.
  - rewrite (list_lookup_middle _ [] (Some x)) by (by rewrite length_insert). done.
Qed.

Lemma mesh_slot_too_small w a blk k :
  block_at w a = Some blk → 0 ≤ blk_bytes blk < sizeof_mesh →
  mesh_slot w (Some a) k = None.
Proof.
  intros Hb Hsz. unfold mesh_slot, in_bounds. rewrite Hb.
  rewrite bool_decide_eq_false_2; [done|]. nia.
Qed.

Lemma mesh_slot_dead w a k : block_at w a = None → mesh_slot w (Some a) k = None.
Proof. intros Hb. unfold mesh_slot. by rewrite Hb. Qed.

(** C3 (the growth step as the code has it): on a full table, [new_mesh]
    sets the capacity to capacity * 3 / 2 and returns the next handle, but
    the block it gets from realloc holds capacity * 3 / 2 bytes, not that
    many meshes: the old block is gone, and in the new one no mesh can be
    read, neither one registered before nor the new one. *)
Theorem C3_growth_loses_registered_meshes a r b blk w :
  renderers w !! a = Some r →
  meshes r = Some b →
  block_at w b = Some blk →
  blk_region blk = MainHeap →
  n_meshes r = capacity_meshes r →
  0 ≤ capacity_meshes r < SIZE_MAX →
  size_t_mul (capacity_meshes r) 3 / 2 < sizeof_mesh →
  head (alloc_script w) ≠ Some false →
  ∃ w' r' b' blk',
    new_mesh (Some a) w = Ok (n_meshes r) w' ∧
    renderers w' !! a = Some r' ∧
    capacity_meshes r' = size_t_mul (capacity_meshes r) 3 / 2 ∧
    n_meshes r' = n_meshes r + 1 ∧
    meshes r' = Some b' ∧
    block_at w' b' = Some blk' ∧
    blk_bytes blk' = size_t_mul (capacity_meshes r) 3 / 2 ∧
    block_at w' b = None ∧
    (∀ k, mesh_slot w' (meshes r') k = None) ∧
    (∀ k, mesh_slot w' (meshes r) k = None).
Proof.
  intros Hr Hm Hb Hreg Hfull Hcap Hsmall Hs.
  destruct (realloc_ok b blk (size_t_mul (capacity_meshes r) 3 / 2) w Hb Hreg Hs)
    as (w1 & R1 & H1 & B1 & Erealloc).
  pose proof (block_at_lt _ _ _ Hb) as Hlt.
  eexists _, _, _, _. split.
  { unfold new_mesh. cbn [PANIC_IF_NULL].
    erewrite bind_ok by reflexivity.
    erewrite bind_ok by (by apply deref_renderer_ok).
    rewrite Hm. rewrite bool_decide_eq_true_2 by done.
    erewrite bind_ok; cycle 1.
    { erewrite bind_ok by exact Erealloc.
      erewrite bind_ok by (apply assign_ok; cbn [renderers set_heap]; by rewrite R1).
      erewrite bind_ok by reflexivity.
      apply assign_ok. by apply assign_lookup; cbn [renderers set_heap]; rewrite R1. }
    erewrite bind_ok by (apply assign_ok; do 2 apply assign_lookup;
                         cbn [renderers set_heap]; by rewrite R1).
    erewrite bind_ok by (apply deref_renderer_ok; do 3 apply assign_lookup;
                         cbn [renderers set_heap]; by rewrite R1).
    unfold ret. cbn [n_meshes set_n_meshes set_capacity_meshes set_meshes].
    rewrite size_t_add_sub by lia. reflexivity. }
  split.
  { do 3 apply assign_lookup. cbn [renderers set_heap]. by rewrite R1. }
  cbn [n_meshes capacity_meshes meshes set_n_meshes set_capacity_meshes set_meshes].
  split; [done|]. split; [apply size_t_add_small; lia|]. split; [done|].
  destruct (block_at_after_realloc b (heap w)
    {| blk_region := MainHeap; blk_bytes := size_t_mul (capacity_meshes r) 3 / 2;
       blk_cells := truncate_cells (Z.min (blk_bytes blk) (size_t_mul (capacity_meshes r) 3 / 2))
                      (blk_cells blk) |} w1 Hlt) as [Hold Hnew].
  split; [exact Hnew|]. split; [done|]. split; [exact Hold|]. split.
  - intros k. eapply mesh_slot_too_small; [exact Hnew|].
    cbn [blk_bytes]. pose proof (newcap_nonneg (capacity_meshes r)). lia.
  - intros k. rewrite Hm. by apply mesh_slot_dead.
Qed.


(** C5 (the growth step as the code has it): a request on a full queue
    gives the block realloc returns, of capacity * 3 / 2 bytes, to the
    mesh table pointer, and leaves the queue pointer on the block realloc
    has freed; the write of the request through it is undefined.  At that
    point no registered mesh can be read any more. *)
Theorem C5_full_queue_request_overwrites_mesh_table a r b blk mesh_id model w :
  renderers w !! a = Some r →
  requests r = Some b →
  block_at w b = Some blk →
  blk_region blk = MainHeap →
  n_requests r = capacity_requests r →
  size_t_mul (capacity_requests r) 3 / 2 < sizeof_mesh →
  head (alloc_script w) ≠ Some false →
  ∃ w' r',
    renderer_request (Some a) mesh_id model w
    = Undefined "request access outside a live block" w' ∧
    renderers w' !! a = Some r' ∧
    meshes r' = Some (length (heap w)) ∧
    (∀ bm blkm, meshes r = Some bm → block_at w bm = Some blkm →
                meshes r' ≠ meshes r) ∧
    requests r' = Some b ∧
    block_at w' b = None ∧
    capacity_requests r' = size_t_mul (capacity_requests r) 3 / 2 ∧
    n_requests r' = size_t_add (n_requests r) 1 ∧
    (∀ k, mesh_slot w' (meshes r') k = None).
Proof.
  intros Hr Hq Hb Hreg Hfull Hsmall Hs.
  destruct (realloc_ok b blk (size_t_mul (capacity_requests r) 3 / 2) w Hb Hreg Hs)
    as (w1 & R1 & H1 & B1 & Erealloc).
  pose proof (block_at_lt _ _ _ Hb) as Hlt.
  destruct (block_at_after_realloc b (heap w)
    {| blk_region := MainHeap; blk_bytes := size_t_mul (capacity_requests r) 3 / 2;
       blk_cells := truncate_cells (Z.min (blk_bytes blk) (size_t_mul (capacity_requests r) 3 / 2))
                      (blk_cells blk) |} w1 Hlt) as [Hold Hnew].
  eexists _, _. split.
  { unfold renderer_request.
    erewrite bind_ok by (by apply deref_renderer_ok).
    rewrite Hq. rewrite bool_decide_eq_true_2 by done.
    erewrite bind_ok; cycle 1.
    { erewrite bind_ok by exact Erealloc.
      erewrite bind_ok by (apply assign_ok; cbn [renderers set_heap]; by rewrite R1).
      erewrite bind_ok by (apply deref_renderer_ok, assign_lookup;
                           cbn [renderers set_heap]; by rewrite R1).
      cbn [requests set_meshes]. rewrite Hq.
      erewrite bind_ok by reflexivity.
      apply assign_ok. by apply assign_lookup; cbn [renderers set_heap]; rewrite R1. }
    erewrite bind_ok by (apply deref_renderer_ok; do 2 apply assign_lookup;
                         cbn [renderers set_heap]; by rewrite R1).
    cbn [requests n_requests set_capacity_requests set_meshes]. rewrite Hq.
    erewrite bind_ok by (apply assign_ok; do 2 apply assign_lookup;
                         cbn [renderers set_heap]; by rewrite R1).
    unfold bind, store_request. cbn [fst snd].
    change (block_at (set_renderers ?x (set_renderers ?y (set_renderers ?z ?w0))) b)
      with (block_at w0 b).
    rewrite Hold. reflexivity. }
  split.
  { do 3 apply assign_lookup. cbn [renderers set_heap]. by rewrite R1. }
  cbn [n_requests capacity_requests requests meshes
       set_n_requests set_capacity_requests set_meshes].
  split; [done|]. split.
  { intros bm blkm Hm Hbm E. rewrite Hm in E. injection E as E.
    apply block_at_lt in Hbm. lia. }
  split; [done|]. split; [exact Hold|]. split; [done|]. split; [done|].
  intros k. eapply mesh_slot_too_small; [exact Hnew|].
  cbn [blk_bytes]. pose proof (newcap_nonneg (capacity_requests r)). lia.
Qed.

(** ** What holds while the tables have room *)

(** X1: the first registration of a renderer (no table yet) allocates a
    table of 10 * sizeof(struct mesh) bytes, sets the capacity to 10 and
    hands out the count as the handle. *)
Lemma new_mesh_first a r w :
  renderers w !! a = Some r →
  meshes r = NULL →
  0 ≤ n_meshes r < SIZE_MAX →
  head (alloc_script w) ≠ Some false →
  ∃ w' r',
    new_mesh (Some a) w = Ok (n_meshes r) w' ∧
    renderers w' !! a = Some r' ∧
    meshes r' = Some (length (heap w)) ∧
    capacity_meshes r' = 10 ∧
    n_meshes r' = n_meshes r + 1 ∧
    block_at w' (length (heap w))
    = Some {| blk_region := MainHeap; blk_bytes := size_t_mul 10 sizeof_mesh;
              blk_cells := Fresh |}.
Proof.
  intros Hr Hm Hn Hs.
  destruct (take_alloc_result_ok w Hs) as (w1 & Et & R1 & H1 & B1).
  assert (malloc (size_t_mul 10 sizeof_mesh) w
          = Ok (Some (length (heap w)))
               (set_heap (heap w ++ [Some {| blk_region := MainHeap;
                                             blk_bytes := size_t_mul 10 sizeof_mesh;
                                             blk_cells := Fresh |}]) w1)) as Em.
  { unfold malloc, new_block. rewrite Et. by rewrite H1. }
  eexists _, _. split.
  { unfold new_mesh. cbn [PANIC_IF_NULL].
    erewrite bind_ok by reflexivity.
    erewrite bind_ok by (by apply deref_renderer_ok).
    rewrite Hm. cbn [NULL].
    erewrite bind_ok; cycle 1.
    { erewrite bind_ok by exact Em.
      erewrite bind_ok by (apply assign_ok; cbn [renderers set_heap]; by rewrite R1).
      erewrite bind_ok by reflexivity.
      apply assign_ok. by apply assign_lookup; cbn [renderers set_heap]; rewrite R1. }
    erewrite bind_ok by (apply assign_ok; do 2 apply assign_lookup;
                         cbn [renderers set_heap]; by rewrite R1).
    erewrite bind_ok by (apply deref_renderer_ok; do 3 apply assign_lookup;
                         cbn [renderers set_heap]; by rewrite R1).
    unfold ret. cbn [n_meshes set_n_meshes set_capacity_meshes set_meshes].
    rewrite size_t_add_sub by lia. reflexivity. }
  split.
  { do 3 apply assign_lookup. cbn [renderers set_heap]. by rewrite R1. }
  cbn [n_meshes capacity_meshes meshes set_n_meshes set_capacity_meshes set_meshes].
  split; [done|]. split; [done|]. split; [apply size_t_add_small; lia|].
  unfold block_at. cbn [heap set_heap set_renderers].
  by rewrite (list_lookup_middle _ [] _ _ eq_refl).
Qed.

(** With room left, [new_mesh] only counts. *)
Lemma new_mesh_room a r b w :
  renderers w !! a = Some r →
  meshes r = Some b →
  n_meshes r ≠ capacity_meshes r →
  0 ≤ n_meshes r < SIZE_MAX →
  new_mesh (Some a) w
  = Ok (n_meshes r)
       (set_renderers (<[a := set_n_meshes (n_meshes r + 1) r]> (renderers w)) w).
Proof.
  intros Hr Hm Hne Hn. unfold new_mesh. cbn [PANIC_IF_NULL].
  erewrite bind_ok by reflexivity.
  erewrite bind_ok by (by apply deref_renderer_ok).
  rewrite Hm. rewrite bool_decide_eq_false_2 by done.
  erewrite bind_ok by reflexivity.
  erewrite bind_ok by (by apply assign_ok).
  erewrite bind_ok by (by apply deref_renderer_ok, assign_lookup).
  unfold ret. cbn [n_meshes set_n_meshes].
  rewrite size_t_add_sub by lia. by rewrite size_t_add_small by lia.
Qed.

Lemma read_write_mesh_ne i j m b : i ≠ j → read_mesh (write_mesh i m b) j = read_mesh b j.
Proof.
  intros Hne. unfold read_mesh, write_mesh, mesh_cells. cbn.
  by rewrite lookup_insert_ne.
Qed.

(** A store to one slot leaves the other slots of the tables alone. *)
Lemma store_mesh_others p i f u w w' :
  store_mesh (p, i) f w = Ok u w' →
  ∀ q j m, (q = p → j ≠ i) → mesh_slot w q j = Some m → mesh_slot w' q j = Some m.
Proof.
  unfold store_mesh. cbn [fst snd]. intros E q j m Hne Em.
  destruct p as [a|]; [|done].
  destruct (block_at w a) as [b|] eqn:Eb; [|done].
  destruct (in_bounds b i sizeof_mesh) eqn:Ei; [|done]. simplify_eq.
  pose proof (block_at_lt _ _ _ Eb) as Hlt.
  apply mesh_slot_inv in Em as (a' & b' & -> & Eb' & Ej & ->).
  unfold mesh_slot, block_at in *. cbn [heap set_heap].
  destruct (decide (a' = a)) as [->|Ha].
  - rewrite list_lookup_insert_eq by done. cbn [mbind option_bind id].
    rewrite Eb in Eb'. injection Eb' as <-.
    rewrite in_bounds_write_mesh, Ej.
    rewrite read_write_mesh_ne; [done|]. intros ->. by apply Hne.
  - rewrite list_lookup_insert_ne by done. by rewrite Eb', Ej.
Qed.

Lemma store_mesh_blocks p i f u w w' :
  store_mesh (p, i) f w = Ok u w' →
  ∀ a', Some a' ≠ p → block_at w' a' = block_at w a'.
Proof.
  unfold store_mesh. cbn [fst snd]. intros E a' Hne.
  repeat case_match; simplify_eq.
  unfold block_at. cbn [heap set_heap].
  rewrite list_lookup_insert_ne; [done | congruence].
Qed.

Lemma new_block_blocks rg n p w w' :
  new_block rg n w = Ok p w' →
  ∀ a', (a' < length (heap w))%nat → block_at w' a' = block_at w a'.
Proof.
  unfold new_block, take_alloc_result. intros E a' Hlt.
  repeat case_match; simplify_eq; unfold block_at;
    cbn [heap set_heap set_alloc_script] in *; try done.
  all: by rewrite lookup_app_l.
Qed.

Lemma memcpy_vertices_blocks dst src n u w w' :
  memcpy_vertices dst src n w = Ok u w' →
  ∀ a', Some a' ≠ dst → block_at w' a' = block_at w a'.
Proof.
  unfold memcpy_vertices. intros E a' Hne.
  repeat case_match; simplify_eq.
  unfold block_at. cbn [heap set_heap].
  rewrite list_lookup_insert_ne; [done | congruence].
Qed.

Lemma request_slot_of_block w w' q k :
  block_at w' q = block_at w q →
  request_slot w' (Some q) k = request_slot w (Some q) k.
Proof. intros E. unfold request_slot. by rewrite E. Qed.

(** What a registration that returns on a table with room has done: the
    count is the handle, the other slots of the table are as they were,
    and so is every other block there was. *)
Lemma register_room_frame
    a r b vertices n_vertices texture_data texture_size material_ w h w' :
  renderers w !! a = Some r →
  meshes r = Some b →
  n_meshes r ≠ capacity_meshes r →
  0 ≤ n_meshes r < SIZE_MAX →
  renderer_register_mesh (Some a) vertices n_vertices texture_data texture_size
                         material_ w = Ok h w' →
  h = n_meshes r ∧
  renderers w' !! a = Some (set_n_meshes (n_meshes r + 1) r) ∧
  (∀ k m, k ≠ h → mesh_slot w (Some b) k = Some m → mesh_slot w' (Some b) k = Some m) ∧
  (∀ a', a' ≠ b → (a' < length (heap w))%nat → block_at w' a' = block_at w a').
Proof.
  intros Hr Hm Hne Hn E. unfold renderer_register_mesh in E.
  apply bind_ok_inv in E as (? & ? & E1 & E). apply PANIC_IF_NULL_inv in E1 as [-> _].
  apply bind_ok_inv in E as (? & ? & E1 & E). apply PANIC_IF_NULL_inv in E1 as [-> _].
  apply bind_ok_inv in E as (? & ? & E1 & E). apply PANIC_IF_NULL_inv in E1 as [-> _].
  apply bind_ok_inv in E as (? & ? & E1 & E). apply PANIC_IF_ZERO_inv in E1 as [-> _].
  apply bind_ok_inv in E as (? & ? & E1 & E). apply PANIC_IF_ZERO_inv in E1 as [-> _].
  apply bind_ok_inv in E as (h0 & w1 & E1 & E).
  rewrite (new_mesh_room _ _ _ _ Hr Hm Hne Hn) in E1. injection E1 as <- <-.
  apply bind_ok_inv in E as (r1 & ? & E1 & E).
  rewrite (deref_renderer_ok _ _ _ (assign_lookup _ _ _ _ Hr)) in E1.
  injection E1 as <- <-.
  cbn [meshes set_n_meshes] in E. rewrite Hm in E.
  set (w1 := set_renderers _ w) in *.
  assert (∀ k m, mesh_slot w (Some b) k = Some m → mesh_slot w1 (Some b) k = Some m)
    as K1 by done.
  assert (renderers w1 !! a = Some (set_n_meshes (n_meshes r + 1) r)) as R1
    by (by apply assign_lookup).
  assert (∀ a', block_at w1 a' = block_at w a') as F1 by done.
  assert (length (heap w1) = length (heap w)) as L1 by done.
  clearbody w1.
  set (i := n_meshes r) in *.
  apply bind_ok_inv in E as (? & w2 & E1 & E).
  pose proof (store_mesh_keeps_renderers _ _ _ _ _ E1) as R2.
  pose proof (store_mesh_others _ _ _ _ _ _ E1) as K2.
  pose proof (store_mesh_blocks _ _ _ _ _ _ E1) as F2.
  apply store_mesh_inv in E1 as (? & m1 & [= <-] & S1 & _ & _ & L2).
  assert (b < length (heap w2))%nat as Hlt.
  { apply mesh_slot_inv in S1 as (? & blk & [= <-] & Eb & _).
    apply block_at_lt in Eb. lia. }
  apply bind_ok_inv in E as (vbo & w3 & E1 & E).
  pose proof (new_block_keeps_renderers _ _ _ _ _ E1) as R3.
  pose proof (new_block_blocks _ _ _ _ _ E1) as F3.
  apply new_block_inv in E1 as [K3 V3].
  apply bind_ok_inv in E as (? & w4 & E1 & E).
  pose proof (store_mesh_keeps_renderers _ _ _ _ _ E1) as R4.
  pose proof (store_mesh_others _ _ _ _ _ _ E1) as K4.
  pose proof (store_mesh_blocks _ _ _ _ _ _ E1) as F4.
  apply store_mesh_inv in E1 as (? & m3 & _ & _ & S4 & _ & _).
  apply bind_ok_inv in E as (dst & ? & E1 & E).
  apply load_mesh_inv in E1 as [-> (m4 & S4' & V4)].
  rewrite S4 in S4'. injection S4' as <-. cbn in V4. injection V4 as <-.
  apply bind_ok_inv in E as (? & w5 & E1 & E).
  pose proof (memcpy_keeps_renderers _ _ _ _ _ _ E1) as R5.
  pose proof (memcpy_vertices_blocks _ _ _ _ _ _ E1) as F5.
  apply memcpy_vertices_inv in E1 as (d & -> & _ & K5).
  specialize (V3 _ eq_refl). subst d.
  apply bind_ok_inv in E as (? & w6 & E1 & E).
  pose proof (store_mesh_keeps_renderers _ _ _ _ _ E1) as R6.
  pose proof (store_mesh_others _ _ _ _ _ _ E1) as K6.
  pose proof (store_mesh_blocks _ _ _ _ _ _ E1) as F6. clear E1.
  apply bind_ok_inv in E as (? & ? & E1 & E). apply load_mesh_inv in E1 as [-> _].
  apply bind_ok_inv in E as (? & ? & E1 & E). apply PANIC_IF_NULL_inv in E1 as [-> _].
  apply bind_ok_inv in E as (? & ? & E1 & E). apply peek_mesh_inv in E1 as ->.
  apply bind_ok_inv in E as (t3x & w7 & E1 & E).
  pose proof (Tex3DS_TextureImport_keeps_renderers _ _ _ _ _ _ E1) as R7.
  assert ((∀ k m, k ≠ i → mesh_slot w6 (Some b) k = Some m →
                  mesh_slot w7 (Some b) k = Some m) ∧
          (∀ a', a' ≠ b → block_at w7 a' = block_at w6 a')) as [K7 F7].
  { apply Tex3DS_TextureImport_inv in E1 as (bytes & -> & _ & Hd).
    destruct (Tex3DS_decode _); destruct Hd as [_ Hd]; [| by subst].
    split.
    - intros k m Hk. by apply (store_mesh_others _ _ _ _ _ _ Hd).
    - intros a' Ha'. apply (store_mesh_blocks _ _ _ _ _ _ Hd). congruence. }
  clear E1.
  apply bind_ok_inv in E as (? & w7' & E1 & E).
  assert (w7' = w7) as -> by (unfold ret, PANIC in E1; destruct t3x; by simplify_eq).
  clear E1.
  apply bind_ok_inv in E as (? & w8 & E1 & E).
  pose proof (C3D_TexSetFilter_keeps_renderers _ _ _ _ _ _ E1) as R8.
  assert ((∀ k m, k ≠ i → mesh_slot w7 (Some b) k = Some m →
                  mesh_slot w8 (Some b) k = Some m) ∧
          (∀ a', a' ≠ b → block_at w8 a' = block_at w7 a')) as [K8 F8].
  { unfold C3D_TexSetFilter in E1.
    apply bind_ok_inv in E1 as (? & ? & E2 & E1). apply load_mesh_inv in E2 as [-> _].
    split.
    - intros k m Hk. by apply (store_mesh_others _ _ _ _ _ _ E1).
    - intros a' Ha'. apply (store_mesh_blocks _ _ _ _ _ _ E1). congruence. }
  clear E1.
  apply bind_ok_inv in E as (? & ? & E1 & E). apply peek_mesh_inv in E1 as ->.
  apply bind_ok_inv in E as (? & w9 & E1 & E).
  pose proof (store_mesh_keeps_renderers _ _ _ _ _ E1) as R9.
  pose proof (store_mesh_others _ _ _ _ _ _ E1) as K9.
  pose proof (store_mesh_blocks _ _ _ _ _ _ E1) as F9. clear E1.
  apply bind_ok_inv in E as (? & ? & E1 & E). apply load_mesh_inv in E1 as [-> _].
  apply bind_ok_inv in E as (? & w10 & E1 & E). rewrite call_ok in E1. simplify_eq.
  apply bind_ok_inv in E as (? & ? & E1 & E). apply load_mesh_inv in E1 as [-> _].
  apply bind_ok_inv in E as (? & ? & E1 & E). apply load_mesh_inv in E1 as [-> _].
  apply bind_ok_inv in E as (? & w11 & E1 & E). rewrite call_ok in E1.
  unfold ret in E. simplify_eq.
  split; [done|]. cbn [renderers set_backend]. split; [congruence|]. split.
  - intros k m Hk Em.
    change (mesh_slot w9 (Some b) k = Some m).
    apply K9; [naive_solver|]. apply K8; [done|]. apply K7; [done|].
    apply K6; [naive_solver|]. apply K5; [lia|].
    apply K4; [naive_solver|]. apply K3. apply K2; [naive_solver|]. by apply K1.
  - intros a' Ha' Hlt'.
    change (block_at w9 a' = block_at w a').
    rewrite F9 by congruence. rewrite F8 by done. rewrite F7 by done.
    rewrite F6 by congruence. rewrite F5 by (intros [= Eq]; lia).
    rewrite F4 by congruence. rewrite F3 by lia. rewrite F2 by congruence.
    apply F1.
Qed.

(** X2: handles are stable while the table has room: a registration that
    returns on a table that is not full returns the count as the new
    handle, keeps the table where it is, and leaves every other slot as
    it was. *)
Lemma register_keeps_other_handles
    a r b vertices n_vertices texture_data texture_size material_ w h w' :
  renderers w !! a = Some r →
  meshes r = Some b →
  n_meshes r ≠ capacity_meshes r →
  0 ≤ n_meshes r < SIZE_MAX →
  renderer_register_mesh (Some a) vertices n_vertices texture_data texture_size
                         material_ w = Ok h w' →
  h = n_meshes r ∧
  renderers w' !! a = Some (set_n_meshes (n_meshes r + 1) r) ∧
  ∀ k m, k ≠ h → mesh_slot w (Some b) k = Some m → mesh_slot w' (Some b) k = Some m.
Proof.
  intros Hr Hm Hne Hn E.
  destruct (register_room_frame _ _ _ _ _ _ _ _ _ _ _ Hr Hm Hne Hn E)
    as (Hh & Hr' & K & _).
  auto.
Qed.


Lemma request_slot_inv w p i rq :
  request_slot w p i = Some rq →
  ∃ a b, p = Some a ∧ block_at w a = Some b ∧
         in_bounds b i sizeof_render_request = true ∧ rq = read_request b i.
Proof.
  unfold request_slot. intros E. repeat case_match; simplify_eq. eauto 10.
Qed.

Lemma read_write_request i rq b : read_request (write_request i rq b) i = rq.
Proof. unfold read_request, write_request, request_cells. cbn. by rewrite lookup_insert_eq. Qed.

Lemma read_write_request_ne i j rq b :
  i ≠ j → read_request (write_request i rq b) j = read_request b j.
Proof.
  intros Hne. unfold read_request, write_request, request_cells. cbn.
  by rewrite lookup_insert_ne.
Qed.

Lemma store_request_ok b i f rq w :
  request_slot w (Some b) i = Some rq →
  ∃ w',
    store_request (Some b, i) f w = Ok tt w' ∧
    renderers w' = renderers w ∧ backend w' = backend w ∧
    request_slot w' (Some b) i = Some (f rq) ∧
    (∀ k rq', k ≠ i → request_slot w (Some b) k = Some rq' →
              request_slot w' (Some b) k = Some rq') ∧
    (∀ q k m, q ≠ Some b → mesh_slot w q k = Some m → mesh_slot w' q k = Some m).
Proof.
  intros Es. apply request_slot_inv in Es as (? & blk & [= <-] & Eb & Ei & ->).
  pose proof (block_at_lt _ _ _ Eb) as Hlt.
  eexists. split.
  { unfold store_request. cbn [fst snd]. by rewrite Eb, Ei. }
  cbn [renderers backend set_heap]. split; [done|]. split; [done|].
  split; [|split].
  - unfold request_slot, block_at. cbn [heap set_heap].
    rewrite list_lookup_insert_eq by done. cbn [mbind option_bind id].
    change (in_bounds (write_request i (f (read_request blk i)) blk) i sizeof_render_request)
      with (in_bounds blk i sizeof_render_request).
    by rewrite Ei, read_write_request.
  - intros k rq' Hk Ek.
    apply request_slot_inv in Ek as (? & blk' & [= <-] & Eb' & Ek & ->).
    rewrite Eb in Eb'. injection Eb' as <-.
    unfold request_slot, block_at. cbn [heap set_heap].
    rewrite list_lookup_insert_eq by done. cbn [mbind option_bind id].
    change (in_bounds (write_request i (f (read_request blk i)) blk) k sizeof_render_request)
      with (in_bounds blk k sizeof_render_request).
    rewrite Ek. by rewrite read_write_request_ne.
  - intros q k m Hq Em.
    apply mesh_slot_inv in Em as (a' & b' & -> & Eb' & Ej & ->).
    unfold mesh_slot, block_at in *. cbn [heap set_heap].
    rewrite list_lookup_insert_ne by congruence. by rewrite Eb', Ej.
Qed.

(** With room left in the queue, a request is appended: it is written at
    index n_requests, the count goes up by one, the requests queued before
    and the mesh table are as they were, and the backend hears nothing.
    The handle is stored as it is given (as a u32), with no check. *)
Lemma renderer_request_appends a r b mesh_id model rq0 w :
  renderers w !! a = Some r →
  requests r = Some b →
  n_requests r ≠ capacity_requests r →
  0 ≤ n_requests r < SIZE_MAX →
  request_slot w (Some b) (n_requests r) = Some rq0 →
  ∃ w',
    renderer_request (Some a) mesh_id (Some model) w = Ok tt w' ∧
    renderers w' !! a = Some (set_n_requests (n_requests r + 1) r) ∧
    request_slot w' (Some b) (n_requests r)
    = Some {| req_mesh_id := Some (u32_of_size_t mesh_id); req_model := Some model |} ∧
    (∀ k rq, k ≠ n_requests r → request_slot w (Some b) k = Some rq →
             request_slot w' (Some b) k = Some rq) ∧
    (∀ q k m, q ≠ Some b → mesh_slot w q k = Some m → mesh_slot w' q k = Some m) ∧
    backend w' = backend w.
Proof.
  intros Hr Hq Hne Hn Es.
  set (w1 := set_renderers (<[a := set_n_requests (n_requests r + 1) r]> (renderers w)) w).
  destruct (store_request_ok b (n_requests r)
              (set_req_mesh_id (Some (u32_of_size_t mesh_id))) rq0 w1 Es)
    as (w2 & E2 & R2 & B2 & S2 & K2 & M2).
  destruct (store_request_ok b (n_requests r) (set_req_model (Some model)) _ w2 S2)
    as (w3 & E3 & R3 & B3 & S3 & K3 & M3).
  exists w3. split.
  { unfold renderer_request.
    erewrite bind_ok by (by apply deref_renderer_ok).
    rewrite Hq. rewrite bool_decide_eq_false_2 by done.
    erewrite bind_ok by reflexivity.
    erewrite bind_ok by (by apply deref_renderer_ok).
    rewrite Hq.
    erewrite bind_ok by (by apply assign_ok).
    cbv beta. rewrite size_t_add_small by lia. fold w1.
    erewrite bind_ok by exact E2.
    erewrite bind_ok by reflexivity. exact E3. }
  split; [rewrite R3, R2; by apply assign_lookup|].
  split; [exact S3|]. split; [|split].
  - intros k rq Hk Ek. apply K3; [done|]. by apply K2.
  - intros q k m Hk Em. apply M3; [done|]. by apply M2.
  - by rewrite B3, B2.
Qed.

Lemma jobs_from_snoc w r count idx :
  jobs_from w r (S count) idx
  = js ← jobs_from w r count idx;
    j ← job_at w r (idx + Z.of_nat count);
    Some (js ++ [j]).
Proof.
  revert idx. induction count as [|c IH]; intros idx.
  - cbn [jobs_from]. rewrite Z.add_0_r. by destruct (job_at w r idx).
  - change (jobs_from w r (S (S c)) idx)
      with (j ← job_at w r idx; js ← jobs_from w r (S c) (idx + 1); Some (j :: js)).
    rewrite IH. cbn [jobs_from].
    replace (idx + 1 + Z.of_nat c) with (idx + Z.of_nat (S c)) by lia.
    destruct (job_at w r idx) as [j|]; [|done]. cbn.
    destruct (jobs_from w r c (idx + 1)) as [js|]; [|done]. cbn.
    by destruct (job_at w r (idx + Z.of_nat (S c))).
Qed.

(** X3: enqueue order is queue order: the jobs of the frame after a request
    are the jobs before it followed by the job of the new request. *)
Lemma renderer_request_enqueues a r b mesh_id model rq0 m mat tex vc js w :
  renderers w !! a = Some r →
  requests r = Some b →
  meshes r ≠ Some b →
  n_requests r ≠ capacity_requests r →
  0 ≤ n_requests r < SIZE_MAX →
  request_slot w (Some b) (n_requests r) = Some rq0 →
  mesh_slot w (meshes r) (u32_of_size_t mesh_id) = Some m →
  mesh_material m = Some mat → mesh_texture m = Some tex →
  mesh_vertex_count m = Some vc →
  frame_jobs w r = Some js →
  ∃ w' r',
    renderer_request (Some a) mesh_id (Some model) w = Ok tt w' ∧
    renderers w' !! a = Some r' ∧
    frame_jobs w' r'
    = Some (js ++ [ {| job_model := model; job_material := mat;
                       job_texture := tex; job_vertex_count := vc |} ]).
Proof.
  intros Hr Hq Hmq Hne Hn Es Em Hmat Htex Hvc Hjs.
  destruct (renderer_request_appends a r b mesh_id model rq0 w Hr Hq Hne Hn Es)
    as (w' & E & Hr' & S' & K & M & _).
  exists w', (set_n_requests (n_requests r + 1) r).
  split; [exact E|]. split; [exact Hr'|].
  set (r' := set_n_requests (n_requests r + 1) r).
  assert (∀ k j, k ≠ n_requests r → job_at w r k = Some j → job_at w' r' k = Some j)
    as Hjob.
  { intros k j Hk Ej. unfold job_at in *. cbn [requests meshes r' set_n_requests].
    rewrite Hq in *.
    destruct (request_slot w (Some b) k) as [rq|] eqn:Ek; [|done].
    rewrite (K _ _ Hk Ek). cbn in *.
    destruct (req_mesh_id rq) as [id|]; [|done]. cbn in *.
    destruct (req_model rq) as [mo|]; [|done]. cbn in *.
    destruct (mesh_slot w (meshes r) id) as [m'|] eqn:Em'; [|done].
    by rewrite (M _ _ _ Hmq Em'). }
  assert (∀ c idx l, idx + Z.of_nat c ≤ n_requests r → 0 ≤ idx →
                     jobs_from w r c idx = Some l → jobs_from w' r' c idx = Some l)
    as Hjobs.
  { induction c as [|c IH]; intros idx l Hle Hidx El; [done|].
    cbn [jobs_from] in *.
    destruct (job_at w r idx) as [j|] eqn:Ej; [|done].
    rewrite (Hjob idx j ltac:(lia) Ej). cbn in *.
    destruct (jobs_from w r c (idx + 1)) as [l'|] eqn:El'; [|done].
    by rewrite (IH (idx + 1) l' ltac:(lia) ltac:(lia) El'). }
  unfold frame_jobs in *. cbn [n_requests r' set_n_requests].
  replace (Z.to_nat (n_requests r + 1)) with (S (Z.to_nat (n_requests r))) by lia.
  rewrite jobs_from_snoc.
  rewrite (Hjobs (Z.to_nat (n_requests r)) 0 js ltac:(lia) ltac:(lia) Hjs). cbn.
  rewrite Z2Nat.id by lia. rewrite Z.add_0_l.
  unfold job_at. cbn [requests meshes r' set_n_requests]. rewrite Hq, S'. cbn.
  rewrite (M _ _ _ Hmq Em). cbn. by rewrite Hmat, Htex, Hvc.
Qed.

(** ** The import failure, forwards *)

Lemma bind_panic {A B} (m : M A) (k : A → M B) w l s w1 :
  m w = Panic l s w1 → bind m k w = Panic l s w1.
Proof. intros E. unfold bind. by rewrite E. Qed.

Lemma store_mesh_ok p i f m w :
  mesh_slot w p i = Some m →
  ∃ w', store_mesh (p, i) f w = Ok tt w' ∧
        mesh_slot w' p i = Some (f m) ∧
        alloc_script w' = alloc_script w ∧
        length (heap w') = length (heap w) ∧
        ∀ a', Some a' ≠ p → block_at w' a' = block_at w a'.
Proof.
  intros Em. apply mesh_slot_inv in Em as (a & b & -> & Eb & Ei & ->).
  eexists. split.
  { unfold store_mesh. cbn [fst snd]. by rewrite Eb, Ei. }
  pose proof (block_at_lt _ _ _ Eb) as Hlt.
  split; [|split; [|split]].
  - unfold mesh_slot, block_at. cbn [heap set_heap].
    rewrite list_lookup_insert_eq by done. cbn [mbind option_bind id].
    by rewrite in_bounds_write_mesh, Ei, read_write_mesh.
  - done.
  - cbn [heap set_heap]. by rewrite length_insert.
  - intros a' Hne. unfold block_at. cbn [heap set_heap].
    rewrite list_lookup_insert_ne; [done | congruence].
Qed.

Lemma linearAlloc_ok n w :
  head (alloc_script w) ≠ Some false →
  ∃ w', linearAlloc n w = Ok (Some (length (heap w))) w' ∧
        (∀ q j m, mesh_slot w q j = Some m → mesh_slot w' q j = Some m) ∧
        block_at w' (length (heap w))
        = Some {| blk_region := LinearHeap; blk_bytes := n; blk_cells := Fresh |}.
Proof.
  intros Hs. destruct (take_alloc_result_ok w Hs) as (w1 & Et & R1 & H1 & B1).
  assert (linearAlloc n w
          = Ok (Some (length (heap w)))
               (set_heap (heap w ++ [Some {| blk_region := LinearHeap; blk_bytes := n;
                                             blk_cells := Fresh |}]) w1)) as E.
  { unfold linearAlloc, new_block. rewrite Et. by rewrite H1. }
  eexists. split; [exact E|]. split.
  - by apply (new_block_inv _ _ _ _ _ E).
  - unfold block_at. cbn [heap set_heap].
    by rewrite (list_lookup_middle _ [] _ _ eq_refl).
Qed.

Lemma memcpy_vertices_ok d blk vs size w :
  block_at w d = Some blk →
  size ≤ blk_bytes blk →
  size ≤ sizeof_vertex * Z.of_nat (length vs) →
  ∃ w', memcpy_vertices (Some d) (Some vs) size w = Ok tt w' ∧
        ∀ a j m, a ≠ d → mesh_slot w (Some a) j = Some m →
                 mesh_slot w' (Some a) j = Some m.
Proof.
  intros Eb H1 H2. eexists. split.
  { unfold memcpy_vertices. rewrite Eb. by rewrite bool_decide_eq_true_2. }
  intros a j m Hne Em. unfold mesh_slot, block_at in *. cbn [heap set_heap].
  by rewrite list_lookup_insert_ne by done.
Qed.

(** X4: with room in the table, memory for the vertices and a texture
    that does not decode, the registration ends in the panic of line 114. *)
Lemma register_import_failure_panics
    a r b vs n_vertices bytes texture_size material_ m0 w :
  renderers w !! a = Some r →
  meshes r = Some b →
  n_meshes r ≠ capacity_meshes r →
  0 ≤ n_meshes r < SIZE_MAX →
  mesh_slot w (Some b) (n_meshes r) = Some m0 →
  n_vertices ≠ 0 →
  texture_size ≠ 0 →
  size_t_mul sizeof_vertex n_vertices ≤ sizeof_vertex * Z.of_nat (length vs) →
  texture_size ≤ Z.of_nat (length bytes) →
  Tex3DS_decode (take (Z.to_nat texture_size) bytes) = None →
  head (alloc_script w) ≠ Some false →
  ∃ w',
    renderer_register_mesh (Some a) (Some vs) n_vertices (Some bytes) texture_size
                           material_ w
    = Panic 114 "importing t3x texture failed!" w'.
Proof.
  intros Hr Hm Hne Hn Es Hnv Hts Hsz Htx Hdec Hs.
  unfold renderer_register_mesh. cbn [PANIC_IF_NULL].
  do 3 (erewrite bind_ok by reflexivity).
  unfold PANIC_IF_ZERO. rewrite !bool_decide_eq_false_2 by done.
  do 2 (erewrite bind_ok by reflexivity).
  erewrite bind_ok by (by eapply new_mesh_room).
  erewrite bind_ok by (by apply deref_renderer_ok, assign_lookup).
  cbn [meshes set_n_meshes]. rewrite Hm.
  set (w1 := set_renderers _ w).
  assert (mesh_slot w1 (Some b) (n_meshes r) = Some m0) as S1 by exact Es.
  assert (head (alloc_script w1) ≠ Some false) as Hs1 by exact Hs.
  clearbody w1.
  destruct (store_mesh_ok _ _ (set_mesh_material (Some material_)) _ _ S1)
    as (w2 & E2 & S2 & A2 & L2 & _).
  erewrite bind_ok by exact E2.
  destruct (linearAlloc_ok (size_t_mul sizeof_vertex n_vertices) w2)
    as (w3 & E3 & K3 & B3); [by rewrite A2|].
  erewrite bind_ok by exact E3.
  assert (b < length (heap w2))%nat as Hlt.
  { apply mesh_slot_inv in S2 as (? & blk & [= <-] & Eb & _).
    by apply block_at_lt in Eb. }
  apply K3 in S2.
  destruct (store_mesh_ok _ _ (set_mesh_vbo_data (Some (Some (length (heap w2))))) _ _ S2)
    as (w4 & E4 & S4 & _ & _ & F4).
  erewrite bind_ok by exact E4.
  erewrite bind_ok by (by eapply load_mesh_ok).
  rewrite <- F4 in B3 by (intros [= Eq]; lia).
  destruct (memcpy_vertices_ok _ _ vs _ w4 B3 (Z.le_refl _) Hsz) as (w5 & E5 & K5).
  erewrite bind_ok by exact E5.
  apply K5 in S4; [|lia].
  destruct (store_mesh_ok _ _ (set_mesh_vertex_count (Some n_vertices)) _ _ S4)
    as (w6 & E6 & S6 & _).
  erewrite bind_ok by exact E6.
  erewrite bind_ok by (by eapply load_mesh_ok).
  cbn [PANIC_IF_NULL]. erewrite bind_ok by reflexivity.
  erewrite bind_ok by (by eapply peek_mesh_ok).
  erewrite bind_ok; cycle 1.
  { unfold Tex3DS_TextureImport. rewrite bool_decide_eq_true_2 by done.
    by rewrite Hdec. }
  eexists. by apply bind_panic.
Qed.

(** ** Initialisation *)

Lemma bind_undefined {A B} (m : M A) (k : A → M B) w s w1 :
  m w = Undefined s w1 → bind m k w = Undefined s w1.
Proof. intros E. unfold bind. by rewrite E. Qed.

Lemma take_alloc_result_fail w :
  head (alloc_script w) = Some false →
  take_alloc_result w = (false, set_alloc_script (tail (alloc_script w)) w).
Proof.
  intros Hs. unfold take_alloc_result.
  destruct (alloc_script w) as [|[] s]; simplify_eq/=. done.
Qed.

(** X5: when its malloc succeeds, renderer_init returns a new renderer
    with the projection matrix and the six uniform locations set, and with
    the six table fields holding what the memory held: they are never
    assigned.  The backend receives the eight set-up calls, in order; the
    renderers that exist and the heap are untouched. *)
Theorem renderer_init_leaves_tables_unset uninit w :
  head (alloc_script w) ≠ Some false →
  ∃ w' r',
    renderer_init uninit w = Ok (Some (length (renderers w))) w' ∧
    renderers w' !! length (renderers w) = Some r' ∧
    projection r' = Mtx_PerspTilt_top ∧
    uLoc_projection r' = shaderInstanceGetUniformLocation "projection" ∧
    uLoc_modelView r' = shaderInstanceGetUniformLocation "modelView" ∧
    uLoc_lightVec r' = shaderInstanceGetUniformLocation "lightVec" ∧
    uLoc_lightHalfVec r' = shaderInstanceGetUniformLocation "lightHalfVec" ∧
    uLoc_lightClr r' = shaderInstanceGetUniformLocation "lightClr" ∧
    uLoc_material r' = shaderInstanceGetUniformLocation "material" ∧
    requests r' = requests uninit ∧
    n_requests r' = n_requests uninit ∧
    capacity_requests r' = capacity_requests uninit ∧
    meshes r' = meshes uninit ∧
    n_meshes r' = n_meshes uninit ∧
    capacity_meshes r' = capacity_meshes uninit ∧
    (∀ a r, renderers w !! a = Some r → renderers w' !! a = Some r) ∧
    heap w' = heap w ∧
    backend w'
    = backend w ++
      [ C3D_BindProgram; AttrInfo_Init;
        AttrInfo_AddLoader 0 GPU_FLOAT 3; AttrInfo_AddLoader 1 GPU_FLOAT 2;
        AttrInfo_AddLoader 2 GPU_FLOAT 3;
        C3D_TexEnvInit 0;
        C3D_TexEnvSrc 0 C3D_Both GPU_TEXTURE0 GPU_PRIMARY_COLOR GPU_PRIMARY_COLOR;
        C3D_TexEnvFunc 0 C3D_Both GPU_MODULATE ].
Proof.
  intros Hs. destruct (take_alloc_result_ok w Hs) as (w1 & Et & R1 & H1 & B1).
  set (a := length (renderers w)).
  assert (malloc_renderer uninit w
          = Ok (Some a) (set_renderers (renderers w ++ [uninit]) w1)) as Em.
  { unfold malloc_renderer. rewrite Et. by rewrite R1. }
  assert (∀ x, (renderers w ++ [x]) !! a = Some x) as Hl.
  { intros x. by rewrite (list_lookup_middle _ [] x a eq_refl). }
  assert (∀ x y, <[a := y]> (renderers w ++ [x]) = renderers w ++ [y]) as Hi.
  { intros x y. unfold a. rewrite insert_app_r_alt by lia.
    by rewrite Nat.sub_diag. }
  eexists _, _. split.
  { unfold renderer_init.
    erewrite bind_ok by exact Em. cbn [PANIC_IF_NULL].
    erewrite bind_ok by reflexivity.
    erewrite bind_ok by (apply assign_ok; cbn [renderers set_renderers]; apply Hl).
    cbn [renderers set_renderers]. rewrite Hi.
    erewrite bind_ok by apply call_ok.
    erewrite bind_ok by (apply assign_ok; cbn [renderers set_renderers set_backend]; apply Hl).
    cbn [renderers set_renderers set_backend]. rewrite Hi.
    do 7 (erewrite bind_ok by apply call_ok).
    unfold ret. reflexivity. }
  cbn [renderers heap backend set_renderers set_backend].
  split; [apply Hl|].
  cbn [projection uLoc_projection uLoc_modelView uLoc_lightVec uLoc_lightHalfVec
       uLoc_lightClr uLoc_material requests n_requests capacity_requests meshes
       n_meshes capacity_meshes set_uLocs set_projection].
  repeat (split; [done|]).
  split; [intros a' r' Ha'; by apply lookup_app_l_Some|].
  split; [done|]. rewrite B1, <- !app_assoc. reflexivity.
Qed.

(** X6: when its malloc fails, renderer_init ends in the panic of line 16
    before anything else: no renderer is created and the backend has
    received nothing. *)
Theorem renderer_init_malloc_failure uninit w :
  head (alloc_script w) = Some false →
  renderer_init uninit w
  = Panic 16 "ret was null!" (set_alloc_script (tail (alloc_script w)) w).
Proof.
  intros Hs. unfold renderer_init, bind, malloc_renderer.
  by rewrite (take_alloc_result_fail _ Hs).
Qed.

(** ** Registration: the checks and the error paths *)

(** X7: the five argument checks of a registration come first, in the
    order this, vertices, texture_data, n_vertices, texture_size; the first
    one that fails ends the call in its own panic, with the state of the
    call. *)
Theorem register_argument_checks_in_order
    this vertices n_vertices texture_data texture_size material_ w :
  (this = NULL →
   renderer_register_mesh this vertices n_vertices texture_data texture_size
                          material_ w
   = Panic 91 "this was null!" w) ∧
  (is_Some this → vertices = None →
   renderer_register_mesh this vertices n_vertices texture_data texture_size
                          material_ w
   = Panic 92 "vertices was null!" w) ∧
  (is_Some this → is_Some vertices → texture_data = None →
   renderer_register_mesh this vertices n_vertices texture_data texture_size
                          material_ w
   = Panic 93 "texture_data was null!" w) ∧
  (is_Some this → is_Some vertices → is_Some texture_data → n_vertices = 0 →
   renderer_register_mesh this vertices n_vertices texture_data texture_size
                          material_ w
   = Panic 94 "n_vertices was zero!" w) ∧
  (is_Some this → is_Some vertices → is_Some texture_data → n_vertices ≠ 0 →
   texture_size = 0 →
   renderer_register_mesh this vertices n_vertices texture_data texture_size
                          material_ w
   = Panic 95 "texture_size was zero!" w).
Proof.
  repeat split.
  - by intros ->.
  - by intros [? ->] ->.
  - by intros [? ->] [? ->] ->.
  - by intros [? ->] [? ->] [? ->] ->.
  - intros [? ->] [? ->] [? ->] Hn ->.
    unfold renderer_register_mesh. cbn [PANIC_IF_NULL].
    do 3 (erewrite bind_ok by reflexivity).
    unfold PANIC_IF_ZERO. rewrite bool_decide_eq_false_2 by done.
    by erewrite bind_ok by reflexivity.
Qed.

(** X8: a registration on a renderer whose table pointer is not NULL and
    is not a block of the heap (as the table pointer of a renderer fresh
    from renderer_init is, unless the memory was zero) neither returns nor
    panics: it runs into undefined behaviour. *)
Theorem register_through_stale_table_pointer
    a r g vs n_vertices bytes texture_size material_ w :
  renderers w !! a = Some r →
  meshes r = Some g →
  block_at w g = None →
  n_vertices ≠ 0 →
  texture_size ≠ 0 →
  ∃ what w',
    renderer_register_mesh (Some a) (Some vs) n_vertices (Some bytes) texture_size
                           material_ w
    = Undefined what w'.
Proof.
  intros Hr Hm Hg Hn Ht.
  unfold renderer_register_mesh. cbn [PANIC_IF_NULL].
  do 3 (erewrite bind_ok by reflexivity).
  unfold PANIC_IF_ZERO. rewrite !bool_decide_eq_false_2 by done.
  do 2 (erewrite bind_ok by reflexivity).
  destruct (decide (n_meshes r = capacity_meshes r)) as [Hfull|Hroom].
  - eexists _, _. apply bind_undefined.
    unfold new_mesh. cbn [PANIC_IF_NULL].
    erewrite bind_ok by reflexivity.
    erewrite bind_ok by (by apply deref_renderer_ok).
    rewrite Hm, bool_decide_eq_true_2 by done.
    do 2 apply bind_undefined. unfold realloc. by rewrite Hg.
  - assert (∃ w1 h, new_mesh (Some a) w = Ok h w1 ∧
                    renderers w1 !! a = Some (set_n_meshes (size_t_add (n_meshes r) 1) r) ∧
                    heap w1 = heap w) as (w1 & h & E1 & R1 & H1).
    { eexists _, _. split; [|split].
      - unfold new_mesh. cbn [PANIC_IF_NULL].
        erewrite bind_ok by reflexivity.
        erewrite bind_ok by (by apply deref_renderer_ok).
        rewrite Hm, bool_decide_eq_false_2 by done.
        erewrite bind_ok by reflexivity.
        erewrite bind_ok by (by apply assign_ok).
        erewrite bind_ok by (by apply deref_renderer_ok, assign_lookup).
        reflexivity.
      - by apply assign_lookup.
      - done. }
    erewrite bind_ok by exact E1.
    erewrite bind_ok by (by apply deref_renderer_ok).
    cbn [meshes set_n_meshes]. rewrite Hm.
    eexists _, _. apply bind_undefined.
    unfold store_mesh, block_at in *. cbn [fst snd]. by rewrite H1, Hg.
Qed.

(** X9: the first registration of a renderer (no table yet) whose malloc
    fails ends in the panic of line 62; the renderer, the heap and the
    backend are as they were. *)
Theorem register_first_malloc_failure
    a r vs n_vertices bytes texture_size material_ w :
  renderers w !! a = Some r →
  meshes r = NULL →
  n_vertices ≠ 0 →
  texture_size ≠ 0 →
  head (alloc_script w) = Some false →
  ∃ w',
    renderer_register_mesh (Some a) (Some vs) n_vertices (Some bytes) texture_size
                           material_ w
    = Panic 62 "failed malloc" w' ∧
    renderers w' = renderers w ∧ heap w' = heap w ∧ backend w' = backend w.
Proof.
  intros Hr Hm Hn Ht Hs.
  eexists. split.
  { unfold renderer_register_mesh. cbn [PANIC_IF_NULL].
    do 3 (erewrite bind_ok by reflexivity).
    unfold PANIC_IF_ZERO. rewrite !bool_decide_eq_false_2 by done.
    do 2 (erewrite bind_ok by reflexivity).
    apply bind_panic. unfold new_mesh. cbn [PANIC_IF_NULL].
    erewrite bind_ok by reflexivity.
    erewrite bind_ok by (by apply deref_renderer_ok).
    rewrite Hm. cbn [NULL]. apply bind_panic.
    erewrite bind_ok
      by (unfold malloc, new_block; by rewrite (take_alloc_result_fail _ Hs)).
    erewrite bind_ok by (by apply assign_ok).
    cbn [NULL]. apply bind_panic. reflexivity. }
  cbn [renderers heap backend set_renderers set_alloc_script].
  split; [|done].
  apply list_insert_id. rewrite Hr. f_equal.
  destruct r. cbn in *. by subst.
Qed.

(** X10: a registration on a full table whose realloc fails ends in the
    panic of line 68, and by then the table pointer has been overwritten
    with NULL: the old block is still allocated, with every mesh in it, but
    the renderer no longer points to it.  Count and capacity are as they
    were. *)
Theorem register_realloc_failure_loses_table
    a r b blk vs n_vertices bytes texture_size material_ w :
  renderers w !! a = Some r →
  meshes r = Some b →
  block_at w b = Some blk →
  blk_region blk = MainHeap →
  n_meshes r = capacity_meshes r →
  n_vertices ≠ 0 →
  texture_size ≠ 0 →
  head (alloc_script w) = Some false →
  ∃ w' r',
    renderer_register_mesh (Some a) (Some vs) n_vertices (Some bytes) texture_size
                           material_ w
    = Panic 68 "failed realloc" w' ∧
    renderers w' !! a = Some r' ∧
    meshes r' = NULL ∧
    n_meshes r' = n_meshes r ∧
    capacity_meshes r' = capacity_meshes r ∧
    heap w' = heap w ∧
    block_at w' b = Some blk.
Proof.
  intros Hr Hm Hb Hreg Hfull Hn Ht Hs.
  eexists _, _. split.
  { unfold renderer_register_mesh. cbn [PANIC_IF_NULL].
    do 3 (erewrite bind_ok by reflexivity).
    unfold PANIC_IF_ZERO. rewrite !bool_decide_eq_false_2 by done.
    do 2 (erewrite bind_ok by reflexivity).
    apply bind_panic. unfold new_mesh. cbn [PANIC_IF_NULL].
    erewrite bind_ok by reflexivity.
    erewrite bind_ok by (by apply deref_renderer_ok).
    rewrite Hm, bool_decide_eq_true_2 by done. apply bind_panic.
    erewrite bind_ok
      by (unfold realloc; rewrite Hb, Hreg; by rewrite (take_alloc_result_fail _ Hs)).
    erewrite bind_ok by (by apply assign_ok).
    cbn [NULL]. apply bind_panic. reflexivity. }
  split; [by apply assign_lookup|].
  cbn [meshes n_meshes capacity_meshes set_meshes heap set_renderers set_alloc_script].
  repeat (split; [done|]). exact Hb.
Qed.

(** X11: with room in the table, a registration whose linearAlloc fails
    runs into the memcpy to the null pointer; the count has been
    incremented by then. *)
Theorem register_linearAlloc_failure
    a r b vs n_vertices bytes texture_size material_ m0 w :
  renderers w !! a = Some r →
  meshes r = Some b →
  n_meshes r ≠ capacity_meshes r →
  0 ≤ n_meshes r < SIZE_MAX →
  mesh_slot w (Some b) (n_meshes r) = Some m0 →
  n_vertices ≠ 0 →
  texture_size ≠ 0 →
  head (alloc_script w) = Some false →
  ∃ w',
    renderer_register_mesh (Some a) (Some vs) n_vertices (Some bytes) texture_size
                           material_ w
    = Undefined "memcpy with a null pointer" w' ∧
    renderers w' !! a = Some (set_n_meshes (n_meshes r + 1) r) ∧
    (mesh_slot w' (Some b) (n_meshes r) ≫= mesh_vbo_data) = Some NULL.
Proof.
  intros Hr Hm Hne Hn Es Hnv Hts Hs.
  unfold renderer_register_mesh. cbn [PANIC_IF_NULL].
  do 3 (erewrite bind_ok by reflexivity).
  unfold PANIC_IF_ZERO. rewrite !bool_decide_eq_false_2 by done.
  do 2 (erewrite bind_ok by reflexivity).
  erewrite bind_ok by (by eapply new_mesh_room).
  erewrite bind_ok by (by apply deref_renderer_ok, assign_lookup).
  cbn [meshes set_n_meshes]. rewrite Hm.
  set (w1 := set_renderers _ w).
  assert (mesh_slot w1 (Some b) (n_meshes r) = Some m0) as S1 by exact Es.
  assert (head (alloc_script w1) = Some false) as Hs1 by exact Hs.
  assert (renderers w1 !! a = Some (set_n_meshes (n_meshes r + 1) r)) as R1
    by (by apply assign_lookup).
  clearbody w1.
  destruct (store_mesh_ok _ _ (set_mesh_material (Some material_)) _ _ S1)
    as (w2 & E2 & S2 & A2 & L2 & _).
  pose proof (store_mesh_keeps_renderers _ _ _ _ _ E2) as R2.
  erewrite bind_ok by exact E2.
  erewrite bind_ok; cycle 1.
  { unfold linearAlloc, new_block. rewrite take_alloc_result_fail by (by rewrite A2).
    reflexivity. }
  set (w3 := set_alloc_script _ w2).
  assert (mesh_slot w3 (Some b) (n_meshes r)
          = Some (set_mesh_material (Some material_) m0)) as S3 by exact S2.
  assert (renderers w3 = renderers w2) as R3 by done.
  clearbody w3.
  destruct (store_mesh_ok _ _ (set_mesh_vbo_data (Some NULL)) _ _ S3)
    as (w4 & E4 & S4 & _).
  pose proof (store_mesh_keeps_renderers _ _ _ _ _ E4) as R4.
  erewrite bind_ok by exact E4.
  erewrite bind_ok by (by eapply load_mesh_ok).
  eexists. split; [by apply bind_undefined|].
  split; [congruence|]. by rewrite S4.
Qed.

(** ** Registration: what a handle resolves to *)

Lemma memcpy_vertices_block d blk vs size w :
  block_at w d = Some blk →
  size ≤ blk_bytes blk →
  size ≤ sizeof_vertex * Z.of_nat (length vs) →
  ∃ w', memcpy_vertices (Some d) (Some vs) size w = Ok tt w' ∧
        block_at w' d
        = Some (set_cells (VertexCells (take (Z.to_nat (size / sizeof_vertex)) vs)) blk) ∧
        ∀ a j m, a ≠ d → mesh_slot w (Some a) j = Some m →
                 mesh_slot w' (Some a) j = Some m.
Proof.
  intros Eb H1 H2. pose proof (block_at_lt _ _ _ Eb) as Hlt.
  eexists. split.
  { unfold memcpy_vertices. rewrite Eb. by rewrite bool_decide_eq_true_2. }
  split.
  - unfold block_at. cbn [heap set_heap]. by rewrite list_lookup_insert_eq.
  - intros a j m Hne Em. unfold mesh_slot, block_at in *. cbn [heap set_heap].
    by rewrite list_lookup_insert_ne by done.
Qed.

(** X12: register, then resolve.  With room in the table, memory for the
    vertices and a texture that decodes, a registration of [n_vertices]
    vertices returns the count as the handle, and the handle resolves to
    the material given, to the decoded texture with the filters set to
    linear and nearest, to the vertex count given, and to a new block of
    linear memory that holds a copy of the first [n_vertices] vertices of
    the caller's array.  The backend receives the two calls that describe
    that block. *)
Theorem register_then_resolve
    a r b vs n_vertices bytes texture_size material_ m0 tex w :
  renderers w !! a = Some r →
  meshes r = Some b →
  n_meshes r ≠ capacity_meshes r →
  0 ≤ n_meshes r < SIZE_MAX →
  mesh_slot w (Some b) (n_meshes r) = Some m0 →
  0 < n_vertices ≤ Z.of_nat (length vs) →
  sizeof_vertex * n_vertices ≤ SIZE_MAX →
  0 < texture_size ≤ Z.of_nat (length bytes) →
  Tex3DS_decode (take (Z.to_nat texture_size) bytes) = Some tex →
  head (alloc_script w) ≠ Some false →
  ∃ w',
    renderer_register_mesh (Some a) (Some vs) n_vertices (Some bytes) texture_size
                           material_ w
    = Ok (n_meshes r) w' ∧
    renderers w' !! a = Some (set_n_meshes (n_meshes r + 1) r) ∧
    mesh_slot w' (Some b) (n_meshes r)
    = Some {| mesh_material := Some material_;
              mesh_vbo_data := Some (Some (length (heap w)));
              mesh_buf_info := Some ctx_bufInfo;
              mesh_texture := Some (set_filters GPU_LINEAR GPU_NEAREST tex);
              mesh_vertex_count := Some n_vertices |} ∧
    block_at w' (length (heap w))
    = Some {| blk_region := LinearHeap;
              blk_bytes := sizeof_vertex * n_vertices;
              blk_cells := VertexCells (take (Z.to_nat n_vertices) vs) |} ∧
    backend w'
    = backend w ++ [ BufInfo_Init ctx_bufInfo;
                     BufInfo_Add ctx_bufInfo (Some (length (heap w)))
                                 sizeof_vertex 3 0x210 ].
Proof.
  intros Hr Hm Hne Hn Es Hnv Hsz Hts Hdec Hs.
  assert (size_t_mul sizeof_vertex n_vertices = sizeof_vertex * n_vertices) as Hmul.
  { unfold size_t_mul, size_t_wrap, SIZE_MAX, sizeof_vertex, sizeof_float in *.
    rewrite Z.mod_small; lia. }
  set (vbo := length (heap w)).
  unfold renderer_register_mesh. cbn [PANIC_IF_NULL].
  do 3 (erewrite bind_ok by reflexivity).
  unfold PANIC_IF_ZERO. rewrite !bool_decide_eq_false_2 by lia.
  do 2 (erewrite bind_ok by reflexivity).
  erewrite bind_ok by (by eapply new_mesh_room).
  erewrite bind_ok by (by apply deref_renderer_ok, assign_lookup).
  cbn [meshes set_n_meshes]. rewrite Hm, Hmul.
  set (w1 := set_renderers _ w).
  assert (mesh_slot w1 (Some b) (n_meshes r) = Some m0) as S1 by exact Es.
  assert (head (alloc_script w1) ≠ Some false) as Hs1 by exact Hs.
  assert (renderers w1 !! a = Some (set_n_meshes (n_meshes r + 1) r)) as R1
    by (by apply assign_lookup).
  assert (backend w1 = backend w) as B1 by done.
  assert (length (heap w1) = vbo) as L1 by done.
  clearbody w1.
  destruct (store_mesh_ok _ _ (set_mesh_material (Some material_)) _ _ S1)
    as (w2 & E2 & S2 & A2 & L2 & _).
  pose proof (store_mesh_keeps_renderers _ _ _ _ _ E2) as R2.
  pose proof (store_mesh_keeps_backend _ _ _ _ _ E2) as B2.
  erewrite bind_ok by exact E2.
  destruct (linearAlloc_ok (sizeof_vertex * n_vertices) w2)
    as (w3 & E3 & K3 & Bk3); [by rewrite A2|].
  pose proof (new_block_keeps_renderers _ _ _ _ _ E3) as R3.
  pose proof (new_block_keeps_backend _ _ _ _ _ E3) as B3.
  rewrite L2, L1 in E3, Bk3.
  erewrite bind_ok by exact E3.
  assert (b < vbo)%nat as Hlt.
  { apply mesh_slot_inv in S2 as (? & blk & [= <-] & Eb & _).
    apply block_at_lt in Eb. lia. }
  apply K3 in S2.
  destruct (store_mesh_ok _ _ (set_mesh_vbo_data (Some (Some vbo))) _ _ S2)
    as (w4 & E4 & S4 & _ & _ & F4).
  pose proof (store_mesh_keeps_renderers _ _ _ _ _ E4) as R4.
  pose proof (store_mesh_keeps_backend _ _ _ _ _ E4) as B4.
  erewrite bind_ok by exact E4.
  erewrite bind_ok by (by eapply load_mesh_ok).
  rewrite <- (F4 vbo) in Bk3 by (intros [= Eq]; lia).
  destruct (memcpy_vertices_block _ _ vs _ w4 Bk3 (Z.le_refl _)) as (w5 & E5 & Bk5 & K5).
  { cbn [blk_bytes]. unfold sizeof_vertex, sizeof_float in *. lia. }
  pose proof (memcpy_keeps_renderers _ _ _ _ _ _ E5) as R5.
  pose proof (memcpy_keeps_backend _ _ _ _ _ _ E5) as B5.
  erewrite bind_ok by exact E5.
  apply K5 in S4; [|lia].
  destruct (store_mesh_ok _ _ (set_mesh_vertex_count (Some n_vertices)) _ _ S4)
    as (w6 & E6 & S6 & _ & _ & F6).
  pose proof (store_mesh_keeps_renderers _ _ _ _ _ E6) as R6.
  pose proof (store_mesh_keeps_backend _ _ _ _ _ E6) as B6.
  erewrite bind_ok by exact E6.
  erewrite bind_ok by (by eapply load_mesh_ok).
  cbn [PANIC_IF_NULL]. erewrite bind_ok by reflexivity.
  erewrite bind_ok by (by eapply peek_mesh_ok).
  destruct (store_mesh_ok _ _ (set_mesh_texture (Some tex)) _ _ S6)
    as (w7 & E7 & S7 & _ & _ & F7).
  pose proof (store_mesh_keeps_renderers _ _ _ _ _ E7) as R7.
  pose proof (store_mesh_keeps_backend _ _ _ _ _ E7) as B7.
  erewrite bind_ok; cycle 1.
  { unfold Tex3DS_TextureImport. rewrite bool_decide_eq_true_2 by lia.
    rewrite Hdec. erewrite bind_ok by exact E7. reflexivity. }
  erewrite bind_ok by reflexivity.
  destruct (store_mesh_ok _ _
              (set_mesh_texture (Some (set_filters GPU_LINEAR GPU_NEAREST tex))) _ _ S7)
    as (w8 & E8 & S8 & _ & _ & F8).
  pose proof (store_mesh_keeps_renderers _ _ _ _ _ E8) as R8.
  pose proof (store_mesh_keeps_backend _ _ _ _ _ E8) as B8.
  erewrite bind_ok; cycle 1.
  { unfold C3D_TexSetFilter. erewrite bind_ok by (by eapply load_mesh_ok). exact E8. }
  erewrite bind_ok by (by eapply peek_mesh_ok).
  destruct (store_mesh_ok _ _ (set_mesh_buf_info (Some ctx_bufInfo)) _ _ S8)
    as (w9 & E9 & S9 & _ & _ & F9).
  pose proof (store_mesh_keeps_renderers _ _ _ _ _ E9) as R9.
  pose proof (store_mesh_keeps_backend _ _ _ _ _ E9) as B9.
  erewrite bind_ok by exact E9.
  erewrite bind_ok by (by eapply load_mesh_ok).
  erewrite bind_ok by apply call_ok.
  erewrite bind_ok by (by eapply load_mesh_ok).
  erewrite bind_ok by (by eapply load_mesh_ok).
  erewrite bind_ok by apply call_ok.
  eexists. split; [reflexivity|].
  cbn [renderers backend set_backend]. split; [congruence|].
  split; [exact S9|]. split.
  - change (block_at w9 vbo = Some {| blk_region := LinearHeap;
              blk_bytes := sizeof_vertex * n_vertices;
              blk_cells := VertexCells (take (Z.to_nat n_vertices) vs) |}).
    rewrite F9, F8, F7, F6 by (intros [= Eq]; lia). rewrite Bk5.
    unfold set_cells. cbn [blk_region blk_bytes]. do 3 f_equal.
    unfold sizeof_vertex, sizeof_float. f_equal.
    rewrite Z.mul_comm, Z.div_mul; lia.
  - rewrite <- app_assoc. cbn. congruence.
Qed.

(** ** The request queue *)

Lemma store_request_bytes at_ f u w w' :
  store_request at_ f w = Ok u w' →
  ∀ a, (blk_bytes <$> block_at w' a) = (blk_bytes <$> block_at w a).
Proof.
  unfold store_request. intros E a'.
  destruct (at_.1) as [b|]; [|done].
  destruct (block_at w b) as [blk|] eqn:Eb; [|done].
  destruct (in_bounds blk at_.2 sizeof_render_request); [|done].
  simplify_eq. pose proof (block_at_lt _ _ _ Eb) as Hlt.
  unfold block_at in *. cbn [heap set_heap].
  destruct (decide (a' = b)) as [->|Hne].
  - rewrite list_lookup_insert_eq by done. by rewrite Eb.
  - by rewrite list_lookup_insert_ne.
Qed.

(** X13: the first request of a renderer (no queue yet) allocates the
    queue with malloc(10 * sizeof(struct mesh)), the size of ten meshes
    and not of ten requests, sets the capacity to 10 and stores the
    request at index n_requests; the mesh table and the backend are left
    alone. *)
Theorem request_first_allocates_queue a r mesh_id model w :
  renderers w !! a = Some r →
  requests r = NULL →
  0 ≤ n_requests r < SIZE_MAX →
  (n_requests r + 1) * sizeof_render_request ≤ size_t_mul 10 sizeof_mesh →
  head (alloc_script w) ≠ Some false →
  ∃ w' r',
    renderer_request (Some a) mesh_id (Some model) w = Ok tt w' ∧
    renderers w' !! a = Some r' ∧
    requests r' = Some (length (heap w)) ∧
    capacity_requests r' = 10 ∧
    n_requests r' = n_requests r + 1 ∧
    meshes r' = meshes r ∧ n_meshes r' = n_meshes r ∧
    capacity_meshes r' = capacity_meshes r ∧
    (blk_bytes <$> block_at w' (length (heap w))) = Some (size_t_mul 10 sizeof_mesh) ∧
    request_slot w' (requests r') (n_requests r)
    = Some {| req_mesh_id := Some (u32_of_size_t mesh_id);
              req_model := Some model |} ∧
    (∀ q k m, mesh_slot w q k = Some m → mesh_slot w' q k = Some m) ∧
    backend w' = backend w.
Proof.
  intros Hr Hq Hn Hfit Hs.
  destruct (take_alloc_result_ok w Hs) as (w0 & Et & R0 & H0 & B0).
  set (qb := length (heap w)).
  set (blk0 := {| blk_region := MainHeap; blk_bytes := size_t_mul 10 sizeof_mesh;
                  blk_cells := Fresh |}).
  set (r1 := set_n_requests (n_requests r + 1)
               (set_capacity_requests 10 (set_requests (Some qb) r))).
  set (w1 := set_renderers (<[a := r1]> (renderers w)) (set_heap (heap w ++ [Some blk0]) w0)).
  assert (malloc (size_t_mul 10 sizeof_mesh) w
          = Ok (Some qb) (set_heap (heap w ++ [Some blk0]) w0)) as Em.
  { unfold malloc, new_block. rewrite Et. by rewrite H0. }
  assert (block_at w1 qb = Some blk0) as Bq.
  { unfold block_at, w1, qb. cbn [heap set_renderers set_heap].
    by rewrite (list_lookup_middle _ [] _ _ eq_refl). }
  assert (request_slot w1 (Some qb) (n_requests r) = Some blank_request) as S1.
  { unfold request_slot. rewrite Bq. unfold in_bounds. cbn [blk_bytes blk0].
    rewrite bool_decide_eq_true_2 by lia. done. }
  destruct (store_request_ok qb (n_requests r)
              (set_req_mesh_id (Some (u32_of_size_t mesh_id))) _ w1 S1)
    as (w2 & E2 & R2 & B2 & S2 & K2 & M2).
  destruct (store_request_ok qb (n_requests r) (set_req_model (Some model)) _ w2 S2)
    as (w3 & E3 & R3 & B3 & S3 & K3 & M3).
  assert (renderers w1 !! a = Some r1) as Hr1.
  { unfold w1. cbn [renderers set_renderers]. apply list_lookup_insert_eq.
    by eapply lookup_lt_Some. }
  exists w3, r1.
  split.
  { unfold renderer_request.
    erewrite bind_ok by (by apply deref_renderer_ok).
    rewrite Hq. cbn [NULL].
    erewrite bind_ok; cycle 1.
    { erewrite bind_ok by exact Em.
      erewrite bind_ok by (apply assign_ok; cbn [renderers set_heap]; by rewrite R0).
      erewrite bind_ok by reflexivity.
      apply assign_ok. by apply assign_lookup; cbn [renderers set_heap]; rewrite R0. }
    erewrite bind_ok by (apply deref_renderer_ok; do 2 apply assign_lookup;
                         cbn [renderers set_heap]; by rewrite R0).
    cbn [requests n_requests set_capacity_requests set_requests].
    erewrite bind_ok by (apply assign_ok; do 2 apply assign_lookup;
                         cbn [renderers set_heap]; by rewrite R0).
    cbv beta. cbn [n_requests set_capacity_requests set_requests].
    rewrite size_t_add_small by lia.
    cbn [renderers set_renderers set_heap]. rewrite R0.
    rewrite !list_insert_insert_eq.
    erewrite bind_ok by exact E2.
    erewrite bind_ok by reflexivity. exact E3. }
  split; [by rewrite R3, R2|].
  cbn [requests capacity_requests n_requests meshes n_meshes capacity_meshes r1
       set_n_requests set_capacity_requests set_requests].
  repeat (split; [done|]).
  split.
  { rewrite (store_request_bytes _ _ _ _ _ E3), (store_request_bytes _ _ _ _ _ E2).
    by rewrite Bq. }
  split; [exact S3|]. split.
  - intros q k m Em'.
    assert (q ≠ Some qb) as Hq'.
    { intros ->. apply mesh_slot_inv in Em' as (? & ? & [= <-] & Eb & _).
      apply block_at_lt in Eb. unfold qb in Eb. lia. }
    apply M3; [done|]. apply M2; [done|].
    apply mesh_slot_inv in Em' as (a' & b' & -> & Eb & Ei & ->).
    pose proof (block_at_lt _ _ _ Eb) as Hlt.
    unfold mesh_slot, block_at, w1 in *. cbn [heap set_renderers set_heap].
    rewrite lookup_app_l by done. by rewrite Eb, Ei.
  - rewrite B3, B2. unfold w1. cbn [backend set_renderers set_heap]. done.
Qed.

(** X14: on a full queue whose block still has room for one more request
    (the block was allocated with the size of ten meshes), a request whose
    realloc fails returns as if nothing had happened: the check of line 145
    tests the queue pointer, which is not the one assigned.  The request is
    written, the capacity is raised, and the mesh table pointer is NULL:
    no handle resolves any more. *)
Theorem request_realloc_failure_goes_unnoticed a r b blk mesh_id model rq0 w :
  renderers w !! a = Some r →
  requests r = Some b →
  block_at w b = Some blk →
  blk_region blk = MainHeap →
  n_requests r = capacity_requests r →
  0 ≤ n_requests r < SIZE_MAX →
  request_slot w (Some b) (n_requests r) = Some rq0 →
  head (alloc_script w) = Some false →
  ∃ w' r',
    renderer_request (Some a) mesh_id (Some model) w = Ok tt w' ∧
    renderers w' !! a = Some r' ∧
    meshes r' = NULL ∧
    requests r' = Some b ∧
    capacity_requests r' = size_t_mul (capacity_requests r) 3 / 2 ∧
    n_requests r' = n_requests r + 1 ∧
    request_slot w' (Some b) (n_requests r)
    = Some {| req_mesh_id := Some (u32_of_size_t mesh_id); req_model := Some model |} ∧
    (∀ k, mesh_slot w' (meshes r') k = None).
Proof.
  intros Hr Hq Hb Hreg Hfull Hn Es Hs.
  set (w0 := set_alloc_script (tail (alloc_script w)) w).
  assert (realloc (Some b) (size_t_mul (capacity_requests r) 3 / 2) w = Ok NULL w0) as Er.
  { unfold realloc. rewrite Hb, Hreg. by rewrite (take_alloc_result_fail _ Hs). }
  set (r1 := set_n_requests (n_requests r + 1)
               (set_capacity_requests (size_t_mul (capacity_requests r) 3 / 2)
                  (set_meshes NULL r))).
  set (w1 := set_renderers (<[a := r1]> (renderers w)) w0).
  assert (request_slot w1 (Some b) (n_requests r) = Some rq0) as S1 by exact Es.
  destruct (store_request_ok b (n_requests r)
              (set_req_mesh_id (Some (u32_of_size_t mesh_id))) _ w1 S1)
    as (w2 & E2 & R2 & B2 & S2 & K2 & M2).
  destruct (store_request_ok b (n_requests r) (set_req_model (Some model)) _ w2 S2)
    as (w3 & E3 & R3 & B3 & S3 & K3 & M3).
  assert (renderers w1 !! a = Some r1) as Hr1.
  { unfold w1. cbn [renderers set_renderers]. apply list_lookup_insert_eq.
    by eapply lookup_lt_Some. }
  exists w3, r1. split.
  { unfold renderer_request.
    erewrite bind_ok by (by apply deref_renderer_ok).
    rewrite Hq. rewrite bool_decide_eq_true_2 by done.
    erewrite bind_ok; cycle 1.
    { erewrite bind_ok by exact Er.
      erewrite bind_ok by (by apply assign_ok).
      erewrite bind_ok by (by apply deref_renderer_ok, assign_lookup).
      cbn [requests set_meshes]. rewrite Hq.
      erewrite bind_ok by reflexivity.
      apply assign_ok. by apply assign_lookup. }
    erewrite bind_ok by (apply deref_renderer_ok; by do 2 apply assign_lookup).
    cbn [requests n_requests set_capacity_requests set_meshes]. rewrite Hq.
    erewrite bind_ok by (apply assign_ok; by do 2 apply assign_lookup).
    cbv beta. cbn [n_requests set_capacity_requests set_meshes].
    rewrite size_t_add_small by lia.
    cbn [renderers set_renderers]. rewrite !list_insert_insert_eq.
    erewrite bind_ok by exact E2.
    erewrite bind_ok by reflexivity. exact E3. }
  split; [by rewrite R3, R2|].
  cbn [requests capacity_requests n_requests meshes r1
       set_n_requests set_capacity_requests set_meshes].
  repeat (split; [done|]). done.
Qed.

(** ** The panics a call can end in *)

(** The case of a disjunction of line-and-message pairs that holds. *)
Ltac pick_case :=
  first [ by split | left; by split | right; pick_case ].

(** A step that panicked: its line and message are among those listed. *)
Ltac panic_here E :=
  repeat (unfold new_mesh, Tex3DS_TextureImport, C3D_TexSetFilter,
            PANIC_IF_NULL, PANIC_IF_ZERO, PANIC, ret, undefined, bind, call, modify,
            deref_renderer, assign, deref_arg, malloc, linearAlloc, new_block,
            take_alloc_result, realloc, load_mesh, peek_mesh, store_mesh,
            load_request, store_request, memcpy_vertices in E;
          cbn beta iota in E);
  repeat (case_match; simplify_eq/=); simplify_eq/=; try done; pick_case.

Ltac panic_step_here E x w1 E1 :=
  apply bind_panic_inv in E as [E | (x & w1 & E1 & E)]; [panic_here E|].

Ltac panic_skip_here E :=
  apply bind_panic_inv in E as [E | (? & ? & _ & E)]; [panic_here E|].

(** X15: a registration that ends in a panic ends in one of these: the
    five argument checks (lines 91 to 95), the two allocations of the
    table (lines 62 and 68), the texture import (line 114), or the check
    of mesh->vbo_data (line 107), the last at most when the copy is of
    zero bytes (n_vertices a multiple of 2^27, so that the size wraps to
    0).  The check of line 107 comes after the memcpy into
    mesh->vbo_data, so with a null vbo_data the copy to the null pointer
    comes first: that is undefined behaviour whatever the size (C11
    7.24.1), and the call is not followed past it here, also where
    compiled code, for a size of 0, copies nothing and goes on to the
    check.  The check of line 58 never fires: it repeats that of line
    91. *)
Theorem register_panics
    this vertices n_vertices texture_data texture_size material_ w line message w' :
  renderer_register_mesh this vertices n_vertices texture_data texture_size
                         material_ w
  = Panic line message w' →
  (line = 91 ∧ message = "this was null!") ∨
  (line = 92 ∧ message = "vertices was null!") ∨
  (line = 93 ∧ message = "texture_data was null!") ∨
  (line = 94 ∧ message = "n_vertices was zero!") ∨
  (line = 95 ∧ message = "texture_size was zero!") ∨
  (line = 62 ∧ message = "failed malloc") ∨
  (line = 68 ∧ message = "failed realloc") ∨
  (line = 114 ∧ message = "importing t3x texture failed!") ∨
  (line = 107 ∧ message = "mesh->vbo_data was null!" ∧
   size_t_mul sizeof_vertex n_vertices = 0).
Proof.
  intros E. unfold renderer_register_mesh in E.
  panic_step_here E u1 w1 E1. apply PANIC_IF_NULL_inv in E1 as [-> [a ->]].
  panic_step_here E u2 w1 E1. apply PANIC_IF_NULL_inv in E1 as [-> _].
  panic_step_here E u3 w1 E1. apply PANIC_IF_NULL_inv in E1 as [-> _].
  panic_step_here E u4 w1 E1. apply PANIC_IF_ZERO_inv in E1 as [-> _].
  panic_step_here E u5 w1 E1. apply PANIC_IF_ZERO_inv in E1 as [-> _].
  panic_step_here E h w1 E1. clear E1.
  panic_step_here E rr w1' E1.
  apply deref_renderer_inv in E1 as [-> _].
  set (i := h) in *.
  panic_step_here E u6 w2 E1.
  apply store_mesh_inv in E1 as (am & m1 & Ep & _ & S2 & _ & L2).
  assert (am < length (heap w2))%nat as Hlt.
  { rewrite Ep in S2. apply mesh_slot_inv in S2 as (? & b & [= <-] & Eb & _).
    by apply block_at_lt in Eb. }
  panic_step_here E vbo w3 E1.
  apply new_block_inv in E1 as [F3 V3]. apply F3 in S2.
  panic_step_here E u7 w4 E1.
  apply store_mesh_inv in E1 as (? & m3 & ? & S3 & S4 & _ & L4). simplify_eq.
  panic_step_here E dst w4' E1.
  apply load_mesh_inv in E1 as [-> (m4 & S4' & V4)]. simplify_eq/=.
  panic_step_here E u8 w5 E1.
  apply memcpy_vertices_inv in E1 as (d & -> & Hd & F5).
  specialize (V3 _ eq_refl). subst d. rewrite Ep in *.
  apply F5 in S4; [|lia].
  panic_step_here E u9 w6 E1.
  apply store_mesh_inv in E1 as (? & m5 & ? & S5 & S6 & _ & L6). simplify_eq.
  panic_step_here E vd w6' E1.
  apply load_mesh_inv in E1 as [-> (m6 & S6' & V6)]. simplify_eq/=.
  apply bind_panic_inv in E as [E | (? & ? & _ & E)]; [done|].
  repeat panic_skip_here E. panic_here E.
Qed.

Lemma new_block_null_inv rg n w w' :
  new_block rg n w = Ok NULL w' → head (alloc_script w) = Some false.
Proof.
  unfold new_block, take_alloc_result. intros E.
  destruct (alloc_script w) as [|[] s]; by simplify_eq/=.
Qed.

(** X16: the one panic a request can end in is that of line 139: the
    first request of a renderer (no queue yet) whose malloc fails.  The
    check of line 145 never fires: it tests this->requests, which the
    growth branch found non-null and did not assign. *)
Theorem request_panics this mesh_id model w line message w' :
  renderer_request this mesh_id model w = Panic line message w' →
  line = 139 ∧ message = "failed malloc" ∧
  ∃ a r, this = Some a ∧ renderers w !! a = Some r ∧ requests r = NULL ∧
         head (alloc_script w) = Some false.
Proof.
  intros E. unfold renderer_request in E.
  panic_step E r w1 E1. apply deref_renderer_inv in E1 as [-> (a & -> & Hr)].
  apply bind_panic_inv in E as [E | (? & ? & _ & E)].
  - destruct (requests r) as [b|] eqn:Hq.
    + case_bool_decide; [|done].
      panic_step E p w2 E1.
      pose proof (realloc_keeps_renderers _ _ _ _ _ E1) as R2.
      panic_step E u w3 E2.
      apply assign_inv in E2 as (? & ra & [= <-] & Hr2 & ->).
      panic_step E rb w4 E3.
      apply deref_renderer_inv in E3 as [-> (? & [= <-] & Hr3)].
      rewrite (assign_lookup _ _ _ _ Hr2) in Hr3. simplify_eq.
      rewrite R2, Hr in Hr2. simplify_eq.
      cbn [requests set_meshes] in E. rewrite Hq in E.
      repeat panic_skip E. by exclude_panic E.
    + panic_step E p w2 E1. apply bind_panic_inv in E as [E | (? & w3 & E2 & E)];
        [by exclude_panic E|].
      apply bind_panic_inv in E as [E | (? & ? & _ & E)]; [|by exclude_panic E].
      destruct p as [p|]; [done|]. unfold PANIC in E. simplify_eq.
      split; [done|]. split; [done|].
      exists a, r. repeat split; try done. by eapply new_block_null_inv.
  - repeat panic_skip E. by exclude_panic E.
Qed.

Lemma render_loop_never_panics rounds this idx w line message w' :
  render_loop rounds this idx w ≠ Panic line message w'.
Proof.
  revert idx w. induction rounds as [|k IH]; intros idx w E; simpl in E.
  - by exclude_panic E.
  - panic_step E r w1 E1. case_bool_decide; [|done].
    apply bind_panic_inv in E as [E | (? & ? & _ & E)]; [|by eapply IH].
    unfold render_one in E. repeat panic_skip E. by exclude_panic E.
Qed.

(** X17: the one panic a frame can end in is that of line 158, for a null
    renderer, with the state as it was: whatever is wrong with the queue
    or the mesh table, rendering does not stop with a message. *)
Theorem render_panics this w line message w' :
  renderer_render this w = Panic line message w' →
  this = NULL ∧ line = 158 ∧ message = "this was null!" ∧ w' = w.
Proof.
  intros E. unfold renderer_render in E.
  apply bind_panic_inv in E as [E | (? & ? & E1 & E)].
  - destruct this; [done|]. unfold PANIC_IF_NULL, PANIC in E. by simplify_eq/=.
  - exfalso. apply PANIC_IF_NULL_inv in E1 as [-> _].
    panic_step E r w1 E1.
    apply bind_panic_inv in E as [E | (? & ? & _ & E)];
      [by eapply render_loop_never_panics | by exclude_panic E].
Qed.

(** ** What a call leaves alone, however it ends *)

Lemma keeps_always_bind {X A B} (proj : world → X) (m : M A) (k : A → M B) :
  keeps_always proj m → (∀ a, keeps_always proj (k a)) → keeps_always proj (bind m k).
Proof.
  intros Hm Hk w. unfold bind. specialize (Hm w).
  destruct (m w) as [a w1|l s w1|s w1]; cbn in *; [by rewrite Hk | done | done].
Qed.

Ltac prim_keeps_always :=
  intros ?;
  repeat (unfold ret, undefined, PANIC, PANIC_IF_NULL, PANIC_IF_ZERO, call, modify,
            deref_renderer, assign, deref_arg, malloc, linearAlloc, new_block,
            take_alloc_result, realloc, load_mesh, peek_mesh, store_mesh,
            load_request, store_request, memcpy_vertices;
          cbn beta iota);
  repeat case_match; simplify_eq/=; done.

Lemma ret_keeps_always {X A} (proj : world → X) (a : A) : keeps_always proj (ret a).
Proof. prim_keeps_always. Qed.

Lemma undefined_keeps_always {X A} (proj : world → X) s :
  keeps_always proj (undefined (A:=A) s).
Proof. prim_keeps_always. Qed.

Lemma PANIC_keeps_always {X A} (proj : world → X) l s : keeps_always proj (PANIC (A:=A) l s).
Proof. prim_keeps_always. Qed.

Lemma PANIC_IF_NULL_keeps_always {X A} (proj : world → X) l s (p : option A) :
  keeps_always proj (PANIC_IF_NULL l s p).
Proof. prim_keeps_always. Qed.

Lemma deref_keeps_always {X} (proj : world → X) this : keeps_always proj (deref_renderer this).
Proof. prim_keeps_always. Qed.

Lemma deref_arg_keeps_always {X A} (proj : world → X) s (p : option A) :
  keeps_always proj (deref_arg s p).
Proof. prim_keeps_always. Qed.

Lemma load_mesh_keeps_always {X A} (proj : world → X) at_ (f : mesh → option A) :
  keeps_always proj (load_mesh at_ f).
Proof. prim_keeps_always. Qed.

Lemma peek_mesh_keeps_always {X} (proj : world → X) at_ : keeps_always proj (peek_mesh at_).
Proof. prim_keeps_always. Qed.

Lemma load_request_keeps_always {X A} (proj : world → X) at_ (f : render_request → option A) :
  keeps_always proj (load_request at_ f).
Proof. prim_keeps_always. Qed.

Lemma assign_always_keeps_backend this f : keeps_always backend (assign this f).
Proof. prim_keeps_always. Qed.

Lemma assign_always_keeps_heap this f : keeps_always heap (assign this f).
Proof. prim_keeps_always. Qed.

Lemma assign_always_keeps_script this f : keeps_always alloc_script (assign this f).
Proof. prim_keeps_always. Qed.

Lemma call_always_keeps_heap c : keeps_always heap (call c).
Proof. prim_keeps_always. Qed.

Lemma call_always_keeps_script c : keeps_always alloc_script (call c).
Proof. prim_keeps_always. Qed.

Lemma new_block_always_keeps_backend rg n : keeps_always backend (new_block rg n).
Proof. prim_keeps_always. Qed.

Lemma realloc_always_keeps_backend p n : keeps_always backend (realloc p n).
Proof. prim_keeps_always. Qed.

Lemma store_request_always_keeps_backend at_ f : keeps_always backend (store_request at_ f).
Proof. prim_keeps_always. Qed.

(** X18: a request never calls the backend, however it ends. *)
Theorem request_never_calls_backend this mesh_id model :
  keeps_always backend (renderer_request this mesh_id model).
Proof.
  unfold renderer_request.
  apply keeps_always_bind; [apply deref_keeps_always | intros r].
  apply keeps_always_bind.
  { destruct (requests r) as [b|]; [case_bool_decide|].
    - apply keeps_always_bind; [apply realloc_always_keeps_backend | intros p].
      apply keeps_always_bind; [apply assign_always_keeps_backend | intros _].
      apply keeps_always_bind; [apply deref_keeps_always | intros r'].
      apply keeps_always_bind; [| intros _; apply assign_always_keeps_backend].
      destruct (requests r'); [apply ret_keeps_always | apply PANIC_keeps_always].
    - apply ret_keeps_always.
    - apply keeps_always_bind; [apply new_block_always_keeps_backend | intros p].
      apply keeps_always_bind; [apply assign_always_keeps_backend | intros _].
      apply keeps_always_bind; [| intros _; apply assign_always_keeps_backend].
      destruct p; [apply ret_keeps_always | apply PANIC_keeps_always]. }
  intros _.
  apply keeps_always_bind; [apply deref_keeps_always | intros r1].
  apply keeps_always_bind; [apply assign_always_keeps_backend | intros _].
  apply keeps_always_bind; [apply store_request_always_keeps_backend | intros _].
  apply keeps_always_bind; [apply deref_arg_keeps_always | intros m].
  apply store_request_always_keeps_backend.
Qed.

Lemma render_one_keeps_always {X} (proj : world → X) this idx :
  (∀ c, keeps_always proj (call c)) → keeps_always proj (render_one this idx).
Proof.
  intros Hcall. unfold render_one.
  repeat first
    [ apply Hcall | apply deref_keeps_always | apply load_mesh_keeps_always
    | apply peek_mesh_keeps_always | apply load_request_keeps_always
    | apply keeps_always_bind; [| intros ?] ].
Qed.

Lemma render_loop_keeps_always {X} (proj : world → X) rounds this idx :
  (∀ c, keeps_always proj (call c)) → keeps_always proj (render_loop rounds this idx).
Proof.
  intros Hcall. revert idx. induction rounds as [|k IH]; intros idx; simpl.
  - apply keeps_always_bind; [apply deref_keeps_always | intros r].
    case_bool_decide; [apply undefined_keeps_always | apply ret_keeps_always].
  - apply keeps_always_bind; [apply deref_keeps_always | intros r].
    case_bool_decide; [| apply ret_keeps_always].
    apply keeps_always_bind; [by apply render_one_keeps_always | intros _; apply IH].
Qed.

Lemma list_insert_alter {A} (f : A → A) (l : list A) i x :
  l !! i = Some x → <[i := f x]> l = alter f i l.
Proof.
  intros Hx. apply list_eq. intros j. rewrite list_lookup_alter.
  case_decide as Hj.
  - subst j. rewrite list_lookup_insert_eq by (by eapply lookup_lt_Some). by rewrite Hx.
  - by rewrite list_lookup_insert_ne.
Qed.

Lemma call_always_keeps_renderers c : keeps_always renderers (call c).
Proof. intros ?. done. Qed.

(** X19: what a frame writes.  However renderer_render ends, the blocks of
    the heap (the queue, the mesh table, the vertex buffers) and the
    allocator are as they were: it allocates, frees and writes none of
    them.  Of the renderer structs it writes one field of one struct, and
    only when it returns: n_requests of its renderer, set to 0 (line
    185). *)
Theorem render_writes_only_n_requests this w :
  heap (world_of (renderer_render this w)) = heap w ∧
  alloc_script (world_of (renderer_render this w)) = alloc_script w ∧
  renderers (world_of (renderer_render this w))
  = match renderer_render this w, this with
    | Ok _ _, Some a => alter (set_n_requests 0) a (renderers w)
    | _, _ => renderers w
    end.
Proof.
  split; [|split].
  - revert w. change (keeps_always heap (renderer_render this)).
    unfold renderer_render.
    apply keeps_always_bind; [apply PANIC_IF_NULL_keeps_always | intros _].
    apply keeps_always_bind; [apply deref_keeps_always | intros r].
    apply keeps_always_bind; [| intros _; apply assign_always_keeps_heap].
    apply render_loop_keeps_always, call_always_keeps_heap.
  - revert w. change (keeps_always alloc_script (renderer_render this)).
    unfold renderer_render.
    apply keeps_always_bind; [apply PANIC_IF_NULL_keeps_always | intros _].
    apply keeps_always_bind; [apply deref_keeps_always | intros r].
    apply keeps_always_bind; [| intros _; apply assign_always_keeps_script].
    apply render_loop_keeps_always, call_always_keeps_script.
  - destruct this as [a|]; [|reflexivity].
    remember (renderer_render (Some a) w) as o eqn:Eo. symmetry in Eo.
    unfold renderer_render in Eo. cbn [PANIC_IF_NULL] in Eo.
    erewrite bind_ok in Eo by reflexivity.
    unfold bind, deref_renderer in Eo.
    destruct (renderers w !! a) as [r|] eqn:Hr; [|by subst o].
    pose proof (render_loop_keeps_always renderers (Z.to_nat (n_requests r)) (Some a) 0
                  call_always_keeps_renderers w) as K.
    destruct (render_loop (Z.to_nat (n_requests r)) (Some a) 0 w) as [[] w1|l s w1|s w1];
      cbn [world_of] in K; [|by subst o|by subst o].
    unfold assign in Eo. rewrite K, Hr in Eo. subst o.
    cbn [world_of renderers set_renderers]. by apply list_insert_alter.
Qed.

(** ** Frames *)

Lemma render_one_undefined a r w idx :
  renderers w !! a = Some r →
  job_at w r idx = None →
  ∃ what calls,
    render_one (Some a) idx w = Undefined what (set_backend (backend w ++ calls) w).
Proof.
  intros Hr Hj. unfold job_at in Hj. unfold render_one.
  erewrite bind_ok by (by apply deref_renderer_ok).
  destruct (request_slot w (requests r) idx) as [rq|] eqn:Erq; simpl in Hj; cycle 1.
  { exists "request access outside a live block", [].
    apply bind_undefined. unfold load_request. cbn [fst snd]. rewrite Erq.
    rewrite app_nil_r. by destruct w. }
  destruct (req_mesh_id rq) as [id|] eqn:Eid; simpl in Hj; cycle 1.
  { exists "indeterminate request field used", [].
    apply bind_undefined. unfold load_request. cbn [fst snd]. rewrite Erq, Eid.
    rewrite app_nil_r. by destruct w. }
  erewrite bind_ok by (by eapply load_request_ok).
  destruct (mesh_slot w (meshes r) id) as [m|] eqn:Em; cycle 1.
  { exists "mesh access outside a live block", [].
    apply bind_undefined. unfold peek_mesh. cbn [fst snd]. rewrite Em.
    rewrite app_nil_r. by destruct w. }
  erewrite bind_ok by (by eapply peek_mesh_ok).
  erewrite bind_ok by apply call_ok.
  destruct (req_model rq) as [model|] eqn:Emodel; simpl in Hj; cycle 1.
  { eexists "indeterminate request field used", [_].
    apply bind_undefined. unfold load_request. cbn [fst snd].
    change (request_slot (set_backend ?b w) ?p ?i) with (request_slot w p i).
    by rewrite Erq, Emodel. }
  erewrite bind_ok by (eapply load_request_ok; [exact Erq | exact Emodel]).
  erewrite bind_ok by apply call_ok.
  destruct (mesh_material m) as [mat|] eqn:Emat; simpl in Hj; cycle 1.
  { eexists "indeterminate mesh field used", [_; _].
    apply bind_undefined. unfold load_mesh. cbn [fst snd].
    change (mesh_slot (set_backend ?b ?w0) ?p ?i) with (mesh_slot w0 p i).
    change (mesh_slot (set_backend ?b ?w0) ?p ?i) with (mesh_slot w0 p i).
    rewrite Em, Emat. cbn [backend set_backend]. by rewrite <- !app_assoc. }
  erewrite bind_ok by (eapply load_mesh_ok; [exact Em | exact Emat]).
  do 4 (erewrite bind_ok by apply call_ok).
  destruct (mesh_texture m) as [tex|] eqn:Etex; simpl in Hj; cycle 1.
  { eexists "indeterminate mesh field used", [_; _; _; _; _; _].
    apply bind_undefined. unfold load_mesh. cbn [fst snd].
    repeat change (mesh_slot (set_backend ?b ?w0) ?p ?i) with (mesh_slot w0 p i).
    rewrite Em, Etex. cbn [backend set_backend]. by rewrite <- !app_assoc. }
  erewrite bind_ok by (eapply load_mesh_ok; [exact Em | exact Etex]).
  erewrite bind_ok by apply call_ok.
  destruct (mesh_vertex_count m) as [vc|] eqn:Evc; simpl in Hj; [done|].
  eexists "indeterminate mesh field used", [_; _; _; _; _; _; _].
  apply bind_undefined. unfold load_mesh. cbn [fst snd].
  repeat change (mesh_slot (set_backend ?b ?w0) ?p ?i) with (mesh_slot w0 p i).
  rewrite Em, Evc. cbn [backend set_backend]. by rewrite <- !app_assoc.
Qed.

Lemma render_loop_undefined a r w rounds idx :
  renderers w !! a = Some r →
  0 ≤ idx →
  n_requests r ≤ SIZE_MAX →
  Z.of_nat rounds = n_requests r - idx →
  jobs_from w r rounds idx = None →
  ∃ what calls,
    render_loop rounds (Some a) idx w
    = Undefined what (set_backend (backend w ++ calls) w).
Proof.
  revert idx w. induction rounds as [|k IH]; intros idx w Hr Hidx Hmax Hk Hjs; [done|].
  simpl in Hjs. simpl.
  erewrite bind_ok by (by apply deref_renderer_ok).
  rewrite bool_decide_eq_true_2 by lia.
  destruct (job_at w r idx) as [j|] eqn:Ej; simpl in Hjs.
  - destruct (jobs_from w r k (idx + 1)) as [js'|] eqn:Ejs; simpl in Hjs; [done|].
    erewrite bind_ok by (by eapply render_one_ok).
    assert (size_t_add idx 1 = idx + 1) as ->.
    { unfold size_t_add, size_t_wrap, SIZE_MAX in *. rewrite Z.mod_small; lia. }
    destruct (IH (idx + 1) (set_backend (backend w ++ job_calls r j) w))
      as (what & calls & E); [done | lia | done | lia | by rewrite jobs_from_set_backend |].
    exists what, (job_calls r j ++ calls). rewrite E.
    cbn [set_backend backend renderers heap alloc_script]. by rewrite <- app_assoc.
  - destruct (render_one_undefined _ _ _ _ Hr Ej) as (what & calls & E).
    exists what, calls. by apply bind_undefined.
Qed.

Lemma renderer_render_undefined a r w :
  renderers w !! a = Some r →
  n_requests r ≤ SIZE_MAX →
  frame_jobs w r = None →
  ∃ what calls,
    renderer_render (Some a) w
    = Undefined what (set_backend (backend w ++ calls) w).
Proof.
  intros Hr Hmax Hjs. unfold renderer_render, frame_jobs in *.
  cbn [PANIC_IF_NULL]. erewrite bind_ok by reflexivity.
  erewrite bind_ok by (by apply deref_renderer_ok).
  destruct (decide (0 ≤ n_requests r)) as [Hn|Hn].
  - destruct (render_loop_undefined a r w (Z.to_nat (n_requests r)) 0)
      as (what & calls & E); [done | lia | done | lia | done |].
    exists what, calls. by apply bind_undefined.
  - replace (Z.to_nat (n_requests r)) with 0%nat in * by lia. done.
Qed.

Lemma out_of_reach_set_backend b w r idx :
  out_of_reach (set_backend b w) r idx ↔ out_of_reach w r idx.
Proof. done. Qed.

Lemma render_one_out_of_reach a r w idx :
  renderers w !! a = Some r →
  out_of_reach w r idx →
  ∃ what, render_one (Some a) idx w = Undefined what w.
Proof.
  intros Hr [Erq | (rq & id & Erq & Eid & Em)]; unfold render_one;
    erewrite bind_ok by (by apply deref_renderer_ok).
  - eexists. apply bind_undefined. unfold load_request. cbn [fst snd]. by rewrite Erq.
  - erewrite bind_ok by (by eapply load_request_ok).
    eexists. apply bind_undefined. unfold peek_mesh. cbn [fst snd]. by rewrite Em.
Qed.

Lemma render_loop_out_of_reach a r (n : nat) w rounds idx js :
  renderers w !! a = Some r →
  0 ≤ idx →
  n_requests r ≤ SIZE_MAX →
  idx + Z.of_nat n < n_requests r →
  Z.of_nat rounds = n_requests r - idx →
  jobs_from w r n idx = Some js →
  out_of_reach w r (idx + Z.of_nat n) →
  ∃ what,
    render_loop rounds (Some a) idx w
    = Undefined what (set_backend (backend w ++ flat_map (job_calls r) js) w).
Proof.
  revert idx w rounds js.
  induction n as [|n IH]; intros idx w rounds js Hr Hidx Hmax Hlt Hk Hjs Hout.
  - simpl in Hjs. injection Hjs as <-. rewrite Z.add_0_r in Hout.
    destruct rounds as [|k]; [lia|]. simpl.
    erewrite bind_ok by (by apply deref_renderer_ok).
    rewrite bool_decide_eq_true_2 by lia.
    destruct (render_one_out_of_reach _ _ _ _ Hr Hout) as (what & E).
    exists what. rewrite app_nil_r.
    replace (set_backend (backend w) w) with w by (by destruct w).
    by apply bind_undefined.
  - simpl in Hjs.
    destruct (job_at w r idx) as [j|] eqn:Ej; simpl in Hjs; [|done].
    destruct (jobs_from w r n (idx + 1)) as [js'|] eqn:Ejs; simpl in Hjs; [|done].
    injection Hjs as <-.
    destruct rounds as [|k]; [lia|]. simpl.
    erewrite bind_ok by (by apply deref_renderer_ok).
    rewrite bool_decide_eq_true_2 by lia.
    erewrite bind_ok by (by eapply render_one_ok).
    assert (size_t_add idx 1 = idx + 1) as ->.
    { unfold size_t_add, size_t_wrap, SIZE_MAX in *. rewrite Z.mod_small; lia. }
    destruct (IH (idx + 1) (set_backend (backend w ++ job_calls r j) w) k js')
      as (what & E); [done | lia | done | lia | lia
                      | by rewrite jobs_from_set_backend
                      | apply out_of_reach_set_backend;
                        by replace (idx + 1 + Z.of_nat n) with (idx + Z.of_nat (S n)) by lia |].
    exists what. rewrite E.
    cbn [set_backend backend renderers heap alloc_script]. by rewrite <- app_assoc.
Qed.

(** X20: what a frame does with its queue.  When every queued request and
    the mesh it names can be read, the call returns, having sent the calls
    of the requests in queue order and set the count to 0.  When the first
    n requests can be read and the next one is out of reach (its slot lies
    outside the queue's block, or its handle designates a slot outside the
    block of the mesh table, or either block has been freed), the call
    sends the calls of those n requests and then makes an access outside
    every live block, which is undefined behaviour; at that point the
    count has not been reset. *)
Theorem render_outcome a r w :
  renderers w !! a = Some r →
  n_requests r ≤ SIZE_MAX →
  (∀ js, frame_jobs w r = Some js →
     renderer_render (Some a) w
     = Ok tt (set_renderers (<[a := set_n_requests 0 r]> (renderers w))
                (set_backend (backend w ++ flat_map (job_calls r) js) w))) ∧
  (∀ (n : nat) js,
     Z.of_nat n < n_requests r →
     jobs_from w r n 0 = Some js →
     out_of_reach w r (Z.of_nat n) →
     ∃ what,
       renderer_render (Some a) w
       = Undefined what (set_backend (backend w ++ flat_map (job_calls r) js) w)).
Proof.
  intros Hr Hmax. split.
  - intros js Hjs. by apply renderer_render_ok.
  - intros n js Hn Hjs Hout.
    unfold renderer_render. cbn [PANIC_IF_NULL].
    erewrite bind_ok by reflexivity.
    erewrite bind_ok by (by apply deref_renderer_ok).
    destruct (render_loop_out_of_reach a r n w (Z.to_nat (n_requests r)) 0 js)
      as (what & E); [done | lia | done | lia | lia | done | done |].
    exists what. by apply bind_undefined.
Qed.

(** X21: rendering twice draws once: after a call that returns, a second
    call returns at once, with no call to the backend and the state
    unchanged. *)
Theorem render_twice_draws_once a r w w' :
  renderers w !! a = Some r →
  n_requests r ≤ SIZE_MAX →
  renderer_render (Some a) w = Ok tt w' →
  renderer_render (Some a) w' = Ok tt w'.
Proof.
  intros Hr Hmax E.
  destruct (frame_jobs w r) as [js|] eqn:Ejs; cycle 1.
  { destruct (renderer_render_undefined _ _ _ Hr Hmax Ejs) as (? & ? & E').
    rewrite E' in E. discriminate E. }
  rewrite (renderer_render_ok _ _ _ _ Hr Hmax Ejs) in E. injection E as <-.
  erewrite (renderer_render_ok a (set_n_requests 0 r) _ []);
    [| cbn [renderers set_renderers]; apply list_lookup_insert_eq;
       by eapply lookup_lt_Some
     | cbn; unfold SIZE_MAX; lia | done].
  cbn [flat_map renderers backend set_renderers set_backend heap alloc_script].
  rewrite app_nil_r, list_insert_insert_eq. reflexivity.
Qed.

(** X22: a frame starts afresh.  After a frame has been rendered, a
    request goes to the start of the queue, and the next frame draws that
    request and nothing else: the requests of the frame before are not
    drawn again. *)
Theorem next_frame_draws_new_requests_only
    a r b mesh_id model rq0 m mat tex vc w w1 :
  renderers w !! a = Some r →
  n_requests r ≤ SIZE_MAX →
  requests r = Some b →
  meshes r ≠ Some b →
  capacity_requests r ≠ 0 →
  request_slot w (Some b) 0 = Some rq0 →
  mesh_slot w (meshes r) (u32_of_size_t mesh_id) = Some m →
  mesh_material m = Some mat → mesh_texture m = Some tex →
  mesh_vertex_count m = Some vc →
  renderer_render (Some a) w = Ok tt w1 →
  ∃ w2 w3,
    renderer_request (Some a) mesh_id (Some model) w1 = Ok tt w2 ∧
    renderer_render (Some a) w2 = Ok tt w3 ∧
    backend w3
    = backend w1 ++ job_calls r {| job_model := model; job_material := mat;
                                   job_texture := tex; job_vertex_count := vc |}.
Proof.
  intros Hr Hmax Hq Hmq Hcap Es Em Hmat Htex Hvc E.
  destruct (frame_jobs w r) as [js|] eqn:Ejs; cycle 1.
  { destruct (renderer_render_undefined _ _ _ Hr Hmax Ejs) as (? & ? & E').
    rewrite E' in E. discriminate E. }
  rewrite (renderer_render_ok _ _ _ _ Hr Hmax Ejs) in E. injection E as <-.
  set (w1 := set_renderers _ _).
  set (r1 := set_n_requests 0 r).
  assert (renderers w1 !! a = Some r1) as Hr1.
  { unfold w1. cbn [renderers set_renderers]. apply list_lookup_insert_eq.
    by eapply lookup_lt_Some. }
  assert (request_slot w1 (Some b) (n_requests r1) = Some rq0) as Es1 by exact Es.
  assert (mesh_slot w1 (meshes r) (u32_of_size_t mesh_id) = Some m) as Em1 by exact Em.
  clearbody w1.
  destruct (renderer_request_appends a r1 b mesh_id model rq0 w1 Hr1 Hq)
    as (w2 & E2 & Hr2 & S2 & _ & M2 & B2);
    [done | cbn; unfold SIZE_MAX; lia | exact Es1 |].
  cbn [n_requests r1 set_n_requests] in Hr2, S2. rewrite Z.add_0_l in Hr2.
  set (r2 := set_n_requests 1 (set_n_requests 0 r)) in *.
  assert (frame_jobs w2 r2
          = Some [ {| job_model := model; job_material := mat;
                      job_texture := tex; job_vertex_count := vc |} ]) as Hjobs.
  { unfold frame_jobs. cbn [n_requests r2 set_n_requests jobs_from].
    change (Z.to_nat 1) with 1%nat. cbn [jobs_from].
    unfold job_at. cbn [requests meshes r2 set_n_requests]. rewrite Hq, S2. cbn.
    rewrite (M2 _ _ _ Hmq Em1). cbn. by rewrite Hmat, Htex, Hvc. }
  assert (n_requests r2 ≤ SIZE_MAX) as Hmax2 by (cbn; unfold SIZE_MAX; lia).
  exists w2. eexists. split; [exact E2|].
  split; [exact (renderer_render_ok a r2 w2 _ Hr2 Hmax2 Hjobs)|].
  cbn [backend set_renderers set_backend flat_map]. rewrite B2, app_nil_r. reflexivity.
Qed.

(** ** Registering in the middle of a frame *)

Lemma jobs_from_preserved w w' r r' c idx l :
  (∀ k j, idx ≤ k < idx + Z.of_nat c → job_at w r k = Some j → job_at w' r' k = Some j) →
  jobs_from w r c idx = Some l → jobs_from w' r' c idx = Some l.
Proof.
  revert idx l. induction c as [|c IH]; intros idx l Hjob El; [done|].
  cbn [jobs_from] in *.
  destruct (job_at w r idx) as [j|] eqn:Ej; [|done].
  rewrite (Hjob idx j ltac:(lia) Ej). cbn in *.
  destruct (jobs_from w r c (idx + 1)) as [l'|] eqn:El'; [|done].
  rewrite (IH (idx + 1) l'); [done | | done].
  intros k j' Hk. apply Hjob. lia.
Qed.

(** X23: registering a mesh in the middle of a frame leaves the queue
    alone.  On a table with room, and with no queued request naming the
    handle about to be issued, a registration that returns leaves the
    frame's jobs (model matrix, material, texture and vertex count of each
    request, in order) as they were. *)
Theorem register_keeps_queued_jobs
    a r b q vertices n_vertices texture_data texture_size material_ js w h w' :
  renderers w !! a = Some r →
  meshes r = Some b →
  requests r = Some q →
  q ≠ b →
  n_meshes r ≠ capacity_meshes r →
  0 ≤ n_meshes r < SIZE_MAX →
  (∀ k rq, 0 ≤ k < n_requests r → request_slot w (Some q) k = Some rq →
           req_mesh_id rq ≠ Some (n_meshes r)) →
  frame_jobs w r = Some js →
  renderer_register_mesh (Some a) vertices n_vertices texture_data texture_size
                         material_ w = Ok h w' →
  ∃ r', renderers w' !! a = Some r' ∧ frame_jobs w' r' = Some js.
Proof.
  intros Hr Hm Hq Hqb Hne Hn Hids Hjs E.
  destruct (register_room_frame _ _ _ _ _ _ _ _ _ _ _ Hr Hm Hne Hn E)
    as (-> & Hr' & K & F).
  eexists. split; [exact Hr'|].
  unfold frame_jobs in *. cbn [n_requests set_n_meshes].
  eapply jobs_from_preserved; [|exact Hjs].
  intros k j Hk Ej. unfold job_at in *. cbn [requests meshes set_n_meshes].
  rewrite Hq in *.
  destruct (request_slot w (Some q) k) as [rq|] eqn:Ek; [|done].
  assert (request_slot w' (Some q) k = Some rq) as ->.
  { rewrite <- Ek. apply request_slot_of_block.
    apply request_slot_inv in Ek as (? & blk & [= <-] & Eb & _).
    apply F; [done|]. by eapply block_at_lt. }
  cbn [mbind option_bind] in Ej |- *.
  destruct (req_mesh_id rq) as [id|] eqn:Eid; [|done].
  cbn [mbind option_bind] in Ej |- *.
  destruct (req_model rq) as [mo|]; [|done].
  cbn [mbind option_bind] in Ej |- *.
  destruct (mesh_slot w (meshes r) id) as [m|] eqn:Em; [|done].
  rewrite Hm in *. rewrite (K id m); [done | | done].
  intros ->. eapply (Hids k rq); [lia | done | done].
Qed.

End Properties.

(** * The sample runs *)

(** C2 (evaluated): on a renderer whose memory was zero-filled, the first
    ten registrations return the handles 0 .. 9, and after each of them
    every handle issued so far resolves to its own mesh; the eleventh,
    which makes the table grow, does not return: it ends in an access
    outside the block realloc returned, with the count at 11, the
    capacity at 15, and none of the ten handles resolving any more. *)
Theorem C2_eleventh_registration_breaks_handles :
  (renderer_init (H := sample_platform) zero_filled ;; register_samples 10 0) boot
  = Ok [0; 1; 2; 3; 4; 5; 6; 7; 8; 9] (sample_world 10 []) ∧
  Forall (λ n, take n (resolved_textures (sample_world n []))
               = map Some (seqZ 1 (Z.of_nat n)))
         (seq 0 11) ∧
  ∃ w',
    register_sample 10 (sample_world 10 [])
    = Undefined "mesh access outside a live block" w' ∧
    (n_meshes <$> renderers w' !! 0%nat) = Some 11 ∧
    (capacity_meshes <$> renderers w' !! 0%nat) = Some 15 ∧
    resolved_textures w' = replicate 10 None.
Proof.
  split; [vm_compute; reflexivity|]. split.
  - repeat (constructor; [vm_compute; reflexivity|]). constructor.
  - eexists. split; [vm_compute; reflexivity|].
    repeat split; vm_compute; reflexivity.
Qed.

(** One registered triangle with the default material, enqueued once with
    the identity matrix: the frame sends these eight calls. *)
Lemma C1_render_call_sequence_witness :
  renderers (sample_world 1 [0]) !! 0%nat = Some (sample_renderer 1 [0]) ∧
  n_requests (sample_renderer 1 [0]) ≤ SIZE_MAX ∧
  frame_jobs (H := sample_platform) (sample_world 1 [0]) (sample_renderer 1 [0])
  = Some (sample_jobs 1 [0]) ∧
  ∃ w',
    renderer_render (H := sample_platform) the_renderer (sample_world 1 [0]) = Ok tt w' ∧
    backend w'
    = backend (sample_world 1 [0]) ++
      [ C3D_FVUnifMtx4x4 GPU_VERTEX_SHADER 0 sample_projection;
        C3D_FVUnifMtx4x4 GPU_VERTEX_SHADER 4 identity_Mtx;
        C3D_FVUnifMtx4x4 GPU_VERTEX_SHADER 11
          {| r0 := {| fv_x := f_0_2; fv_y := f_0_2; fv_z := f_0_2; fv_w := f_0_0 |};
             r1 := {| fv_x := f_0_2; fv_y := f_0_2; fv_z := f_0_2; fv_w := f_0_0 |};
             r2 := {| fv_x := f_0_2; fv_y := f_0_2; fv_z := f_0_2; fv_w := f_0_0 |};
             r3 := {| fv_x := f_0_2; fv_y := f_0_2; fv_z := f_0_2; fv_w := f_0_0 |} |};
        C3D_FVUnifSet GPU_VERTEX_SHADER 8 f_0_0 f_0_0 f_neg_1_0 f_0_0;
        C3D_FVUnifSet GPU_VERTEX_SHADER 9 f_0_0 f_0_0 f_neg_1_0 f_0_0;
        C3D_FVUnifSet GPU_VERTEX_SHADER 10 f_1_0 f_1_0 f_1_0 f_1_0;
        C3D_TexBind 0 {| tex_data := 1; tex_width := 1; tex_height := 1;
                         tex_mag_filter := GPU_LINEAR; tex_min_filter := GPU_NEAREST |};
        C3D_DrawArrays GPU_TRIANGLES 0 3 ].
Proof.
  set (W := sample_world 1 [0]). set (R := sample_renderer 1 [0]).
  assert (renderers W !! 0%nat = Some R) as H1 by (vm_compute; reflexivity).
  assert (n_requests R ≤ SIZE_MAX) as H2 by (vm_compute; intros [=]).
  assert (frame_jobs (H := sample_platform) W R = Some (sample_jobs 1 [0]))
    as H3 by (vm_compute; reflexivity).
  assert (length (sample_jobs 1 [0]) = 1%nat) as Hlen by (vm_compute; reflexivity).
  assert (request_slot W (requests R) (Z.of_nat 0)
          = Some {| req_mesh_id := Some 0; req_model := Some identity_Mtx |})
    as Hrq by (vm_compute; reflexivity).
  assert (mesh_slot (H := sample_platform) W (meshes R) 0 = Some (sample_mesh 1 [0] 0))
    as Hm by (vm_compute; reflexivity).
  assert (mesh_material (sample_mesh 1 [0] 0) = Some default_material)
    as Hmat by (vm_compute; reflexivity).
  assert (mesh_texture (sample_mesh 1 [0] 0)
          = Some {| tex_data := 1; tex_width := 1; tex_height := 1;
                    tex_mag_filter := GPU_LINEAR; tex_min_filter := GPU_NEAREST |})
    as Htex by (vm_compute; reflexivity).
  assert (mesh_vertex_count (sample_mesh 1 [0] 0) = Some 3)
    as Hvc by (vm_compute; reflexivity).
  assert (projection R = sample_projection) as Hp by (vm_compute; reflexivity).
  assert (uLoc_projection R = 0) as U1 by (vm_compute; reflexivity).
  assert (uLoc_modelView R = 4) as U2 by (vm_compute; reflexivity).
  assert (uLoc_material R = 11) as U3 by (vm_compute; reflexivity).
  assert (uLoc_lightVec R = 8) as U4 by (vm_compute; reflexivity).
  assert (uLoc_lightHalfVec R = 9) as U5 by (vm_compute; reflexivity).
  assert (uLoc_lightClr R = 10) as U6 by (vm_compute; reflexivity).
  split; [exact H1|]. split; [exact H2|]. split; [exact H3|].
  destruct (C1_render_call_sequence (H := sample_platform) _ _ _ _ H1 H2 H3)
    as (w' & calls & E & B & L & _ & _ & Hcalls).
  rewrite Hlen in L, Hcalls.
  destruct (Hcalls 0%nat (Nat.lt_0_succ 0))
    as (rq & id & model & m & mat & tex & vc & Erq & Eid & Emo & Em & Ema & Et & Ev & C).
  rewrite Hrq in Erq. injection Erq as <-.
  cbn [req_mesh_id req_model] in Eid, Emo.
  injection Eid as <-. injection Emo as <-.
  rewrite Hm in Em. apply (inj Some) in Em. subst m.
  rewrite Hmat in Ema. injection Ema as <-.
  rewrite Htex in Et. injection Et as <-.
  rewrite Hvc in Ev. injection Ev as <-.
  rewrite Hp, U1, U2, U3, U4, U5, U6 in C.
  rewrite take_ge in C by (rewrite length_drop, L; apply Nat.le_refl).
  exists w'. split; [exact E|]. rewrite B. f_equal. exact C.
Defined.

(** Two registered triangles A and B, enqueued in the order [A, B]. *)
Lemma C4_draws_in_enqueue_order_witness :
  renderers (sample_world 2 [0; 1]) !! 0%nat = Some (sample_renderer 2 [0; 1]) ∧
  n_requests (sample_renderer 2 [0; 1]) ≤ SIZE_MAX ∧
  frame_jobs (H := sample_platform) (sample_world 2 [0; 1]) (sample_renderer 2 [0; 1])
  = Some (sample_jobs 2 [0; 1]) ∧
  ∃ w' calls,
    renderer_render (H := sample_platform) the_renderer (sample_world 2 [0; 1]) = Ok tt w' ∧
    backend w' = backend (sample_world 2 [0; 1]) ++ calls ∧
    draw_groups [] calls
    = map (job_calls (sample_renderer 2 [0; 1])) (sample_jobs 2 [0; 1]).
Proof.
  assert (renderers (sample_world 2 [0; 1]) !! 0%nat = Some (sample_renderer 2 [0; 1]))
    as H1 by (vm_compute; reflexivity).
  assert (n_requests (sample_renderer 2 [0; 1]) ≤ SIZE_MAX) as H2 by (vm_compute; intros [=]).
  assert (frame_jobs (H := sample_platform) (sample_world 2 [0; 1])
            (sample_renderer 2 [0; 1]) = Some (sample_jobs 2 [0; 1]))
    as H3 by (vm_compute; reflexivity).
  split; [exact H1|]. split; [exact H2|]. split; [exact H3|].
  destruct (C4_draws_in_enqueue_order (H := sample_platform) _ _ _ _ H1 H2 H3)
    as (w' & calls & E & B & G & _).
  exists w', calls. auto.
Defined.

(** Three requests queued. *)
Lemma C6_queue_empty_after_render_witness :
  renderers (sample_world 2 [0; 1; 0]) !! 0%nat = Some (sample_renderer 2 [0; 1; 0]) ∧
  ∃ w' r',
    renderer_render (H := sample_platform) the_renderer (sample_world 2 [0; 1; 0])
    = Ok tt w' ∧
    renderers w' !! 0%nat = Some r' ∧ n_requests r' = 0.
Proof.
  assert (renderers (sample_world 2 [0; 1; 0]) !! 0%nat
          = Some (sample_renderer 2 [0; 1; 0])) as H1 by (vm_compute; reflexivity).
  split; [exact H1|].
  destruct (C6_queue_empty_after_render (H := sample_platform) _ _ _ H1) as [Hall Hret].
  destruct (Hret (sample_jobs 2 [0; 1; 0])) as [w' E];
    [vm_compute; intros [=] | vm_compute; reflexivity |].
  destruct (Hall w' E) as (r' & Hr' & Hn & _).
  exists w', r'. auto.
Defined.

(** A texture of size 0 for a second mesh. *)
Lemma C7_empty_input_panics_before_mutation_witness :
  (3 = 0 ∨ 0 = 0) ∧
  ∃ line message,
    renderer_register_mesh (H := sample_platform) the_renderer
      (Some (triangle 0)) 3 (Some [1]) 0 default_material (sample_world 1 [])
    = Panic line message (sample_world 1 []).
Proof.
  split; [by right|].
  apply (C7_empty_input_panics_before_mutation (H := sample_platform)). by right.
Defined.

(** Two registered triangles and nothing queued. *)
Lemma C8_empty_render_is_noop_witness :
  renderers (sample_world 2 []) !! 0%nat = Some (sample_renderer 2 []) ∧
  n_requests (sample_renderer 2 []) = 0 ∧
  renderer_render (H := sample_platform) the_renderer (sample_world 2 [])
  = Ok tt (sample_world 2 []).
Proof.
  assert (renderers (sample_world 2 []) !! 0%nat = Some (sample_renderer 2 []))
    as H1 by (vm_compute; reflexivity).
  assert (n_requests (sample_renderer 2 []) = 0) as H2 by (vm_compute; reflexivity).
  split; [exact H1|]. split; [exact H2|].
  exact (C8_empty_render_is_noop (H := sample_platform) _ _ _ H1 H2).
Defined.


(** The same frame, evaluated: mesh 0 has its vertices in block 1, mesh 1
    in block 2; the two draws of the requests for mesh 0 read block 2. *)
Example frame_after_second_registration :
  (mesh_slot (H := sample_platform) (sample_world 2 [0; 0]) (Some 0%nat) 0
     ≫= mesh_vbo_data) = Some (Some 1%nat) ∧
  (mesh_slot (H := sample_platform) (sample_world 2 [0; 0]) (Some 0%nat) 1
     ≫= mesh_vbo_data) = Some (Some 2%nat) ∧
  (job_texture <$> sample_jobs 2 [0; 0])
  = [ {| tex_data := 1; tex_width := 1; tex_height := 1;
         tex_mag_filter := GPU_LINEAR; tex_min_filter := GPU_NEAREST |};
      {| tex_data := 1; tex_width := 1; tex_height := 1;
         tex_mag_filter := GPU_LINEAR; tex_min_filter := GPU_NEAREST |} ] ∧
  draw_sources []
    (backend (world_of (renderer_render (H := sample_platform) the_renderer
                          (sample_world 2 [0; 0]))))
  = [ ([(Some 2%nat, 32, 3, 0x210)], 3); ([(Some 2%nat, 32, 3, 0x210)], 3) ].
Proof. repeat split; vm_compute; reflexivity. Qed.

(** A second mesh whose texture does not decode. *)
Lemma C10_import_failure_after_mutation_witness :
  renderers (sample_world 1 []) !! 0%nat = Some (sample_renderer 1 []) ∧
  ∃ w' r',
    renderer_register_mesh (H := sample_platform) the_renderer
      (Some (triangle 1)) 3 (Some [0]) 1 default_material (sample_world 1 [])
    = Panic 114 "importing t3x texture failed!" w' ∧
    renderers w' !! 0%nat = Some r' ∧
    n_meshes (sample_renderer 1 []) = 1 ∧ n_meshes r' = 2.
Proof.
  assert (renderers (sample_world 1 []) !! 0%nat = Some (sample_renderer 1 []))
    as H1 by (vm_compute; reflexivity).
  assert (renderer_register_mesh (H := sample_platform) the_renderer
            (Some (triangle 1)) 3 (Some [0]) 1 default_material (sample_world 1 [])
          = Panic 114 "importing t3x texture failed!"
              (world_of (renderer_register_mesh (H := sample_platform) the_renderer
                 (Some (triangle 1)) 3 (Some [0]) 1 default_material
                 (sample_world 1 []))))
    as H2 by (vm_compute; reflexivity).
  split; [exact H1|].
  destruct (C10_import_failure_after_mutation (H := sample_platform)
              _ _ _ _ _ _ _ _ _ H1 H2)
    as (r' & m & vbo & bytes & Hr' & Hn & _).
  eexists _, r'. split; [exact H2|]. split; [exact Hr'|].
  split; [vm_compute; reflexivity|]. rewrite Hn. vm_compute. reflexivity.
Defined.

(** Ten registered triangles: the table is full. *)
Lemma C3_growth_loses_registered_meshes_witness :
  renderers (sample_world 10 []) !! 0%nat = Some (sample_renderer 10 []) ∧
  meshes (sample_renderer 10 []) = Some 0%nat ∧
  block_at (sample_world 10 []) 0 = Some (sample_block 10 [] 0) ∧
  n_meshes (sample_renderer 10 []) = capacity_meshes (sample_renderer 10 []) ∧
  ∃ w' r',
    new_mesh (H := sample_platform) the_renderer (sample_world 10 []) = Ok 10 w' ∧
    renderers w' !! 0%nat = Some r' ∧
    capacity_meshes r' = 15 ∧
    ∀ k, mesh_slot (H := sample_platform) w' (meshes r') k = None.
Proof.
  assert (renderers (sample_world 10 []) !! 0%nat = Some (sample_renderer 10 []))
    as H1 by (vm_compute; reflexivity).
  assert (meshes (sample_renderer 10 []) = Some 0%nat) as H2 by (vm_compute; reflexivity).
  assert (block_at (sample_world 10 []) 0 = Some (sample_block 10 [] 0))
    as H3 by (vm_compute; reflexivity).
  assert (n_meshes (sample_renderer 10 []) = capacity_meshes (sample_renderer 10 []))
    as H4 by (vm_compute; reflexivity).
  split; [exact H1|]. split; [exact H2|]. split; [exact H3|]. split; [exact H4|].
  destruct (C3_growth_loses_registered_meshes (H := sample_platform)
              _ _ _ _ _ H1 H2 H3)
    as (w' & r' & b' & blk' & E & Hr' & Hc & _ & _ & _ & _ & _ & Hk & _);
    [ vm_compute; reflexivity | exact H4
    | vm_compute; split; [intros [=] | reflexivity]
    | vm_compute; reflexivity | vm_compute; congruence |].
  assert (n_meshes (sample_renderer 10 []) = 10) as Hn by (vm_compute; reflexivity).
  rewrite Hn in E.
  exists w', r'. split; [exact E|]. split; [exact Hr'|]. split; [|exact Hk].
  rewrite Hc. vm_compute. reflexivity.
Defined.

(** One registered triangle and ten requests: the queue is full. *)
Lemma C5_full_queue_request_overwrites_mesh_table_witness :
  renderers (sample_world 1 [0; 0; 0; 0; 0; 0; 0; 0; 0; 0]) !! 0%nat
  = Some (sample_renderer 1 [0; 0; 0; 0; 0; 0; 0; 0; 0; 0]) ∧
  requests (sample_renderer 1 [0; 0; 0; 0; 0; 0; 0; 0; 0; 0]) = Some 2%nat ∧
  meshes (sample_renderer 1 [0; 0; 0; 0; 0; 0; 0; 0; 0; 0]) = Some 0%nat ∧
  ∃ w' r',
    renderer_request (H := sample_platform) the_renderer 0 (Some identity_Mtx)
      (sample_world 1 [0; 0; 0; 0; 0; 0; 0; 0; 0; 0])
    = Undefined "request access outside a live block" w' ∧
    renderers w' !! 0%nat = Some r' ∧
    meshes r' = Some 3%nat ∧
    ∀ k, mesh_slot (H := sample_platform) w' (meshes r') k = None.
Proof.
  set (ids := [0; 0; 0; 0; 0; 0; 0; 0; 0; 0]).
  assert (renderers (sample_world 1 ids) !! 0%nat = Some (sample_renderer 1 ids))
    as H1 by (vm_compute; reflexivity).
  assert (requests (sample_renderer 1 ids) = Some 2%nat) as H2 by (vm_compute; reflexivity).
  assert (meshes (sample_renderer 1 ids) = Some 0%nat) as H2' by (vm_compute; reflexivity).
  assert (block_at (sample_world 1 ids) 2 = Some (sample_block 1 ids 2))
    as H3 by (vm_compute; reflexivity).
  split; [exact H1|]. split; [exact H2|]. split; [exact H2'|].
  destruct (C5_full_queue_request_overwrites_mesh_table (H := sample_platform)
              _ _ _ _ 0 (Some identity_Mtx) _ H1 H2 H3)
    as (w' & r' & E & Hr' & Hm & _ & _ & _ & _ & _ & Hk);
    [ vm_compute; reflexivity | vm_compute; reflexivity
    | vm_compute; reflexivity | vm_compute; congruence |].
  exists w', r'. split; [exact E|]. split; [exact Hr'|]. split; [|exact Hk].
  rewrite Hm. vm_compute. reflexivity.
Defined.

(** A handle that names no mesh is accepted when it is enqueued, and the
    frame that reaches it reads outside the mesh table. *)
Example request_accepts_any_handle :
  (renderer_init (H := sample_platform) zero_filled ;;
   register_samples 1 0 ;;
   request_samples [12]) boot
  = Ok tt (sample_world 1 [12]) ∧
  n_requests (sample_renderer 1 [12]) = 1 ∧
  ∃ w',
    renderer_render (H := sample_platform) the_renderer (sample_world 1 [12])
    = Undefined "mesh access outside a live block" w'.
Proof.
  split; [vm_compute; reflexivity|]. split; [vm_compute; reflexivity|].
  eexists. vm_compute. reflexivity.
Qed.

(** ** More sample runs *)

(** Initialisation on memory that holds stale values. *)
Lemma renderer_init_leaves_tables_unset_witness :
  head (alloc_script boot) ≠ Some false ∧
  ∃ w' r',
    renderer_init (H := sample_platform) stale_filled boot = Ok (Some 0%nat) w' ∧
    renderers w' !! 0%nat = Some r' ∧
    meshes r' = Some 9%nat ∧ n_meshes r' = 2 ∧ capacity_meshes r' = 4 ∧
    requests r' = Some 7%nat ∧ n_requests r' = 3 ∧ capacity_requests r' = 5.
Proof.
  assert (head (alloc_script boot) ≠ Some false) as H1 by (vm_compute; intros [=]).
  split; [exact H1|].
  destruct (renderer_init_leaves_tables_unset (H := sample_platform) stale_filled boot H1)
    as (w' & r' & E & Hr & _ & _ & _ & _ & _ & _ & _ & Q1 & Q2 & Q3 & M1 & M2 & M3 & _).
  exists w', r'. split; [exact E|]. split; [exact Hr|]. auto 10.
Defined.

(** Initialisation with no memory left. *)
Lemma renderer_init_malloc_failure_witness :
  head (alloc_script (out_of_memory boot)) = Some false ∧
  renderer_init (H := sample_platform) zero_filled (out_of_memory boot)
  = Panic 16 "ret was null!" boot.
Proof.
  split; [reflexivity|].
  exact (renderer_init_malloc_failure (H := sample_platform) zero_filled
           (out_of_memory boot) eq_refl).
Defined.

(** A registration on the renderer whose table pointer is a stale value. *)
Lemma register_through_stale_table_pointer_witness :
  renderers stale_world !! 0%nat
  = Some (default zero_filled (renderers stale_world !! 0%nat)) ∧
  meshes (default zero_filled (renderers stale_world !! 0%nat)) = Some 9%nat ∧
  block_at stale_world 9 = None ∧
  ∃ what w',
    renderer_register_mesh (H := sample_platform) the_renderer
      (Some (triangle 0)) 3 (Some [1]) 1 default_material stale_world
    = Undefined what w'.
Proof.
  assert (renderers stale_world !! 0%nat
          = Some (default zero_filled (renderers stale_world !! 0%nat)))
    as H1 by (vm_compute; reflexivity).
  assert (meshes (default zero_filled (renderers stale_world !! 0%nat)) = Some 9%nat)
    as H2 by (vm_compute; reflexivity).
  assert (block_at stale_world 9 = None) as H3 by (vm_compute; reflexivity).
  split; [exact H1|]. split; [exact H2|]. split; [exact H3|].
  apply (register_through_stale_table_pointer (H := sample_platform)
           _ _ _ (triangle 0) 3 [1] 1 default_material _ H1 H2 H3);
    vm_compute; intros [=].
Defined.

(** The first registration on zero-filled memory. *)
Lemma new_mesh_first_witness :
  renderers (sample_world 0 []) !! 0%nat = Some (sample_renderer 0 []) ∧
  meshes (sample_renderer 0 []) = NULL ∧
  ∃ w' r',
    new_mesh (H := sample_platform) the_renderer (sample_world 0 []) = Ok 0 w' ∧
    renderers w' !! 0%nat = Some r' ∧
    capacity_meshes r' = 10 ∧ n_meshes r' = 1.
Proof.
  assert (renderers (sample_world 0 []) !! 0%nat = Some (sample_renderer 0 []))
    as H1 by (vm_compute; reflexivity).
  assert (meshes (sample_renderer 0 []) = NULL) as H2 by (vm_compute; reflexivity).
  assert (0 ≤ n_meshes (sample_renderer 0 []) < SIZE_MAX)
    as H3 by (vm_compute; split; [intros [=] | reflexivity]).
  assert (head (alloc_script (sample_world 0 [])) ≠ Some false)
    as H4 by (vm_compute; intros [=]).
  assert (n_meshes (sample_renderer 0 []) = 0) as Hn by (vm_compute; reflexivity).
  split; [exact H1|]. split; [exact H2|].
  destruct (new_mesh_first (H := sample_platform) _ _ _ H1 H2 H3 H4)
    as (w' & r' & E & Hr & _ & Hc & Hc' & _).
  rewrite Hn in E, Hc'.
  exists w', r'. split; [exact E|]. split; [exact Hr|]. split; [exact Hc | exact Hc'].
Defined.

(** The first registration with no memory left. *)
Lemma register_first_malloc_failure_witness :
  renderers (out_of_memory (sample_world 0 [])) !! 0%nat
  = Some (sample_renderer 0 []) ∧
  meshes (sample_renderer 0 []) = NULL ∧
  head (alloc_script (out_of_memory (sample_world 0 []))) = Some false ∧
  ∃ w',
    renderer_register_mesh (H := sample_platform) the_renderer
      (Some (triangle 0)) 3 (Some [1]) 1 default_material
      (out_of_memory (sample_world 0 []))
    = Panic 62 "failed malloc" w' ∧
    heap w' = heap (out_of_memory (sample_world 0 [])).
Proof.
  assert (renderers (out_of_memory (sample_world 0 [])) !! 0%nat
          = Some (sample_renderer 0 [])) as H1 by (vm_compute; reflexivity).
  assert (meshes (sample_renderer 0 []) = NULL) as H2 by (vm_compute; reflexivity).
  assert (head (alloc_script (out_of_memory (sample_world 0 []))) = Some false)
    as H3 by (vm_compute; reflexivity).
  split; [exact H1|]. split; [exact H2|]. split; [exact H3|].
  destruct (register_first_malloc_failure (H := sample_platform)
              _ _ (triangle 0) 3 [1] 1 default_material _ H1 H2)
    as (w' & E & _ & Hh & _); [vm_compute; intros [=] | vm_compute; intros [=] | exact H3 |].
  exists w'. split; [exact E | exact Hh].
Defined.

(** Ten registered triangles and no memory left. *)
Lemma register_realloc_failure_loses_table_witness :
  renderers (out_of_memory (sample_world 10 [])) !! 0%nat
  = Some (sample_renderer 10 []) ∧
  meshes (sample_renderer 10 []) = Some 0%nat ∧
  block_at (out_of_memory (sample_world 10 [])) 0 = Some (sample_block 10 [] 0) ∧
  n_meshes (sample_renderer 10 []) = capacity_meshes (sample_renderer 10 []) ∧
  ∃ w' r',
    renderer_register_mesh (H := sample_platform) the_renderer
      (Some (triangle 10)) 3 (Some [11]) 1 default_material
      (out_of_memory (sample_world 10 []))
    = Panic 68 "failed realloc" w' ∧
    renderers w' !! 0%nat = Some r' ∧
    meshes r' = NULL ∧
    block_at w' 0 = Some (sample_block 10 [] 0).
Proof.
  assert (renderers (out_of_memory (sample_world 10 [])) !! 0%nat
          = Some (sample_renderer 10 [])) as H1 by (vm_compute; reflexivity).
  assert (meshes (sample_renderer 10 []) = Some 0%nat) as H2 by (vm_compute; reflexivity).
  assert (block_at (out_of_memory (sample_world 10 [])) 0 = Some (sample_block 10 [] 0))
    as H3 by (vm_compute; reflexivity).
  assert (n_meshes (sample_renderer 10 []) = capacity_meshes (sample_renderer 10 []))
    as H4 by (vm_compute; reflexivity).
  split; [exact H1|]. split; [exact H2|]. split; [exact H3|]. split; [exact H4|].
  destruct (register_realloc_failure_loses_table (H := sample_platform)
              _ _ _ _ (triangle 10) 3 [11] 1 default_material _ H1 H2 H3)
    as (w' & r' & E & Hr & Hm & _ & _ & _ & Hb);
    [ vm_compute; reflexivity | exact H4 | vm_compute; intros [=]
    | vm_compute; intros [=] | vm_compute; reflexivity |].
  exists w', r'. split; [exact E|]. split; [exact Hr|]. split; [exact Hm | exact Hb].
Defined.

(** A second triangle registered after a first. *)
Lemma register_then_resolve_witness :
  renderers (sample_world 1 []) !! 0%nat = Some (sample_renderer 1 []) ∧
  meshes (sample_renderer 1 []) = Some 0%nat ∧
  n_meshes (sample_renderer 1 []) ≠ capacity_meshes (sample_renderer 1 []) ∧
  Tex3DS_decode (Platform := sample_platform) (take (Z.to_nat 1) [2])
  = Some {| tex_data := 2; tex_width := 1; tex_height := 1;
            tex_mag_filter := GPU_NEAREST; tex_min_filter := GPU_NEAREST |} ∧
  ∃ w',
    renderer_register_mesh (H := sample_platform) the_renderer
      (Some (triangle 1)) 3 (Some [2]) 1 default_material (sample_world 1 [])
    = Ok 1 w' ∧
    mesh_slot (H := sample_platform) w' (Some 0%nat) 1
    = Some {| mesh_material := Some default_material;
              mesh_vbo_data := Some (Some 2%nat);
              mesh_buf_info := Some ctx_bufInfo;
              mesh_texture :=
                Some {| tex_data := 2; tex_width := 1; tex_height := 1;
                        tex_mag_filter := GPU_LINEAR; tex_min_filter := GPU_NEAREST |};
              mesh_vertex_count := Some 3 |} ∧
    block_at w' 2
    = Some {| blk_region := LinearHeap; blk_bytes := 96;
              blk_cells := VertexCells (triangle 1) |}.
Proof.
  assert (renderers (sample_world 1 []) !! 0%nat = Some (sample_renderer 1 []))
    as H1 by (vm_compute; reflexivity).
  assert (meshes (sample_renderer 1 []) = Some 0%nat) as H2 by (vm_compute; reflexivity).
  assert (n_meshes (sample_renderer 1 []) ≠ capacity_meshes (sample_renderer 1 []))
    as H3 by (vm_compute; intros [=]).
  assert (0 ≤ n_meshes (sample_renderer 1 []) < SIZE_MAX)
    as H4 by (vm_compute; split; [intros [=] | reflexivity]).
  assert (mesh_slot (H := sample_platform) (sample_world 1 []) (Some 0%nat)
            (n_meshes (sample_renderer 1 [])) = Some blank_mesh)
    as H5 by (vm_compute; reflexivity).
  assert (0 < 3 ≤ Z.of_nat (length (triangle 1)))
    as H6 by (vm_compute; split; [reflexivity | intros [=]]).
  assert (sizeof_vertex * 3 ≤ SIZE_MAX) as H7 by (vm_compute; intros [=]).
  assert (0 < 1 ≤ Z.of_nat (length [2]))
    as H8 by (vm_compute; split; [reflexivity | intros [=]]).
  assert (Tex3DS_decode (Platform := sample_platform) (take (Z.to_nat 1) [2])
          = Some {| tex_data := 2; tex_width := 1; tex_height := 1;
                    tex_mag_filter := GPU_NEAREST; tex_min_filter := GPU_NEAREST |})
    as H9 by (vm_compute; reflexivity).
  assert (head (alloc_script (sample_world 1 [])) ≠ Some false)
    as H10 by (vm_compute; intros [=]).
  assert (n_meshes (sample_renderer 1 []) = 1) as Hn by (vm_compute; reflexivity).
  assert (length (heap (sample_world 1 [])) = 2%nat) as Hl by (vm_compute; reflexivity).
  split; [exact H1|]. split; [exact H2|]. split; [exact H3|]. split; [exact H9|].
  destruct (register_then_resolve (H := sample_platform)
              _ _ _ _ _ _ _ default_material _ _ _ H1 H2 H3 H4 H5 H6 H7 H8 H9 H10)
    as (w' & E & _ & S & B & _).
  rewrite Hn in E, S. rewrite Hl in S, B.
  exists w'. split; [exact E|]. split; [exact S | exact B].
Defined.

(** The same registration, seen from the handle issued before. *)
Lemma register_keeps_other_handles_witness :
  renderers (sample_world 1 []) !! 0%nat = Some (sample_renderer 1 []) ∧
  meshes (sample_renderer 1 []) = Some 0%nat ∧
  renderer_register_mesh (H := sample_platform) the_renderer
    (Some (triangle 1)) 3 (Some [2]) 1 default_material (sample_world 1 [])
  = Ok 1 (sample_world 2 []) ∧
  mesh_slot (H := sample_platform) (sample_world 1 []) (Some 0%nat) 0
  = Some (sample_mesh 1 [] 0) ∧
  mesh_slot (H := sample_platform) (sample_world 2 []) (Some 0%nat) 0
  = Some (sample_mesh 1 [] 0).
Proof.
  assert (renderers (sample_world 1 []) !! 0%nat = Some (sample_renderer 1 []))
    as H1 by (vm_compute; reflexivity).
  assert (meshes (sample_renderer 1 []) = Some 0%nat) as H2 by (vm_compute; reflexivity).
  assert (n_meshes (sample_renderer 1 []) ≠ capacity_meshes (sample_renderer 1 []))
    as H3 by (vm_compute; intros [=]).
  assert (0 ≤ n_meshes (sample_renderer 1 []) < SIZE_MAX)
    as H4 by (vm_compute; split; [intros [=] | reflexivity]).
  assert (renderer_register_mesh (H := sample_platform) the_renderer
            (Some (triangle 1)) 3 (Some [2]) 1 default_material (sample_world 1 [])
          = Ok 1 (sample_world 2 []))
    as H5 by (vm_compute; reflexivity).
  assert (mesh_slot (H := sample_platform) (sample_world 1 []) (Some 0%nat) 0
          = Some (sample_mesh 1 [] 0)) as H6 by (vm_compute; reflexivity).
  split; [exact H1|]. split; [exact H2|]. split; [exact H5|]. split; [exact H6|].
  destruct (register_keeps_other_handles (H := sample_platform)
              _ _ _ _ _ _ _ _ _ _ _ H1 H2 H3 H4 H5) as (_ & _ & K).
  apply K; [intros [=] | exact H6].
Defined.

(** A second triangle with no linear memory left. *)
Lemma register_linearAlloc_failure_witness :
  renderers (out_of_memory (sample_world 1 [])) !! 0%nat
  = Some (sample_renderer 1 []) ∧
  meshes (sample_renderer 1 []) = Some 0%nat ∧
  head (alloc_script (out_of_memory (sample_world 1 []))) = Some false ∧
  ∃ w',
    renderer_register_mesh (H := sample_platform) the_renderer
      (Some (triangle 1)) 3 (Some [2]) 1 default_material
      (out_of_memory (sample_world 1 []))
    = Undefined "memcpy with a null pointer" w'.
Proof.
  assert (renderers (out_of_memory (sample_world 1 [])) !! 0%nat
          = Some (sample_renderer 1 [])) as H1 by (vm_compute; reflexivity).
  assert (meshes (sample_renderer 1 []) = Some 0%nat) as H2 by (vm_compute; reflexivity).
  assert (n_meshes (sample_renderer 1 []) ≠ capacity_meshes (sample_renderer 1 []))
    as H3 by (vm_compute; intros [=]).
  assert (0 ≤ n_meshes (sample_renderer 1 []) < SIZE_MAX)
    as H4 by (vm_compute; split; [intros [=] | reflexivity]).
  assert (mesh_slot (H := sample_platform) (out_of_memory (sample_world 1 []))
            (Some 0%nat) (n_meshes (sample_renderer 1 [])) = Some blank_mesh)
    as H5 by (vm_compute; reflexivity).
  assert (head (alloc_script (out_of_memory (sample_world 1 []))) = Some false)
    as H6 by (vm_compute; reflexivity).
  split; [exact H1|]. split; [exact H2|]. split; [exact H6|].
  destruct (register_linearAlloc_failure (H := sample_platform)
              _ _ _ (triangle 1) 3 [2] 1 default_material _ _ H1 H2 H3 H4 H5)
    as (w' & E & _); [vm_compute; intros [=] | vm_compute; intros [=] | exact H6 |].
  exists w'. exact E.
Defined.

(** The first request of a renderer with one registered triangle. *)
Lemma request_first_allocates_queue_witness :
  renderers (sample_world 1 []) !! 0%nat = Some (sample_renderer 1 []) ∧
  requests (sample_renderer 1 []) = NULL ∧
  ∃ w' r',
    renderer_request (H := sample_platform) the_renderer 0 (Some identity_Mtx)
      (sample_world 1 [])
    = Ok tt w' ∧
    renderers w' !! 0%nat = Some r' ∧
    requests r' = Some 2%nat ∧ capacity_requests r' = 10 ∧
    (blk_bytes <$> block_at w' 2) = Some 1000.
Proof.
  assert (renderers (sample_world 1 []) !! 0%nat = Some (sample_renderer 1 []))
    as H1 by (vm_compute; reflexivity).
  assert (requests (sample_renderer 1 []) = NULL) as H2 by (vm_compute; reflexivity).
  assert (0 ≤ n_requests (sample_renderer 1 []) < SIZE_MAX)
    as H3 by (vm_compute; split; [intros [=] | reflexivity]).
  assert ((n_requests (sample_renderer 1 []) + 1) * sizeof_render_request
          ≤ size_t_mul 10 (sizeof_mesh (Platform := sample_platform)))
    as H4 by (vm_compute; intros [=]).
  assert (head (alloc_script (sample_world 1 [])) ≠ Some false)
    as H5 by (vm_compute; intros [=]).
  assert (length (heap (sample_world 1 [])) = 2%nat) as Hl by (vm_compute; reflexivity).
  assert (size_t_mul 10 (sizeof_mesh (Platform := sample_platform)) = 1000)
    as Hs by (vm_compute; reflexivity).
  split; [exact H1|]. split; [exact H2|].
  destruct (request_first_allocates_queue (H := sample_platform)
              _ _ 0 identity_Mtx _ H1 H2 H3 H4 H5)
    as (w' & r' & E & Hr & Hq & Hc & _ & _ & _ & _ & Hb & _).
  rewrite Hl in Hq, Hb. rewrite Hs in Hb.
  exists w', r'. split; [exact E|]. split; [exact Hr|]. split; [exact Hq|].
  split; [exact Hc | exact Hb].
Defined.

(** Two registered triangles, mesh 0 queued, mesh 1 requested. *)
Lemma renderer_request_enqueues_witness :
  renderers (sample_world 2 [0]) !! 0%nat = Some (sample_renderer 2 [0]) ∧
  requests (sample_renderer 2 [0]) = Some 3%nat ∧
  frame_jobs (H := sample_platform) (sample_world 2 [0]) (sample_renderer 2 [0])
  = Some (sample_jobs 2 [0]) ∧
  ∃ w' r',
    renderer_request (H := sample_platform) the_renderer 1 (Some identity_Mtx)
      (sample_world 2 [0])
    = Ok tt w' ∧
    renderers w' !! 0%nat = Some r' ∧
    frame_jobs (H := sample_platform) w' r'
    = Some (sample_jobs 2 [0] ++
            [ {| job_model := identity_Mtx; job_material := default_material;
                 job_texture :=
                   {| tex_data := 2; tex_width := 1; tex_height := 1;
                      tex_mag_filter := GPU_LINEAR; tex_min_filter := GPU_NEAREST |};
                 job_vertex_count := 3 |} ]).
Proof.
  assert (renderers (sample_world 2 [0]) !! 0%nat = Some (sample_renderer 2 [0]))
    as H1 by (vm_compute; reflexivity).
  assert (requests (sample_renderer 2 [0]) = Some 3%nat) as H2 by (vm_compute; reflexivity).
  assert (meshes (sample_renderer 2 [0]) ≠ Some 3%nat) as H3 by (vm_compute; intros [=]).
  assert (n_requests (sample_renderer 2 [0]) ≠ capacity_requests (sample_renderer 2 [0]))
    as H4 by (vm_compute; intros [=]).
  assert (0 ≤ n_requests (sample_renderer 2 [0]) < SIZE_MAX)
    as H5 by (vm_compute; split; [intros [=] | reflexivity]).
  assert (request_slot (sample_world 2 [0]) (Some 3%nat) (n_requests (sample_renderer 2 [0]))
          = Some blank_request) as H6 by (vm_compute; reflexivity).
  assert (mesh_slot (H := sample_platform) (sample_world 2 [0])
            (meshes (sample_renderer 2 [0])) (u32_of_size_t 1)
          = Some (sample_mesh 2 [0] 1)) as H7 by (vm_compute; reflexivity).
  assert (mesh_material (sample_mesh 2 [0] 1) = Some default_material)
    as H8 by (vm_compute; reflexivity).
  assert (mesh_texture (sample_mesh 2 [0] 1)
          = Some {| tex_data := 2; tex_width := 1; tex_height := 1;
                    tex_mag_filter := GPU_LINEAR; tex_min_filter := GPU_NEAREST |})
    as H9 by (vm_compute; reflexivity).
  assert (mesh_vertex_count (sample_mesh 2 [0] 1) = Some 3)
    as H10 by (vm_compute; reflexivity).
  assert (frame_jobs (H := sample_platform) (sample_world 2 [0]) (sample_renderer 2 [0])
          = Some (sample_jobs 2 [0])) as H11 by (vm_compute; reflexivity).
  split; [exact H1|]. split; [exact H2|]. split; [exact H11|].
  exact (renderer_request_enqueues (H := sample_platform)
           _ _ _ 1 identity_Mtx _ _ _ _ _ _ _ H1 H2 H3 H4 H5 H6 H7 H8 H9 H10 H11).
Defined.

(** One registered triangle, ten requests, and no memory left. *)
Lemma request_realloc_failure_goes_unnoticed_witness :
  renderers (out_of_memory (sample_world 1 [0; 0; 0; 0; 0; 0; 0; 0; 0; 0])) !! 0%nat
  = Some (sample_renderer 1 [0; 0; 0; 0; 0; 0; 0; 0; 0; 0]) ∧
  requests (sample_renderer 1 [0; 0; 0; 0; 0; 0; 0; 0; 0; 0]) = Some 2%nat ∧
  meshes (sample_renderer 1 [0; 0; 0; 0; 0; 0; 0; 0; 0; 0]) = Some 0%nat ∧
  n_requests (sample_renderer 1 [0; 0; 0; 0; 0; 0; 0; 0; 0; 0])
  = capacity_requests (sample_renderer 1 [0; 0; 0; 0; 0; 0; 0; 0; 0; 0]) ∧
  ∃ w' r',
    renderer_request (H := sample_platform) the_renderer 0 (Some identity_Mtx)
      (out_of_memory (sample_world 1 [0; 0; 0; 0; 0; 0; 0; 0; 0; 0]))
    = Ok tt w' ∧
    renderers w' !! 0%nat = Some r' ∧
    meshes r' = NULL ∧
    n_requests r' = 11 ∧ capacity_requests r' = 15.
Proof.
  set (ids := [0; 0; 0; 0; 0; 0; 0; 0; 0; 0]).
  assert (renderers (out_of_memory (sample_world 1 ids)) !! 0%nat
          = Some (sample_renderer 1 ids)) as H1 by (vm_compute; reflexivity).
  assert (requests (sample_renderer 1 ids) = Some 2%nat) as H2 by (vm_compute; reflexivity).
  assert (meshes (sample_renderer 1 ids) = Some 0%nat) as H2' by (vm_compute; reflexivity).
  assert (block_at (out_of_memory (sample_world 1 ids)) 2 = Some (sample_block 1 ids 2))
    as H3 by (vm_compute; reflexivity).
  assert (blk_region (sample_block 1 ids 2) = MainHeap) as H4 by (vm_compute; reflexivity).
  assert (n_requests (sample_renderer 1 ids) = capacity_requests (sample_renderer 1 ids))
    as H5 by (vm_compute; reflexivity).
  assert (0 ≤ n_requests (sample_renderer 1 ids) < SIZE_MAX)
    as H6 by (vm_compute; split; [intros [=] | reflexivity]).
  assert (request_slot (out_of_memory (sample_world 1 ids)) (Some 2%nat)
            (n_requests (sample_renderer 1 ids)) = Some blank_request)
    as H7 by (vm_compute; reflexivity).
  assert (head (alloc_script (out_of_memory (sample_world 1 ids))) = Some false)
    as H8 by (vm_compute; reflexivity).
  assert (n_requests (sample_renderer 1 ids) + 1 = 11) as Hn by (vm_compute; reflexivity).
  assert (size_t_mul (capacity_requests (sample_renderer 1 ids)) 3 / 2 = 15)
    as Hc by (vm_compute; reflexivity).
  split; [exact H1|]. split; [exact H2|]. split; [exact H2'|]. split; [exact H5|].
  destruct (request_realloc_failure_goes_unnoticed (H := sample_platform)
              _ _ _ _ 0 identity_Mtx _ _ H1 H2 H3 H4 H5 H6 H7 H8)
    as (w' & r' & E & Hr & Hm & _ & Hcap & Hnr & _).
  rewrite Hc in Hcap. rewrite Hn in Hnr.
  exists w', r'. split; [exact E|]. split; [exact Hr|]. split; [exact Hm|].
  split; [exact Hnr | exact Hcap].
Defined.

(** Mesh 0 requested, then handle 12, which no mesh has: the frame draws
    the first request and then reads outside the mesh table. *)
Lemma render_outcome_witness :
  renderers (sample_world 1 [0; 12]) !! 0%nat = Some (sample_renderer 1 [0; 12]) ∧
  n_requests (sample_renderer 1 [0; 12]) ≤ SIZE_MAX ∧
  Z.of_nat 1 < n_requests (sample_renderer 1 [0; 12]) ∧
  jobs_from (H := sample_platform) (sample_world 1 [0; 12]) (sample_renderer 1 [0; 12])
            1 0
  = Some (sample_jobs 1 [0]) ∧
  out_of_reach (H := sample_platform) (sample_world 1 [0; 12])
               (sample_renderer 1 [0; 12]) (Z.of_nat 1) ∧
  ∃ what,
    renderer_render (H := sample_platform) the_renderer (sample_world 1 [0; 12])
    = Undefined what
        (set_backend (backend (sample_world 1 [0; 12])
                      ++ flat_map (job_calls (sample_renderer 1 [0; 12]))
                                  (sample_jobs 1 [0]))
                     (sample_world 1 [0; 12])).
Proof.
  set (W := sample_world 1 [0; 12]). set (R := sample_renderer 1 [0; 12]).
  assert (renderers W !! 0%nat = Some R) as H1 by (vm_compute; reflexivity).
  assert (n_requests R ≤ SIZE_MAX) as H2 by (vm_compute; intros [=]).
  assert (Z.of_nat 1 < n_requests R) as H3 by (vm_compute; reflexivity).
  assert (jobs_from (H := sample_platform) W R 1 0 = Some (sample_jobs 1 [0]))
    as H4 by (vm_compute; reflexivity).
  assert (out_of_reach (H := sample_platform) W R (Z.of_nat 1)) as H5.
  { right. exists {| req_mesh_id := Some 12; req_model := Some identity_Mtx |}, 12.
    split; [vm_compute; reflexivity|]. split; [reflexivity|].
    vm_compute; reflexivity. }
  split; [exact H1|]. split; [exact H2|]. split; [exact H3|]. split; [exact H4|].
  split; [exact H5|].
  destruct (render_outcome (H := sample_platform) _ _ _ H1 H2) as [_ T].
  exact (T 1%nat _ H3 H4 H5).
Defined.

(** Two requests queued, rendered twice. *)
Lemma render_twice_draws_once_witness :
  renderers (sample_world 2 [0; 1]) !! 0%nat = Some (sample_renderer 2 [0; 1]) ∧
  n_requests (sample_renderer 2 [0; 1]) ≤ SIZE_MAX ∧
  ∃ w',
    renderer_render (H := sample_platform) the_renderer (sample_world 2 [0; 1]) = Ok tt w' ∧
    renderer_render (H := sample_platform) the_renderer w' = Ok tt w'.
Proof.
  assert (renderers (sample_world 2 [0; 1]) !! 0%nat = Some (sample_renderer 2 [0; 1]))
    as H1 by (vm_compute; reflexivity).
  assert (n_requests (sample_renderer 2 [0; 1]) ≤ SIZE_MAX) as H2 by (vm_compute; intros [=]).
  assert (renderer_render (H := sample_platform) the_renderer (sample_world 2 [0; 1])
          = Ok tt (world_of (renderer_render (H := sample_platform) the_renderer
                               (sample_world 2 [0; 1]))))
    as H3 by (vm_compute; reflexivity).
  split; [exact H1|]. split; [exact H2|].
  eexists. split; [exact H3|].
  exact (render_twice_draws_once (H := sample_platform) _ _ _ _ H1 H2 H3).
Defined.

(** Two requests rendered, then one more request and the next frame. *)
Lemma next_frame_draws_new_requests_only_witness :
  renderers (sample_world 1 [0; 0]) !! 0%nat = Some (sample_renderer 1 [0; 0]) ∧
  requests (sample_renderer 1 [0; 0]) = Some 2%nat ∧
  ∃ w1 w2 w3,
    renderer_render (H := sample_platform) the_renderer (sample_world 1 [0; 0]) = Ok tt w1 ∧
    renderer_request (H := sample_platform) the_renderer 0 (Some sample_projection) w1
    = Ok tt w2 ∧
    renderer_render (H := sample_platform) the_renderer w2 = Ok tt w3 ∧
    length (backend w3) = (length (backend w1) + 8)%nat.
Proof.
  assert (renderers (sample_world 1 [0; 0]) !! 0%nat = Some (sample_renderer 1 [0; 0]))
    as H1 by (vm_compute; reflexivity).
  assert (n_requests (sample_renderer 1 [0; 0]) ≤ SIZE_MAX) as H2 by (vm_compute; intros [=]).
  assert (requests (sample_renderer 1 [0; 0]) = Some 2%nat) as H3 by (vm_compute; reflexivity).
  assert (meshes (sample_renderer 1 [0; 0]) ≠ Some 2%nat) as H4 by (vm_compute; intros [=]).
  assert (capacity_requests (sample_renderer 1 [0; 0]) ≠ 0) as H5 by (vm_compute; intros [=]).
  assert (request_slot (sample_world 1 [0; 0]) (Some 2%nat) 0
          = Some (default blank_request
                    (request_slot (sample_world 1 [0; 0]) (Some 2%nat) 0)))
    as H6 by (vm_compute; reflexivity).
  assert (mesh_slot (H := sample_platform) (sample_world 1 [0; 0])
            (meshes (sample_renderer 1 [0; 0])) (u32_of_size_t 0)
          = Some (sample_mesh 1 [0; 0] 0)) as H7 by (vm_compute; reflexivity).
  assert (mesh_material (sample_mesh 1 [0; 0] 0) = Some default_material)
    as H8 by (vm_compute; reflexivity).
  assert (mesh_texture (sample_mesh 1 [0; 0] 0)
          = Some {| tex_data := 1; tex_width := 1; tex_height := 1;
                    tex_mag_filter := GPU_LINEAR; tex_min_filter := GPU_NEAREST |})
    as H9 by (vm_compute; reflexivity).
  assert (mesh_vertex_count (sample_mesh 1 [0; 0] 0) = Some 3)
    as H10 by (vm_compute; reflexivity).
  assert (renderer_render (H := sample_platform) the_renderer (sample_world 1 [0; 0])
          = Ok tt (world_of (renderer_render (H := sample_platform) the_renderer
                               (sample_world 1 [0; 0]))))
    as H11 by (vm_compute; reflexivity).
  split; [exact H1|]. split; [exact H3|].
  destruct (next_frame_draws_new_requests_only (H := sample_platform)
              _ _ _ 0 sample_projection _ _ _ _ _ _ _
              H1 H2 H3 H4 H5 H6 H7 H8 H9 H10 H11)
    as (w2 & w3 & E2 & E3 & B).
  eexists _, w2, w3. split; [exact H11|]. split; [exact E2|]. split; [exact E3|].
  rewrite B. rewrite length_app. reflexivity.
Defined.

(** A second mesh whose texture does not decode. *)
Lemma register_import_failure_panics_witness :
  renderers (sample_world 1 []) !! 0%nat = Some (sample_renderer 1 []) ∧
  meshes (sample_renderer 1 []) = Some 0%nat ∧
  Tex3DS_decode (Platform := sample_platform) (take (Z.to_nat 1) [0]) = None ∧
  ∃ w',
    renderer_register_mesh (H := sample_platform) the_renderer
      (Some (triangle 1)) 3 (Some [0]) 1 default_material (sample_world 1 [])
    = Panic 114 "importing t3x texture failed!" w'.
Proof.
  assert (renderers (sample_world 1 []) !! 0%nat = Some (sample_renderer 1 []))
    as H1 by (vm_compute; reflexivity).
  assert (meshes (sample_renderer 1 []) = Some 0%nat) as H2 by (vm_compute; reflexivity).
  assert (n_meshes (sample_renderer 1 []) ≠ capacity_meshes (sample_renderer 1 []))
    as H3 by (vm_compute; intros [=]).
  assert (0 ≤ n_meshes (sample_renderer 1 []) < SIZE_MAX)
    as H4 by (vm_compute; split; [intros [=] | reflexivity]).
  assert (mesh_slot (H := sample_platform) (sample_world 1 []) (Some 0%nat)
            (n_meshes (sample_renderer 1 [])) = Some blank_mesh)
    as H5 by (vm_compute; reflexivity).
  assert (size_t_mul sizeof_vertex 3 ≤ sizeof_vertex * Z.of_nat (length (triangle 1)))
    as H6 by (vm_compute; intros [=]).
  assert (1 ≤ Z.of_nat (length [0])) as H7 by (vm_compute; intros [=]).
  assert (Tex3DS_decode (Platform := sample_platform) (take (Z.to_nat 1) [0]) = None)
    as H8 by (vm_compute; reflexivity).
  assert (head (alloc_script (sample_world 1 [])) ≠ Some false)
    as H9 by (vm_compute; intros [=]).
  split; [exact H1|]. split; [exact H2|]. split; [exact H8|].
  apply (register_import_failure_panics (H := sample_platform)
           _ _ _ (triangle 1) 3 [0] 1 default_material _ _ H1 H2 H3 H4 H5);
    [ vm_compute; intros [=] | vm_compute; intros [=]
    | exact H6 | exact H7 | exact H8 | exact H9 ].
Defined.

(** Mesh 0 queued twice, then a second triangle registered. *)
Lemma register_keeps_queued_jobs_witness :
  renderers (sample_world 1 [0; 0]) !! 0%nat = Some (sample_renderer 1 [0; 0]) ∧
  meshes (sample_renderer 1 [0; 0]) = Some 0%nat ∧
  requests (sample_renderer 1 [0; 0]) = Some 2%nat ∧
  frame_jobs (H := sample_platform) (sample_world 1 [0; 0]) (sample_renderer 1 [0; 0])
  = Some (sample_jobs 1 [0; 0]) ∧
  ∃ w' r',
    renderer_register_mesh (H := sample_platform) the_renderer
      (Some (triangle 1)) 3 (Some [2]) 1 default_material (sample_world 1 [0; 0])
    = Ok 1 w' ∧
    renderers w' !! 0%nat = Some r' ∧
    frame_jobs (H := sample_platform) w' r' = Some (sample_jobs 1 [0; 0]).
Proof.
  set (W := sample_world 1 [0; 0]). set (R := sample_renderer 1 [0; 0]).
  assert (renderers W !! 0%nat = Some R) as H1 by (vm_compute; reflexivity).
  assert (meshes R = Some 0%nat) as H2 by (vm_compute; reflexivity).
  assert (requests R = Some 2%nat) as H3 by (vm_compute; reflexivity).
  assert (n_meshes R ≠ capacity_meshes R) as H4 by (vm_compute; intros [=]).
  assert (0 ≤ n_meshes R < SIZE_MAX)
    as H5 by (vm_compute; split; [intros [=] | reflexivity]).
  assert (n_requests R = 2) as Hn by (vm_compute; reflexivity).
  assert (∀ k, k = 0 ∨ k = 1 →
            (request_slot W (Some 2%nat) k ≫= req_mesh_id) = Some 0) as Hid.
  { intros k [-> | ->]; vm_compute; reflexivity. }
  assert (n_meshes R = 1) as Hm by (vm_compute; reflexivity).
  assert (∀ k rq, 0 ≤ k < n_requests R → request_slot W (Some 2%nat) k = Some rq →
                  req_mesh_id rq ≠ Some (n_meshes R)) as H6.
  { intros k rq Hk Es. rewrite Hn in Hk. rewrite Hm.
    assert (k = 0 ∨ k = 1) as Hk' by lia.
    pose proof (Hid k Hk') as Hid'. rewrite Es in Hid'. cbn [mbind option_bind] in Hid'.
    rewrite Hid'. intros [=]. }
  assert (frame_jobs (H := sample_platform) W R = Some (sample_jobs 1 [0; 0]))
    as H7 by (vm_compute; reflexivity).
  assert (renderer_register_mesh (H := sample_platform) the_renderer
            (Some (triangle 1)) 3 (Some [2]) 1 default_material W
          = Ok 1 (world_of (renderer_register_mesh (H := sample_platform) the_renderer
                              (Some (triangle 1)) 3 (Some [2]) 1 default_material W)))
    as H8 by (vm_compute; reflexivity).
  split; [exact H1|]. split; [exact H2|]. split; [exact H3|]. split; [exact H7|].
  destruct (register_keeps_queued_jobs (H := sample_platform)
              _ _ _ _ _ _ _ _ _ _ _ _ _ H1 H2 H3 ltac:(lia) H4 H5 H6 H7 H8)
    as (r' & Hr' & Hj).
  eexists _, r'. split; [exact H8|]. split; [exact Hr' | exact Hj].
Defined.

(** The panic of a registration whose texture does not decode. *)
Lemma register_panics_witness :
  ∃ line message w',
    renderer_register_mesh (H := sample_platform) the_renderer
      (Some (triangle 1)) 3 (Some [0]) 1 default_material (sample_world 1 [])
    = Panic line message w' ∧
    line = 114 ∧
    ((line = 91 ∧ message = "this was null!") ∨
     (line = 92 ∧ message = "vertices was null!") ∨
     (line = 93 ∧ message = "texture_data was null!") ∨
     (line = 94 ∧ message = "n_vertices was zero!") ∨
     (line = 95 ∧ message = "texture_size was zero!") ∨
     (line = 62 ∧ message = "failed malloc") ∨
     (line = 68 ∧ message = "failed realloc") ∨
     (line = 114 ∧ message = "importing t3x texture failed!") ∨
     (line = 107 ∧ message = "mesh->vbo_data was null!" ∧
      size_t_mul sizeof_vertex 3 = 0)).
Proof.
  assert (renderer_register_mesh (H := sample_platform) the_renderer
            (Some (triangle 1)) 3 (Some [0]) 1 default_material (sample_world 1 [])
          = Panic 114 "importing t3x texture failed!"
              (world_of (renderer_register_mesh (H := sample_platform) the_renderer
                 (Some (triangle 1)) 3 (Some [0]) 1 default_material
                 (sample_world 1 []))))
    as H1 by (vm_compute; reflexivity).
  eexists _, _, _. split; [exact H1|]. split; [reflexivity|].
  exact (register_panics (H := sample_platform) _ _ _ _ _ _ _ _ _ _ H1).
Defined.

(** The first request with no memory left. *)
Lemma request_panics_witness :
  ∃ line message w',
    renderer_request (H := sample_platform) the_renderer 0 (Some identity_Mtx)
      (out_of_memory (sample_world 1 []))
    = Panic line message w' ∧
    line = 139 ∧ message = "failed malloc".
Proof.
  assert (renderer_request (H := sample_platform) the_renderer 0 (Some identity_Mtx)
            (out_of_memory (sample_world 1 []))
          = Panic 139 "failed malloc"
              (world_of (renderer_request (H := sample_platform) the_renderer 0
                           (Some identity_Mtx) (out_of_memory (sample_world 1 [])))))
    as H1 by (vm_compute; reflexivity).
  destruct (request_panics (H := sample_platform) _ _ _ _ _ _ _ H1) as (Hl & Hm & _).
  eexists _, _, _. split; [exact H1|]. split; [exact Hl | exact Hm].
Defined.

(** A frame on a null renderer. *)
Lemma render_panics_witness :
  ∃ line message w',
    renderer_render (H := sample_platform) NULL boot = Panic line message w' ∧
    line = 158 ∧ w' = boot.
Proof.
  assert (renderer_render (H := sample_platform) NULL boot
          = Panic 158 "this was null!" boot) as H1 by reflexivity.
  destruct (render_panics (H := sample_platform) _ _ _ _ _ H1) as (_ & Hl & _ & Hw).
  eexists _, _, _. split; [exact H1|]. split; [exact Hl | exact Hw].
Defined.
